(** * The conversion service of [converter/convert.py], embedded in Rocq

    The development follows the Python source function by function.  The
    status dictionary is a record, [update_status] appends the snapshot it
    saves to the list of published documents, and every function that
    touches the status, the file system or a subprocess lives in a small
    state-and-exception monad [M].

    Conventions of the embedding:
    - A Python float is the rational ([Q]) it denotes.  Every arithmetic
      operation of the source rounds its exact result to the nearest
      binary64 value, ties to even ([Py.fl]: 53 significant bits, gradual
      underflow below 2^-1022).  A result of magnitude 2^1024 or more is what
      binary64 turns into an infinity; [int()] raises [OverflowError] on it
      ([Py.isinf]).
    - The builtin [float()] is a parameter [py_float] of the section (a
      [ValueError] is [None]), so nothing is assumed about which literals it
      accepts.  The floats it returns are finite: the literals [inf] and
      [nan] are outside the model.
    - Strings are [string]s of bytes; [str.strip] and [str.lower] act on the
      ASCII range.
    - The host is an [env] of oracles: the directory walk, the listing of
      /dev/dri, and what each subprocess does.  Log output ([print]) and
      [time.sleep] have no effect on the modelled state.
    - Two calls of [convert_video] stand outside every [try] and are taken to
      succeed on the hosts considered: [os.makedirs] of the output directory
      (line 91) and [os.listdir] of an existing /dev/dri (line 129).  A host
      where one of them raises is outside the model. *)

From Stdlib Require Import List String Ascii ZArith QArith Qround Qpower Qabs Bool Lia Lqa.
From Stdlib Require Import Sorted.
Import ListNotations.

Local Open Scope string_scope.

(** ** Python string builtins used by the source *)

Module Py.

(** [s.startswith(p)] *)
Definition startswith (p s : string) : bool := String.prefix p s.

(** [sub in s] *)
Fixpoint str_in (sub s : string) : bool :=
  String.prefix sub s ||
  match s with
  | EmptyString => false
  | String _ s' => str_in sub s'
  end.

(** The characters [str.strip()] removes, on the ASCII range. *)
Definition isspace (c : ascii) : bool :=
  let n := nat_of_ascii c in
  (Nat.eqb n 32) || ((9 <=? n)%nat && (n <=? 13)%nat) || ((28 <=? n)%nat && (n <=? 31)%nat).

Fixpoint lstrip (s : string) : string :=
  match s with
  | EmptyString => EmptyString
  | String c s' => if isspace c then lstrip s' else s
  end.

Fixpoint rstrip (s : string) : string :=
  match s with
  | EmptyString => EmptyString
  | String c s' =>
      match rstrip s' with
      | EmptyString => if isspace c then EmptyString else String c EmptyString
      | t => String c t
      end
  end.

(** [s.strip()] *)
Definition strip (s : string) : string := rstrip (lstrip s).

(** [s.split(sep, 1)[1]] for a one-character [sep]: the text after the first
    occurrence, [None] (an IndexError) when [sep] does not occur. *)
Fixpoint split1_snd (sep : ascii) (s : string) : option string :=
  match s with
  | EmptyString => None
  | String c s' => if Ascii.eqb c sep then Some s' else split1_snd sep s'
  end.

(** [s.replace(c, '')] for a one-character [c] *)
Fixpoint remove_char (c : ascii) (s : string) : string :=
  match s with
  | EmptyString => EmptyString
  | String d s' => if Ascii.eqb d c then remove_char c s' else String d (remove_char c s')
  end.

Definition lower_char (c : ascii) : ascii :=
  let n := nat_of_ascii c in
  if ((65 <=? n)%nat && (n <=? 90)%nat)%bool then ascii_of_nat (n + 32) else c.

(** [s.lower()] *)
Fixpoint lower (s : string) : string :=
  match s with
  | EmptyString => EmptyString
  | String c s' => String (lower_char c) (lower s')
  end.

(** [s[s.rfind(c):]], [None] when [c] does not occur. *)
Fixpoint rfind_suffix (c : ascii) (s : string) : option string :=
  match s with
  | EmptyString => None
  | String d s' =>
      match rfind_suffix c s' with
      | Some t => Some t
      | None => if Ascii.eqb d c then Some s else None
      end
  end.

(** [s[:s.rfind(c)]], [None] when [c] does not occur. *)
Fixpoint rfind_prefix (c : ascii) (s : string) : option string :=
  match s with
  | EmptyString => None
  | String d s' =>
      match rfind_prefix c s' with
      | Some t => Some (String d t)
      | None => if Ascii.eqb d c then Some EmptyString else None
      end
  end.

(** [pathlib.Path(name).suffix] for a bare file name: the text from the last
    dot on, provided that dot is neither the first nor the last character. *)
Definition suffix (name : string) : string :=
  match name with
  | EmptyString => EmptyString
  | String _ rest =>
      match rfind_suffix "." rest with
      | Some (String d (String e t)) => String d (String e t)
      | _ => EmptyString
      end
  end.

(** [os.path.basename(p)] *)
Definition basename (p : string) : string :=
  match rfind_suffix "/" p with
  | Some (String _ b) => b
  | _ => p
  end.

(** The directory part of [p] with its trailing slash, [p[:p.rfind('/')+1]]. *)
Definition dir_prefix (p : string) : string :=
  match rfind_prefix "/" p with
  | Some d => d ++ "/"
  | None => EmptyString
  end.

(** Does [s] hold a character other than a dot? *)
Fixpoint has_non_dot (s : string) : bool :=
  match s with
  | EmptyString => false
  | String c s' => negb (Ascii.eqb c ".") || has_non_dot s'
  end.

(** [os.path.splitext(p)]: split at the last dot of the last component,
    unless only dots come before it in that component. *)
Definition splitext (p : string) : string * string :=
  let b := basename p in
  match rfind_prefix "." b, rfind_suffix "." b with
  | Some stem, Some ext =>
      if has_non_dot stem then (dir_prefix p ++ stem, ext) else (p, EmptyString)
  | _, _ => (p, EmptyString)
  end.

(** [os.path.join(a, b)] *)
Definition join (a b : string) : string :=
  if startswith "/" b then b
  else match a with
       | EmptyString => b
       | _ => if String.eqb (substring (String.length a - 1) 1 a) "/" then a ++ b
              else a ++ "/" ++ b
       end.

(** [p.split('/')] *)
Fixpoint split_slash (p : string) : list string :=
  match p with
  | EmptyString => [EmptyString]
  | String c p' =>
      if Ascii.eqb c "/" then EmptyString :: split_slash p'
      else match split_slash p' with
           | [] => [String c EmptyString]
           | w :: ws => String c w :: ws
           end
  end.

(** The component loop of [os.path.normpath] on an absolute path. *)
Fixpoint normpath_comps (comps acc : list string) : list string :=
  match comps with
  | [] => rev acc
  | comp :: rest =>
      if String.eqb comp "" || String.eqb comp "." then normpath_comps rest acc
      else if String.eqb comp ".." then normpath_comps rest (tl acc)
      else normpath_comps rest (comp :: acc)
  end.

(** The non-empty components of [os.path.abspath(p)], [p] absolute. *)
Definition abs_components (p : string) : list string :=
  normpath_comps (split_slash p) [].

Fixpoint drop_common (xs ys : list string) : list string * list string :=
  match xs, ys with
  | x :: xs', y :: ys' => if String.eqb x y then drop_common xs' ys' else (xs, ys)
  | _, _ => (xs, ys)
  end.

(** [os.path.relpath(path, start)] on absolute paths. *)
Definition relpath (path start : string) : string :=
  let '(s_rest, p_rest) := drop_common (abs_components start) (abs_components path) in
  match (repeat ".." (List.length s_rest) ++ p_rest)%list with
  | [] => "."
  | rel => String.concat "/" rel
  end.

(** [sorted(l)] on strings (code-point order). *)
Fixpoint insert_sorted (x : string) (l : list string) : list string :=
  match l with
  | [] => [x]
  | y :: l' => if String.leb x y then x :: l else y :: insert_sorted x l'
  end.

Definition sorted (l : list string) : list string :=
  fold_right insert_sorted [] l.

(** *** Floats

    [pow2 e] is 2^e. *)
Definition pow2 (e : Z) : Q := (2 ^ e)%Q.

(** The binary exponent of a positive [q]: 2^e <= q < 2^(e+1). *)
Definition ilog2 (q : Q) : Z :=
  let k := (Z.log2 (Qnum q) - Z.log2 (Zpos (Qden q)))%Z in
  if Qle_bool (pow2 k) q then k else (k - 1)%Z.

(** The nearest integer, ties to the even one. *)
Definition round_half_even (x : Q) : Z :=
  let f := Qfloor x in
  match (x - inject_Z f ?= 1 # 2)%Q with
  | Lt => f
  | Gt => (f + 1)%Z
  | Eq => if Z.even f then f else (f + 1)%Z
  end.

(** The binary64 value nearest to a positive [q]: a multiple of 2^(e-52),
    where e is the exponent of [q], and at least -1022 (below 2^-1022 the
    spacing stays 2^-1074). *)
Definition round_pos (q : Q) : Q :=
  let e := Z.max (ilog2 q) (-1022) in
  (inject_Z (round_half_even (q * pow2 (52 - e))) * pow2 (e - 52))%Q.

(** Rounding of an exact result to binary64 (round to nearest, ties to
    even), in lowest terms. *)
Definition fl (q : Q) : Q :=
  Qred match (q ?= 0)%Q with
       | Gt => round_pos q
       | Lt => - round_pos (- q)
       | Eq => 0
       end.

(** [a / b], [a * b] and [a - b] on floats *)
Definition truediv (a b : Q) : Q := fl (a / b).
Definition mul (a b : Q) : Q := fl (a * b).
Definition sub (a b : Q) : Q := fl (a - b).

(** The results that binary64 cannot hold and replaces by an infinity. *)
Definition isinf (q : Q) : bool := Qle_bool (pow2 1024) (Qabs q).

(** [int(q)] on a finite float: truncation toward zero. *)
Definition int (q : Q) : Z := Z.quot (Qnum q) (Zpos (Qden q)).

(** Truth value of a float: non-zero. *)
Definition truthy (q : Q) : bool := negb (Qeq_bool q 0).

(** [a > b] on floats *)
Definition gt (a b : Q) : bool := negb (Qle_bool a b).

(** [max(0, q)]: the first argument unless the second is greater. *)
Definition max0 (q : Q) : Q := if gt q 0 then q else 0%Q.

End Py.


(** A reader of plain decimal literals ([-12], [3000000], [1.5]): what
    [float()] returns on the numbers ffmpeg and ffprobe print, that is the
    float nearest to the decimal.  It only instantiates the parameter
    [py_float] in the concrete runs below. *)
Module Decimal.

Definition digit (c : ascii) : option Z :=
  let n := nat_of_ascii c in
  if ((48 <=? n)%nat && (n <=? 57)%nat)%bool then Some (Z.of_nat (n - 48)) else None.

(** Value and number of digits of a (possibly empty) run of digits. *)
Fixpoint digits (s : string) (acc : Z) (len : nat) : option (Z * nat) :=
  match s with
  | EmptyString => Some (acc, len)
  | String c s' =>
      match digit c with
      | Some d => digits s' (10 * acc + d)%Z (S len)
      | None => None
      end
  end.

Definition unsigned (s : string) : option Q :=
  let whole := match Py.rfind_prefix "." s with Some w => w | None => s end in
  let frac := match Py.rfind_suffix "." s with Some (String _ f) => f | _ => EmptyString end in
  match digits whole 0 0, digits frac 0 0 with
  | Some (w, lw), Some (f, lf) =>
      if (lw + lf =? 0)%nat then None
      else Some (Qmake (w * 10 ^ Z.of_nat lf + f) (Z.to_pos (10 ^ Z.of_nat lf)))
  | _, _ => None
  end.

(** The exact value of the literal. *)
Definition value (s : string) : option Q :=
  match Py.strip s with
  | String "-" t => option_map Qopp (unsigned t)
  | String "+" t => unsigned t
  | t => unsigned t
  end.

Definition float (s : string) : option Q := option_map Py.fl (value s).

End Decimal.

(** ** The status document and the process state *)

(** The global [conversion_status] dictionary. *)
Record ConversionStatus := mkStatus {
  active : bool;
  current_file : option string;
  progress : Z;
  speed : option Q;
  eta : option Z;
  status : string;
  method : option string
}.

(** Keyword arguments of [update_status]. *)
Inductive kwarg :=
| kw_active (b : bool)
| kw_current_file (f : option string)
| kw_progress (p : Z)
| kw_speed (v : option Q)
| kw_eta (t : option Z)
| kw_status (st : string)
| kw_method (m : option string).

Definition set_key (c : ConversionStatus) (k : kwarg) : ConversionStatus :=
  match k with
  | kw_active b => mkStatus b (current_file c) (progress c) (speed c) (eta c) (status c) (method c)
  | kw_current_file f => mkStatus (active c) f (progress c) (speed c) (eta c) (status c) (method c)
  | kw_progress p => mkStatus (active c) (current_file c) p (speed c) (eta c) (status c) (method c)
  | kw_speed v => mkStatus (active c) (current_file c) (progress c) v (eta c) (status c) (method c)
  | kw_eta t => mkStatus (active c) (current_file c) (progress c) (speed c) t (status c) (method c)
  | kw_status st => mkStatus (active c) (current_file c) (progress c) (speed c) (eta c) st (method c)
  | kw_method m => mkStatus (active c) (current_file c) (progress c) (speed c) (eta c) (status c) m
  end.

(** [conversion_status.update(kwargs)] *)
Definition dict_update (c : ConversionStatus) (kwargs : list kwarg) : ConversionStatus :=
  fold_left set_key kwargs c.

(** Exceptions the modelled code can meet; all derive from [Exception]. *)
Inductive exn :=
| OSError
| ValueError
| TimeoutExpired
| UnicodeDecodeError
| OverflowError
| CalledProcessError (returncode : Z).

Inductive outcome (A : Type) :=
| Ok (a : A)
| Raise (e : exn).
Arguments Ok {A} a.
Arguments Raise {A} e.

(** The mutable state: the status dictionary, the documents written to the
    status file so far (oldest first), the modification times of the regular
    files that [stat] can read, and the command lines handed to [subprocess]
    so far (oldest first). *)
Record sys := mkSys {
  conversion_status : ConversionStatus;
  published : list ConversionStatus;
  mtimes : list (string * Q);
  spawned : list (list string)
}.

Definition M (A : Type) : Type := sys -> outcome A * sys.

Definition ret {A} (a : A) : M A := fun s => (Ok a, s).

Definition bind {A B} (m : M A) (k : A -> M B) : M B :=
  fun s => match m s with
           | (Ok a, s') => k a s'
           | (Raise e, s') => (Raise e, s')
           end.

Definition raise {A} (e : exn) : M A := fun s => (Raise e, s).

(** [try: body  except Exception as ex: handler ex] *)
Definition try_except {A} (body : M A) (handler : exn -> M A) : M A :=
  fun s => match body s with
           | (Ok a, s') => (Ok a, s')
           | (Raise e, s') => handler e s'
           end.

Declare Scope monad_scope.
Delimit Scope monad_scope with monad.
Notation "x <- m ;; k" := (bind m (fun x => k))
  (at level 61, m at next level, right associativity) : monad_scope.
Notation "m ;; k" := (bind m (fun _ => k))
  (at level 61, right associativity) : monad_scope.
Local Open Scope monad_scope.

(** A running encoder: the lines of its progress channel, the exception (if
    any) that reading the channel ends with, what [stderr.read()] returns or
    raises once the encoder has ended, its exit code, and the modification
    time it leaves on the output file when it writes one. *)
Record process := mkProcess {
  stdout : list string;
  stdout_error : option exn;
  stderr : outcome string;
  returncode : Z;
  output_mtime : option Q
}.

(** The host, as oracles. *)
Record env := mkEnv {
  (** [os.listdir(d)]; [None] when [d] does not exist *)
  listdir : string -> option (list string);
  (** the triples [os.walk(d, followlinks=True)] yields *)
  os_walk : string -> list (string * list string * list string);
  (** [subprocess.run(cmd, ...).stdout], or the exception it raises *)
  subprocess_run : list string -> outcome string;
  (** [subprocess.Popen(cmd, ...)], or the exception it raises *)
  subprocess_Popen : list string -> outcome process
}.

Fixpoint fs_lookup (fs : list (string * Q)) (p : string) : option Q :=
  match fs with
  | [] => None
  | (q, t) :: fs' => if String.eqb q p then Some t else fs_lookup fs' p
  end.

Definition fs_write (fs : list (string * Q)) (p : string) (t : Q) : list (string * Q) :=
  (p, t) :: fs.

(** [os.path.exists(d)] for a directory *)
Definition dir_exists (e : env) (d : string) : bool :=
  match listdir e d with Some _ => true | None => false end.

(** [os.path.exists(d + '/' + name)] for an entry of a directory *)
Definition entry_exists (e : env) (d name : string) : bool :=
  match listdir e d with
  | Some entries => existsb (String.eqb name) entries
  | None => false
  end.

(** [os.path.exists(p)] for a regular file *)
Definition os_path_exists (p : string) : M bool :=
  fun s => match fs_lookup (mtimes s) p with
           | Some _ => (Ok true, s)
           | None => (Ok false, s)
           end.

(** [os.path.getmtime(p)] *)
Definition getmtime (p : string) : M Q :=
  fun s => match fs_lookup (mtimes s) p with
           | Some t => (Ok t, s)
           | None => (Raise OSError, s)
           end.

(** [subprocess.run(cmd, ...).stdout] *)
Definition run (e : env) (cmd : list string) : M string :=
  fun s =>
    (subprocess_run e cmd,
     mkSys (conversion_status s) (published s) (mtimes s) (spawned s ++ [cmd])).

(** [subprocess.Popen(cmd, ...)]: when the encoder starts, the output file
    gets the modification time the run leaves on it. *)
Definition Popen (e : env) (cmd : list string) (output_path : string) : M process :=
  fun s =>
    match subprocess_Popen e cmd with
    | Ok p =>
        (Ok p, mkSys (conversion_status s) (published s)
                     (match output_mtime p with
                      | Some t => fs_write (mtimes s) output_path t
                      | None => mtimes s
                      end)
                     (spawned s ++ [cmd]))
    | Raise ex =>
        (Raise ex, mkSys (conversion_status s) (published s) (mtimes s) (spawned s ++ [cmd]))
    end.

(** ** converter/convert.py *)

Definition INPUT_DIR : string := "/input".
Definition OUTPUT_DIR : string := "/output".

Definition VIDEO_EXTENSIONS : list string :=
  [".mp4"; ".avi"; ".mkv"; ".mov"; ".wmv"; ".flv"; ".webm"; ".m4v"; ".3gp"; ".ogv"].

(** The initial value of the global *)
Definition conversion_status_init : ConversionStatus :=
  mkStatus false None 0 None None "idle" None.

(** [update_status] with its keyword arguments: update the dictionary, then [save_status()]
    writes the whole dictionary to the status file. *)
Definition update_status (kwargs : list kwarg) : M unit :=
  fun s =>
    let c := dict_update (conversion_status s) kwargs in
    (Ok tt, mkSys c (published s ++ [c]) (mtimes s) (spawned s)).

Definition get_video_files (e : env) (directory : string) : list string :=
  Py.sorted
    (flat_map
       (fun '(root, _, files) =>
          map (Py.join root)
              (filter (fun file =>
                         existsb (String.eqb (Py.lower (Py.suffix file))) VIDEO_EXTENSIONS)
                      files))
       (os_walk e directory)).

Definition get_output_path (input_path : string) : string :=
  let relative_path := Py.relpath input_path INPUT_DIR in
  let output_path := Py.join OUTPUT_DIR relative_path in
  let base_name := fst (Py.splitext output_path) in
  base_name ++ ".mp4".

Definition needs_conversion (input_path output_path : string) : M bool :=
  ex <- os_path_exists output_path ;;
  if negb ex then ret true
  else
    input_mtime <- getmtime input_path ;;
    output_mtime <- getmtime output_path ;;
    ret (Py.gt input_mtime output_mtime).

(** [int(x)] on a float: an infinity raises [OverflowError]. *)
Definition int_ (x : Q) : M Z :=
  if Py.isinf x then raise OverflowError else ret (Py.int x).

(** [process.stderr.read()] *)
Definition read_stderr (p : process) : M string :=
  match stderr p with
  | Ok text => ret text
  | Raise ex => raise ex
  end.

Section Converter.

(** The builtin [float(s)]; [None] stands for its [ValueError]. *)
Variable py_float : string -> option Q.

Definition float_ (s : string) : M Q :=
  match py_float s with
  | Some q => ret q
  | None => raise ValueError
  end.

Definition probe_cmd (input_path : string) : list string :=
  ["ffprobe"; "-v"; "error"; "-show_entries"; "format=duration";
   "-of"; "default=noprint_wrappers=1:nokey=1"; input_path].

(** Lines 105-115 of [convert_video]: the duration probe. *)
Definition probe_duration (e : env) (input_path : string) : M (option Q) :=
  try_except
    (out <- run e (probe_cmd input_path) ;;
     d <- float_ (Py.strip out) ;;
     ret (Some d))
    (fun _ => ret None).

Definition check_cmd : list string := ["ffmpeg"; "-hide_banner"; "-encoders"].

(** Lines 121-136: is a render node there? *)
Definition device_check (e : env) : bool :=
  if entry_exists e "/dev/dri" "renderD128" then true
  else if dir_exists e "/dev/dri" then
    match listdir e "/dev/dri" with
    | Some entries =>
        match filter (Py.startswith "renderD") entries with
        | [] => false
        | _ :: _ => true
        end
    | None => false
    end
  else false.

(** Lines 117-160 of [convert_video]: the Quick Sync check; the result is
    [use_qsv]. *)
Definition check_quick_sync (e : env) : M bool :=
  let device_ok := device_check e in
  if device_ok then
    try_except
      (out <- run e check_cmd ;;
       if Py.str_in "h264_qsv" out then ret true else ret false)
      (fun _ => ret false)
  else ret false.

Definition qsv_cmd (input_path output_path : string) : list string :=
  ["ffmpeg";
   "-init_hw_device"; "qsv=hw:/dev/dri/renderD128";
   "-i"; input_path;
   "-vf"; "format=nv12,hwupload=extra_hw_frames=64";
   "-c:v"; "h264_qsv";
   "-preset"; "medium";
   "-global_quality"; "23";
   "-look_ahead"; "1";
   "-c:a"; "aac";
   "-b:a"; "192k";
   "-movflags"; "+faststart";
   "-profile:v"; "high";
   "-level"; "4.0";
   "-y";
   "-progress"; "pipe:1";
   "-loglevel"; "warning";
   output_path].

Definition software_cmd (input_path output_path : string) : list string :=
  ["ffmpeg";
   "-i"; input_path;
   "-c:v"; "libx264";
   "-preset"; "medium";
   "-crf"; "23";
   "-c:a"; "aac";
   "-b:a"; "192k";
   "-movflags"; "+faststart";
   "-pix_fmt"; "yuv420p";
   "-profile:v"; "high";
   "-level"; "4.0";
   "-y";
   "-progress"; "pipe:1";
   "-loglevel"; "error";
   output_path].

(** Lines 162-203: publish the method and build the command. *)
Definition select_encoder (use_qsv : bool) (input_path output_path : string)
  : M (list string) :=
  if use_qsv then
    update_status [kw_method (Some "qsv")] ;;
    ret (qsv_cmd input_path output_path)
  else
    update_status [kw_method (Some "software")] ;;
    ret (software_cmd input_path output_path).

(** [duration and duration > 0] *)
Definition duration_positive (duration : option Q) : bool :=
  match duration with
  | Some d => Py.truthy d && Py.gt d 0
  | None => false
  end.

(** [duration and speed > 0 and out_time > 0] *)
Definition eta_computable (duration : option Q) (speed out_time : Q) : bool :=
  match duration with
  | Some d => Py.truthy d && Py.gt speed 0 && Py.gt out_time 0
  | None => false
  end.

Definition duration_value (duration : option Q) : Q :=
  match duration with Some d => d | None => 0%Q end.

(** The text after the first [=] of a line that holds one. *)
Definition after_eq (line : string) : string :=
  match Py.split1_snd "=" line with Some v => v | None => EmptyString end.

(** Lines 213-234: the body of the loop over [process.stdout]; takes and
    returns the local variable [out_time].  The [except] of line 232
    swallows every exception of the body; one raised after the assignment of
    line 221 leaves the new [out_time] behind, which is what the inner
    handler returns. *)
Definition handle_line (duration : option Q) (out_time : Q) (raw : string) : M Q :=
  let line := Py.strip raw in
  if String.eqb line "" || negb (Py.str_in "=" line) then ret out_time
  else
    try_except
      (if Py.startswith "out_time_ms=" line then
         out_time_ms <- float_ (after_eq line) ;;
         let out_time := Py.truediv out_time_ms 1000000 in
         try_except
           (if duration_positive duration then
              percent <- int_ (Py.mul (Py.truediv out_time (duration_value duration)) 100) ;;
              let progress := Z.min 100 percent in
              update_status [kw_progress progress] ;;
              ret out_time
            else ret out_time)
           (fun _ => ret out_time)
       else if Py.startswith "speed=" line then
         let speed_str := Py.strip (Py.remove_char "x" (after_eq line)) in
         speed <- float_ speed_str ;;
         update_status [kw_speed (Some speed)] ;;
         (if eta_computable duration speed out_time then
            let remaining :=
              Py.max0 (Py.truediv (Py.sub (duration_value duration) out_time) speed) in
            eta <- int_ remaining ;;
            update_status [kw_eta (Some eta)]
          else ret tt) ;;
         ret out_time
       else ret out_time)
      (fun _ => ret out_time).

Fixpoint read_progress (duration : option Q) (lines : list string) (out_time : Q) : M Q :=
  match lines with
  | [] => ret out_time
  | line :: rest =>
      out_time' <- handle_line duration out_time line ;;
      read_progress duration rest out_time'
  end.

Definition publish_error : M unit :=
  update_status [kw_active false; kw_current_file None; kw_progress 0;
                 kw_status "error"; kw_method None].

(** Lines 205-262: the body of the [try] of [convert_video]. *)
Definition transcode (e : env) (cmd : list string) (duration : option Q)
    (output_path : string) : M bool :=
  process <- Popen e cmd output_path ;;
  update_status [kw_status "converting"] ;;
  _ <- read_progress duration (stdout process) 0%Q ;;
  match stdout_error process with
  | Some ex => raise ex
  | None =>
      _ <- read_stderr process ;;
      if (returncode process =? 0)%Z then
        update_status [kw_active false; kw_current_file None; kw_progress 100;
                       kw_status "completed"; kw_method None] ;;
        update_status [kw_active false; kw_current_file None; kw_progress 0;
                       kw_status "idle"; kw_method None] ;;
        ret true
      else raise (CalledProcessError (returncode process))
  end.

Definition convert_video (e : env) (input_path output_path : string) : M bool :=
  let filename := Py.basename input_path in
  update_status [kw_active true; kw_current_file (Some filename); kw_progress 0;
                 kw_speed None; kw_eta None; kw_status "starting"] ;;
  duration <- probe_duration e input_path ;;
  use_qsv <- check_quick_sync e ;;
  cmd <- select_encoder use_qsv input_path output_path ;;
  try_except
    (transcode e cmd duration output_path)
    (fun ex =>
       match ex with
       | CalledProcessError _ =>
           publish_error ;;
           update_status [kw_status "idle"; kw_method None] ;;
           ret false
       | _ =>
           publish_error ;;
           update_status [kw_status "idle"; kw_method None] ;;
           ret false
       end).

(** Lines 301-307: the loop of [scan_and_convert]. *)
Fixpoint scan_loop (e : env) (video_files : list string) : M unit :=
  match video_files with
  | [] => ret tt
  | input_path :: rest =>
      let output_path := get_output_path input_path in
      needed <- needs_conversion input_path output_path ;;
      (if needed then _ <- convert_video e input_path output_path ;; ret tt
       else ret tt) ;;
      scan_loop e rest
  end.

Definition scan_and_convert (e : env) : M unit :=
  if negb (dir_exists e INPUT_DIR) then ret tt
  else
    let video_files := get_video_files e INPUT_DIR in
    scan_loop e video_files.

(** The [while True] of [main], unrolled over the hosts of the coming passes. *)
Fixpoint scan_forever (passes : list env) : M unit :=
  match passes with
  | [] => ret tt
  | e :: later => scan_and_convert e ;; scan_forever later
  end.

(** [main()], run for the first pass on [e] and the passes on [later]. *)
Definition main (e : env) (later : list env) : M unit :=
  update_status [kw_active false; kw_current_file None; kw_progress 0;
                 kw_speed None; kw_eta None; kw_status "idle"; kw_method None] ;;
  scan_and_convert e ;;
  scan_forever later.

End Converter.

(** ** Vocabulary of the properties *)

(** [docs] are the documents published between [s] and [s'], and the
    dictionary of [s'] is the last of them. *)
Definition emits (s s' : sys) (docs : list ConversionStatus) : Prop :=
  published s' = (published s ++ docs)%list /\
  conversion_status s' = last docs (conversion_status s).

(** Consecutive documents, starting from [c], are related by [R]. *)
Fixpoint chain (R : ConversionStatus -> ConversionStatus -> Prop)
    (c : ConversionStatus) (docs : list ConversionStatus) : Prop :=
  match docs with
  | [] => True
  | d :: rest => R c d /\ chain R d rest
  end.

(** Two documents that differ at most in [progress], [speed] and [eta]. *)
Definition same_phase (a b : ConversionStatus) : Prop :=
  active b = active a /\ current_file b = current_file a /\
  status b = status a /\ method b = method a.

(** The invariant of the data model: active exactly in the two working states. *)
Definition active_iff_working (c : ConversionStatus) : Prop :=
  active c = true <-> (status c = "starting" \/ status c = "converting").

(** The method field is absent or one of the two encoder families; the
    hardware family is spelled ["qsv"] in the document. *)
Definition method_in_enum (c : ConversionStatus) : Prop :=
  method c = None \/ method c = Some "qsv" \/ method c = Some "software".

(** What an idle document looks like. *)
Definition idle_is_reset (c : ConversionStatus) : Prop :=
  status c = "idle" -> active c = false /\ current_file c = None /\ progress c = 0%Z.

Definition clamp (lo hi x : Z) : Z := Z.max lo (Z.min hi x).

(** Rounding to the nearest integer (halves go up). *)
Definition round_nearest (q : Q) : Z := Qfloor (q + (1 # 2))%Q.

(** The progress the specification announces for [out_time_ms] microseconds
    of a [duration] seconds long input. *)
Definition spec_progress (out_time_ms duration : Q) : Z :=
  clamp 0 100 (round_nearest (100 * (out_time_ms / 1000000 / duration))%Q).

(** The percentage as the loop computes it on floats (lines 221 and 223):
    every operation rounds. *)
Definition percentage (duration out_time_ms : Q) : Q :=
  Py.mul (Py.truediv (Py.truediv out_time_ms 1000000) duration) 100.

(** The computed percentage with its fraction dropped instead of rounded. *)
Definition floor_progress (out_time_ms duration : Q) : Z :=
  clamp 0 100 (Qfloor (percentage duration out_time_ms)).

(** The remaining seconds as the loop computes them on floats (line 230). *)
Definition remaining (duration out_time speed : Q) : Q :=
  Py.max0 (Py.truediv (Py.sub duration out_time) speed).

(** A render node is listed in /dev/dri. *)
Definition device_node_present (e : env) : Prop :=
  exists entries name rest,
    listdir e "/dev/dri" = Some entries /\ In name entries /\ name = "renderD" ++ rest.

Section Vocabulary.

Variable py_float : string -> option Q.

(** The encoder list printed by the binary names the Quick Sync codec. *)
Definition codec_advertised (e : env) : Prop :=
  exists out before after,
    subprocess_run e check_cmd = Ok out /\ out = before ++ "h264_qsv" ++ after.

(** What a line of the progress channel means to the loop. *)
Inductive line_kind :=
| Ignored
| OutTimeMs (v : Q)
| Speed (v : Q).

Definition decode_line (raw : string) : line_kind :=
  let line := Py.strip raw in
  if String.eqb line "" then Ignored
  else if Py.startswith "out_time_ms=" line then
    match py_float (after_eq line) with Some v => OutTimeMs v | None => Ignored end
  else if Py.startswith "speed=" line then
    match py_float (Py.strip (Py.remove_char "x" (after_eq line))) with
    | Some v => Speed v
    | None => Ignored
    end
  else Ignored.

(** The [out_time_ms] values of [lines] never fall below [lo] nor below an
    earlier one. *)
Fixpoint out_times_nondecreasing (lo : Q) (lines : list string) : bool :=
  match lines with
  | [] => true
  | raw :: rest =>
      match decode_line raw with
      | OutTimeMs v => Qle_bool lo v && out_times_nondecreasing v rest
      | _ => out_times_nondecreasing lo rest
      end
  end.

(** A step of the loop that keeps the phase and does not lower [progress]. *)
Definition progress_step (a b : ConversionStatus) : Prop :=
  same_phase a b /\ (progress a <= progress b)%Z /\ (0 <= progress b <= 100)%Z.

(** The loop invariant behind the monotonicity of [progress]: the coming
    [out_time_ms] values stay above some [lo] whose percentage the current
    progress does not exceed. *)
Definition progress_below (d : option Q) (lines : list string) (c : ConversionStatus)
  : Prop :=
  exists lo,
    out_times_nondecreasing lo lines = true /\ (0 <= lo)%Q /\
    (0 <= progress c <= 100)%Z /\
    (duration_positive d = true ->
     (progress c <= Z.min 100 (Py.int (percentage (duration_value d) lo)))%Z).


(** The duration the probe of [convert_video] ends up with. *)
Definition duration_of (e : env) (input_path : string) : option Q :=
  match subprocess_run e (probe_cmd input_path) with
  | Ok out => py_float (Py.strip out)
  | Raise _ => None
  end.

(** The value of [use_qsv]. *)
Definition quick_sync (e : env) : bool :=
  device_check e &&
  match subprocess_run e check_cmd with
  | Ok out => Py.str_in "h264_qsv" out
  | Raise _ => false
  end.

(** The command line [convert_video] starts the encoder with. *)
Definition encoder_cmd (e : env) (input_path output_path : string) : list string :=
  if quick_sync e then qsv_cmd input_path output_path
  else software_cmd input_path output_path.

Definition method_name (e : env) : string :=
  if quick_sync e then "qsv" else "software".

(** The encoder started, its two channels were read to the end, and it
    exited 0. *)
Definition run_succeeds (e : env) (input_path output_path : string) : bool :=
  match subprocess_Popen e (encoder_cmd e input_path output_path) with
  | Ok p =>
      match stdout_error p, stderr p with
      | None, Ok _ => (returncode p =? 0)%Z
      | _, _ => false
      end
  | Raise _ => false
  end.

(** The encoder exits non-zero, or starting it or reading from one of its
    channels raises. *)
Definition run_fails (e : env) (input_path output_path : string) : Prop :=
  match subprocess_Popen e (encoder_cmd e input_path output_path) with
  | Ok p =>
      stdout_error p <> None \/ (exists ex, stderr p = Raise ex) \/ returncode p <> 0%Z
  | Raise _ => True
  end.

End Vocabulary.

(** The documents of the straight-line part of [convert_video]. *)
Definition starting_doc (c : ConversionStatus) (input_path : string) : ConversionStatus :=
  mkStatus true (Some (Py.basename input_path)) 0 None None "starting" (method c).

Definition method_doc (c : ConversionStatus) (m : string) : ConversionStatus :=
  mkStatus (active c) (current_file c) (progress c) (speed c) (eta c) (status c) (Some m).

Definition converting_doc (c : ConversionStatus) : ConversionStatus :=
  mkStatus (active c) (current_file c) (progress c) (speed c) (eta c) "converting" (method c).

Definition completed_doc (c : ConversionStatus) : ConversionStatus :=
  mkStatus false None 100 (speed c) (eta c) "completed" None.

Definition error_doc (c : ConversionStatus) : ConversionStatus :=
  mkStatus false None 0 (speed c) (eta c) "error" None.

Definition idle_doc (c : ConversionStatus) : ConversionStatus :=
  mkStatus false None 0 (speed c) (eta c) "idle" None.

(** The two documents that end a run. *)
Definition closing_docs (ok : bool) (c : ConversionStatus) : list ConversionStatus :=
  if ok then [completed_doc c; idle_doc c] else [error_doc c; idle_doc c].

(** The state after [update_status kwargs]. *)
Definition publish (s : sys) (kwargs : list kwarg) : sys :=
  let c := dict_update (conversion_status s) kwargs in
  mkSys c (published s ++ [c]) (mtimes s) (spawned s).

(** The state after a subprocess was started with [cmd]. *)
Definition log_spawn (s : sys) (cmd : list string) : sys :=
  mkSys (conversion_status s) (published s) (mtimes s) (spawned s ++ [cmd]).

(** The progress the loop computes from an [out_time_ms] value [v]. *)
Definition progress_at (d v : Q) : Z :=
  Z.min 100 (Py.int (percentage d v)).

(** The eta the loop computes from a speed [v]. *)
Definition eta_at (d out_time v : Q) : Z :=
  Py.int (remaining d out_time v).

(** Does an [out_time_ms] line with value [v] publish a progress?  Only
    with a positive duration and a finite percentage. *)
Definition progress_published (d : option Q) (v : Q) : bool :=
  duration_positive d && negb (Py.isinf (percentage (duration_value d) v)).

(** Does a speed line with value [v] publish an eta? *)
Definition eta_published (d : option Q) (v out_time : Q) : bool :=
  eta_computable d v out_time && negb (Py.isinf (remaining (duration_value d) out_time v)).

(** ** Concrete hosts and runs *)

(** The process at start-up. *)
Definition sys_init : sys := mkSys conversion_status_init [] [] [].

(** A host whose /dev/dri listing is [dri], whose input tree holds [files]
    at its top level, where [ffprobe] answers [probe], the encoder query
    answers [encoders] and starting the encoder gives [enc]. *)
Definition host (dri : option (list string)) (encoders probe : outcome string)
    (enc : outcome process) (files : list string) : env :=
  mkEnv
    (fun d => if String.eqb d "/dev/dri" then dri
              else if String.eqb d "/input" then Some files else None)
    (fun d => if String.eqb d "/input" then [("/input", [], files)] else [])
    (fun cmd => if String.eqb (hd "" cmd) "ffprobe" then probe else encoders)
    (fun _ => enc).

(** An encoder run that reports 3 s, then 16 s, and exits 0. *)
Definition run_ok : process :=
  mkProcess ["out_time_ms=3000000"; "speed=1.5x"; "progress=continue";
             "out_time_ms=16000000"; "progress=end"]
            None (Ok "") 0 (Some 10%Q).

(** An encoder run that reports 3 s and exits 1. *)
Definition run_exit1 : process :=
  mkProcess ["out_time_ms=3000000"; "progress=continue"] None (Ok "") 1 None.

Definition encoders_with_qsv : string :=
  " V..... h264_qsv             H.264 (Intel Quick Sync Video acceleration)".

(** No /dev/dri, a 16 s input, a successful software run. *)
Definition host_software : env :=
  host None (Raise OSError) (Ok "16.000000
") (Ok run_ok) ["clip.avi"].

(** Only renderD129 in /dev/dri, and a binary that lists h264_qsv. *)
Definition host_hardware : env :=
  host (Some ["card0"; "renderD129"]) (Ok encoders_with_qsv) (Ok "16.000000
") (Ok run_ok) ["clip.avi"].


(** The encoder exits 1. *)
Definition host_failing : env :=
  host None (Raise OSError) (Ok "16.000000
") (Ok run_exit1) ["clip.avi"; "next.mkv"].

(** Two inputs; a.avi was converted earlier and can no longer be read (a
    dangling link, or a directory that lost its search permission). *)
Definition host_two_files : env :=
  host None (Raise OSError) (Ok "16.000000
") (Ok run_ok) ["a.avi"; "b.avi"].

Definition sys_unreadable_input : sys :=
  mkSys conversion_status_init [] [("/output/a.mp4", 5%Q); ("/input/b.avi", 1%Q)] [].

(** clip.avi (modified at 1) and its output (written at 10). *)
Definition sys_converted : sys :=
  mkSys conversion_status_init [] [("/output/clip.mp4", 10%Q); ("/input/clip.avi", 1%Q)] [].

(** The fields of a document that the runs below are compared on. *)
Definition summary (c : ConversionStatus) : Z * string * option string * option Z :=
  (progress c, status c, method c, eta c).

(** ** More of converter/convert.py and of the vocabulary *)

(** String order of [sorted]. *)
Definition str_le (a b : string) : Prop := String.leb a b = true.

(** A directory or file name as [os.walk] yields them below the root: not
    empty, not [.] or [..], and without a slash. *)
Definition path_component (c : string) : Prop :=
  c <> "" /\ c <> "." /\ c <> ".." /\ Py.str_in "/" c = false.

(** [eta] is absent or not negative. *)
Definition eta_not_negative (c : ConversionStatus) : Prop :=
  match eta c with Some t => (0 <= t)%Z | None => True end.

(** A file name is shown exactly while a conversion is active. *)
Definition file_iff_active (c : ConversionStatus) : Prop :=
  active c = true <-> current_file c <> None.

(** The status changes that one conversion goes through. *)
Inductive transition : string -> string -> Prop :=
| t_method : transition "starting" "starting"
| t_launch : transition "starting" "converting"
| t_launch_failed : transition "starting" "error"
| t_progress : transition "converting" "converting"
| t_done : transition "converting" "completed"
| t_failed : transition "converting" "error"
| t_idle_after_done : transition "completed" "idle"
| t_idle_after_error : transition "error" "idle".

(** [s.split(sep, 1)] for a one-character [sep] that occurs in [s]: the text
    before and the text after its first occurrence; [None] when [sep] does
    not occur (the list then has one element). *)
Fixpoint split1 (sep : ascii) (s : string) : option (string * string) :=
  match s with
  | EmptyString => None
  | String c s' =>
      if Ascii.eqb c sep then Some (EmptyString, s')
      else match split1 sep s' with
           | Some (k, v) => Some (String c k, v)
           | None => None
           end
  end.

(** [parse_ffmpeg_progress(line)]; the one-entry dictionary it returns is
    the pair of its key and its value. *)
Definition parse_ffmpeg_progress (line : string) : option (string * string) :=
  if negb (Py.str_in "=" line) then None
  else
    match split1 "=" (Py.strip line) with
    | Some (key, value) => Some (Py.strip key, Py.strip value)
    | None => None
    end.

(** An encoder run that exits 1 after writing part of the output. *)
Definition run_exit1_partial : process :=
  mkProcess ["out_time_ms=3000000"; "progress=continue"] None (Ok "") 1 (Some 10%Q).

Definition host_partial_output : env :=
  host None (Raise OSError) (Ok "16.000000
") (Ok run_exit1_partial) ["clip.avi"].

(** An encoder run that exits 0 and whose error channel holds bytes that
    are not text: [stderr.read()] raises. *)
Definition run_garbled_stderr : process :=
  mkProcess ["out_time_ms=16000000"; "progress=end"] None (Raise UnicodeDecodeError) 0
            (Some 10%Q).

Definition host_garbled_stderr : env :=
  host None (Raise OSError) (Ok "16.000000
") (Ok run_garbled_stderr) ["clip.avi"].

(** clip.avi (modified at 1) without an output. *)
Definition sys_new_input : sys :=
  mkSys conversion_status_init [] [("/input/clip.avi", 1%Q)] [].

(** ** Facts about the builtins *)

Lemma prefix_split (p s : string) :
  String.prefix p s = true -> exists rest, s = p ++ rest.
Proof.
  revert s; induction p as [|c p IH]; intros s H.
  - exists s; reflexivity.
  - destruct s as [|d s]; simpl in H; [discriminate|].
    destruct (ascii_dec c d) as [->|]; [|discriminate].
    destruct (IH _ H) as [rest ->]. exists rest; reflexivity.
Qed.

Lemma prefix_app (p rest : string) : String.prefix p (p ++ rest) = true.
Proof.
  induction p as [|c p IH]; simpl.
  - destruct rest; reflexivity.
  - destruct (ascii_dec c c); [assumption|congruence].
Qed.

Lemma str_in_split (sub s : string) :
  Py.str_in sub s = true <-> exists before after, s = before ++ sub ++ after.
Proof.
  split.
  - induction s as [|c s IH]; cbn [Py.str_in]; intros H.
    + rewrite orb_false_r in H. destruct (prefix_split _ _ H) as [rest E].
      exists EmptyString, rest; exact E.
    + apply orb_true_iff in H as [H|H].
      * destruct (prefix_split _ _ H) as [rest ->].
        exists EmptyString, rest; reflexivity.
      * destruct (IH H) as (b & a & ->). exists (String c b), a; reflexivity.
  - intros (b & a & ->). induction b as [|c b IH].
    + change (EmptyString ++ sub ++ a) with (sub ++ a).
      destruct (sub ++ a) eqn:E; cbn [Py.str_in]; rewrite <- E, prefix_app; reflexivity.
    + change (String c b ++ sub ++ a) with (String c (b ++ sub ++ a)).
      cbn [Py.str_in]. rewrite IH. apply orb_true_r.
Qed.

Lemma int_floor (q : Q) : (0 <= q)%Q -> Py.int q = Qfloor q.
Proof.
  destruct q as [n d]; unfold Py.int, Qfloor, Qle; simpl; intros H.
  apply Z.quot_div_nonneg; lia.
Qed.

Lemma gt_true (a b : Q) : Py.gt a b = true <-> (b < a)%Q.
Proof.
  unfold Py.gt. rewrite negb_true_iff. split; intros H.
  - apply Qnot_le_lt. intros L. apply Qle_bool_iff in L. congruence.
  - destruct (Qle_bool a b) eqn:E; [|reflexivity].
    apply Qle_bool_iff in E. exfalso. exact (Qlt_not_le _ _ H E).
Qed.

Lemma gt_false (a b : Q) : Py.gt a b = false <-> (a <= b)%Q.
Proof.
  unfold Py.gt. rewrite negb_false_iff. apply Qle_bool_iff.
Qed.

(** ** Facts about the rounding of floats *)

Lemma pow2_pos (e : Z) : (0 < Py.pow2 e)%Q.
Proof. apply Qpower_0_lt. reflexivity. Qed.

Lemma pow2_plus (a b : Z) : (Py.pow2 (a + b) == Py.pow2 a * Py.pow2 b)%Q.
Proof. apply Qpower_plus. discriminate. Qed.

Lemma pow2_le (a b : Z) : (a <= b)%Z -> (Py.pow2 a <= Py.pow2 b)%Q.
Proof. intros H. apply Qpower_le_compat_l; [exact H|discriminate]. Qed.

Lemma pow2_lt_inv (a b : Z) : (Py.pow2 a < Py.pow2 b)%Q -> (a < b)%Z.
Proof. intros H. apply (Qpower_lt_compat_l_inv 2); [exact H|reflexivity]. Qed.

Lemma pow2_Z (n : Z) : (0 <= n)%Z -> (Py.pow2 n == inject_Z (2 ^ n))%Q.
Proof. intros H. symmetry. exact (Zpower_Qpower 2 n H). Qed.

(** [ilog2 q] is the binary exponent of a positive [q]. *)
Lemma ilog2_spec (q : Q) :
  (0 < q)%Q -> (Py.pow2 (Py.ilog2 q) <= q /\ q < Py.pow2 (Py.ilog2 q + 1))%Q.
Proof.
  intros Hq. destruct q as [n d].
  assert (Hn : (0 < n)%Z) by (unfold Qlt in Hq; cbn in Hq; lia).
  unfold Py.ilog2. cbn [Qnum Qden].
  set (ln := Z.log2 n). set (ld := Z.log2 (Z.pos d)).
  destruct (Z.log2_spec n Hn) as [Hn1 Hn2]. fold ln in Hn1, Hn2.
  destruct (Z.log2_spec (Z.pos d) eq_refl) as [Hd1 Hd2]. fold ld in Hd1, Hd2.
  assert (Hln : (0 <= ln)%Z) by apply Z.log2_nonneg.
  assert (Hld : (0 <= ld)%Z) by apply Z.log2_nonneg.
  assert (Eq : (n # d == inject_Z n / inject_Z (Z.pos d))%Q) by apply Qmake_Qdiv.
  assert (HD : (0 < inject_Z (Z.pos d))%Q) by reflexivity.
  assert (Qn1 : (Py.pow2 ln <= inject_Z n)%Q) by (rewrite pow2_Z, <- Zle_Qle; assumption).
  assert (Qn2 : (inject_Z n < Py.pow2 (ln + 1))%Q)
    by (rewrite pow2_Z, <- Zlt_Qlt by lia; replace (ln + 1)%Z with (Z.succ ln) by lia; assumption).
  assert (Qd1 : (Py.pow2 ld <= inject_Z (Z.pos d))%Q) by (rewrite pow2_Z, <- Zle_Qle; assumption).
  assert (Qd2 : (inject_Z (Z.pos d) < Py.pow2 (ld + 1))%Q)
    by (rewrite pow2_Z, <- Zlt_Qlt by lia; replace (ld + 1)%Z with (Z.succ ld) by lia; assumption).
  (* q < pow2 (ln - ld + 1) *)
  assert (Hup : (n # d < Py.pow2 (ln - ld + 1))%Q).
  { rewrite Eq. apply Qlt_shift_div_r; [exact HD|].
    eapply Qlt_le_trans; [exact Qn2|].
    replace (ln + 1)%Z with ((ln - ld + 1) + ld)%Z by lia. rewrite pow2_plus.
    apply Qmult_le_l; [apply pow2_pos|exact Qd1]. }
  assert (Hlo : (Py.pow2 (ln - ld - 1) < n # d)%Q).
  { rewrite Eq. apply Qlt_shift_div_l; [exact HD|].
    eapply Qlt_le_trans; [|exact Qn1].
    replace ln with ((ln - ld - 1) + (ld + 1))%Z at 2 by lia. rewrite pow2_plus.
    apply Qmult_lt_l; [apply pow2_pos|exact Qd2]. }
  destruct (Qle_bool (Py.pow2 (ln - ld)) (n # d)) eqn:E.
  - apply Qle_bool_iff in E. split; assumption.
  - split; [apply Qlt_le_weak; exact Hlo|].
    replace (ln - ld - 1 + 1)%Z with (ln - ld)%Z by lia.
    apply Qnot_le_lt. intros H. apply Qle_bool_iff in H. congruence.
Qed.

Lemma ilog2_mono (a b : Q) : (0 < a)%Q -> (a <= b)%Q -> (Py.ilog2 a <= Py.ilog2 b)%Z.
Proof.
  intros Ha Hab.
  destruct (ilog2_spec a Ha) as [A1 _].
  destruct (ilog2_spec b (Qlt_le_trans _ _ _ Ha Hab)) as [_ B2].
  assert (H : (Py.pow2 (Py.ilog2 a) < Py.pow2 (Py.ilog2 b + 1))%Q).
  { eapply Qle_lt_trans; [exact A1|]. eapply Qle_lt_trans; [exact Hab|exact B2]. }
  apply pow2_lt_inv in H. lia.
Qed.

Lemma round_half_even_bounds (x : Q) :
  (Qfloor x <= Py.round_half_even x <= Qfloor x + 1)%Z.
Proof.
  unfold Py.round_half_even.
  destruct (x - inject_Z (Qfloor x) ?= 1 # 2)%Q; [destruct (Z.even (Qfloor x))| |]; lia.
Qed.

Lemma round_half_even_mono (x y : Q) :
  (x <= y)%Q -> (Py.round_half_even x <= Py.round_half_even y)%Z.
Proof.
  intros Hxy.
  pose proof (Qfloor_resp_le _ _ Hxy) as Hf.
  pose proof (round_half_even_bounds x) as Bx.
  pose proof (round_half_even_bounds y) as By.
  destruct (Z.eq_dec (Qfloor x) (Qfloor y)) as [E|NE]; [|lia].
  unfold Py.round_half_even. rewrite <- E.
  destruct (Qcompare_spec (x - inject_Z (Qfloor x)) (1 # 2)) as [Hx|Hx|Hx];
    destruct (Qcompare_spec (y - inject_Z (Qfloor x)) (1 # 2)) as [Hy|Hy|Hy];
    try destruct (Z.even (Qfloor x)); try lia; exfalso; lra.
Qed.

Lemma round_half_even_Z (n : Z) : Py.round_half_even (inject_Z n) = n.
Proof.
  unfold Py.round_half_even. rewrite Qfloor_Z.
  destruct (Qcompare_spec (inject_Z n - inject_Z n) (1 # 2)) as [H|H|H];
    [exfalso; lra|reflexivity|exfalso; lra].
Qed.

Lemma round_pos_scaled_le (q : Q) (e : Z) (n : Z) :
  (q * Py.pow2 (52 - e) <= inject_Z n)%Q ->
  (inject_Z (Py.round_half_even (q * Py.pow2 (52 - e))) * Py.pow2 (e - 52)
   <= inject_Z n * Py.pow2 (e - 52))%Q.
Proof.
  intros H. apply Qmult_le_compat_r; [|apply Qlt_le_weak, pow2_pos].
  rewrite <- Zle_Qle. rewrite <- (round_half_even_Z n). apply round_half_even_mono, H.
Qed.

Lemma round_pos_scaled_ge (q : Q) (e : Z) (n : Z) :
  (inject_Z n <= q * Py.pow2 (52 - e))%Q ->
  (inject_Z n * Py.pow2 (e - 52)
   <= inject_Z (Py.round_half_even (q * Py.pow2 (52 - e))) * Py.pow2 (e - 52))%Q.
Proof.
  intros H. apply Qmult_le_compat_r; [|apply Qlt_le_weak, pow2_pos].
  rewrite <- Zle_Qle. rewrite <- (round_half_even_Z n) at 1. apply round_half_even_mono, H.
Qed.

Lemma pow2_53 (e : Z) : (inject_Z (2 ^ 53) * Py.pow2 (e - 52) == Py.pow2 (e + 1))%Q.
Proof.
  rewrite <- (pow2_Z 53) by lia. rewrite <- pow2_plus. replace (53 + (e - 52))%Z with (e + 1)%Z by lia.
  reflexivity.
Qed.

Lemma pow2_52 (e : Z) : (inject_Z (2 ^ 52) * Py.pow2 (e - 52) == Py.pow2 e)%Q.
Proof.
  rewrite <- (pow2_Z 52) by lia. rewrite <- pow2_plus. replace (52 + (e - 52))%Z with e by lia.
  reflexivity.
Qed.

Lemma round_pos_nonneg (q : Q) : (0 < q)%Q -> (0 <= Py.round_pos q)%Q.
Proof.
  intros Hq. unfold Py.round_pos. set (e := Z.max _ _).
  setoid_replace 0%Q with (inject_Z 0 * Py.pow2 (e - 52))%Q by ring.
  apply round_pos_scaled_ge. change (inject_Z 0) with 0%Q.
  apply Qmult_le_0_compat; [apply Qlt_le_weak, Hq|apply Qlt_le_weak, pow2_pos].
Qed.

Lemma round_pos_mono (a b : Q) :
  (0 < a)%Q -> (a <= b)%Q -> (Py.round_pos a <= Py.round_pos b)%Q.
Proof.
  intros Ha Hab.
  assert (Hb : (0 < b)%Q) by (eapply Qlt_le_trans; eassumption).
  pose proof (ilog2_mono a b Ha Hab) as Hlog.
  destruct (ilog2_spec a Ha) as [_ A2].
  destruct (ilog2_spec b Hb) as [B1 _].
  unfold Py.round_pos.
  set (ea := Z.max (Py.ilog2 a) (-1022)). set (eb := Z.max (Py.ilog2 b) (-1022)).
  destruct (Z.eq_dec ea eb) as [E|NE].
  - rewrite <- E. apply Qmult_le_compat_r; [|apply Qlt_le_weak, pow2_pos].
    rewrite <- Zle_Qle. apply round_half_even_mono.
    apply Qmult_le_compat_r; [exact Hab|apply Qlt_le_weak, pow2_pos].
  - assert (Hlt : (ea < eb)%Z) by (unfold ea, eb in *; lia).
    assert (Eb : eb = Py.ilog2 b) by (unfold ea, eb in *; lia).
    apply Qle_trans with (Py.pow2 (ea + 1)).
    + rewrite <- pow2_53. apply round_pos_scaled_le.
      setoid_replace (inject_Z (2 ^ 53)) with (Py.pow2 (ea + 1) * Py.pow2 (52 - ea))%Q.
      * apply Qmult_le_compat_r; [|apply Qlt_le_weak, pow2_pos].
        apply Qlt_le_weak. eapply Qlt_le_trans; [exact A2|].
        apply pow2_le. unfold ea. lia.
      * rewrite <- pow2_plus, <- (pow2_Z 53) by lia.
        replace (ea + 1 + (52 - ea))%Z with 53%Z by lia. reflexivity.
    + apply Qle_trans with (Py.pow2 eb); [apply pow2_le; lia|].
      rewrite <- pow2_52. apply round_pos_scaled_ge.
      setoid_replace (inject_Z (2 ^ 52)) with (Py.pow2 eb * Py.pow2 (52 - eb))%Q.
      * apply Qmult_le_compat_r; [|apply Qlt_le_weak, pow2_pos].
        rewrite Eb. exact B1.
      * rewrite <- pow2_plus, <- (pow2_Z 52) by lia.
        replace (eb + (52 - eb))%Z with 52%Z by lia. reflexivity.
Qed.

(** Rounding to the nearest float is monotone. *)
Lemma fl_mono (a b : Q) : (a <= b)%Q -> (Py.fl a <= Py.fl b)%Q.
Proof.
  intros Hab. unfold Py.fl. rewrite 2 Qred_correct.
  destruct (Qcompare_spec a 0) as [A|A|A]; destruct (Qcompare_spec b 0) as [B|B|B];
    try (exfalso; lra); try apply Qle_refl.
  - apply round_pos_nonneg, B.
  - pose proof (round_pos_nonneg (- a)). lra.
  - pose proof (round_pos_mono (- b) (- a)). lra.
  - pose proof (round_pos_nonneg (- a)). pose proof (round_pos_nonneg b). lra.
  - apply round_pos_mono; assumption.
Qed.

Lemma fl_nonneg (a : Q) : (0 <= a)%Q -> (0 <= Py.fl a)%Q.
Proof. intros H. change (Py.fl 0 <= Py.fl a)%Q. apply fl_mono, H. Qed.

Lemma truediv_mono_l (a b d : Q) :
  (0 < d)%Q -> (a <= b)%Q -> (Py.truediv a d <= Py.truediv b d)%Q.
Proof.
  intros Hd Hab. apply fl_mono. unfold Qdiv.
  apply Qmult_le_compat_r; [exact Hab|apply Qinv_le_0_compat, Qlt_le_weak, Hd].
Qed.

Lemma mul_mono_l (a b c : Q) :
  (0 <= c)%Q -> (a <= b)%Q -> (Py.mul a c <= Py.mul b c)%Q.
Proof. intros Hc Hab. apply fl_mono, Qmult_le_compat_r; assumption. Qed.

(** ** Facts about the monad and [update_status] *)

Ltac conjs :=
  repeat match goal with |- _ /\ _ => split end;
  try eassumption; try reflexivity.

Lemma emits_nil (s : sys) : emits s s [].
Proof. split; [symmetry; apply app_nil_r | reflexivity]. Qed.

Lemma last_app_last (a b : list ConversionStatus) (c : ConversionStatus) :
  last (a ++ b) c = last b (last a c).
Proof.
  revert c; induction a as [|x a IH]; intros c; [reflexivity|].
  destruct a as [|y a].
  - simpl. destruct b; [reflexivity|]. clear. revert x c c0.
    induction b as [|z b IHb]; intros; [reflexivity|]. simpl in *. apply IHb.
  - change (last ((x :: y :: a) ++ b) c) with (last ((y :: a) ++ b) c).
    change (last (x :: y :: a) c) with (last (y :: a) c). apply IH.
Qed.

Lemma emits_app (s s1 s2 : sys) (a b : list ConversionStatus) :
  emits s s1 a -> emits s1 s2 b -> emits s s2 (a ++ b).
Proof.
  intros [Ha Ca] [Hb Cb]. split.
  - rewrite Hb, Ha. symmetry; apply app_assoc.
  - rewrite Cb, Ca. symmetry; apply last_app_last.
Qed.

Lemma update_status_run (kwargs : list kwarg) (s : sys) :
  exists s', update_status kwargs s = (Ok tt, s') /\
             emits s s' [dict_update (conversion_status s) kwargs] /\
             mtimes s' = mtimes s /\ spawned s' = spawned s.
Proof.
  eexists; split; [reflexivity|]. repeat split.
Qed.

(** ** The catalog scanner: [needs_conversion] *)

Lemma needs_conversion_cases (input_path output_path : string) (s : sys) :
  needs_conversion input_path output_path s =
  match fs_lookup (mtimes s) output_path, fs_lookup (mtimes s) input_path with
  | None, _ => (Ok true, s)
  | Some _, None => (Raise OSError, s)
  | Some mo, Some mi => (Ok (Py.gt mi mo), s)
  end.
Proof.
  unfold needs_conversion, bind, os_path_exists, getmtime, ret.
  destruct (fs_lookup (mtimes s) output_path) as [mo|] eqn:Eo; simpl; [|reflexivity].
  destruct (fs_lookup (mtimes s) input_path) as [mi|]; [|reflexivity].
  rewrite Eo. reflexivity.
Qed.

(** C1.  For every input path and output path (the derived
    [get_output_path input_path] among them), [needs_conversion] returns
    true exactly when the output does not exist or the input's modification
    time is strictly newer than the output's, and it returns false exactly
    when both times can be read and the output's is at least the input's. *)
Theorem needs_conversion_iff (input_path output_path : string) (s : sys) :
  (needs_conversion input_path output_path s = (Ok true, s) <->
     fs_lookup (mtimes s) output_path = None \/
     exists mi mo, fs_lookup (mtimes s) input_path = Some mi /\
                   fs_lookup (mtimes s) output_path = Some mo /\ (mo < mi)%Q) /\
  (needs_conversion input_path output_path s = (Ok false, s) <->
     exists mi mo, fs_lookup (mtimes s) input_path = Some mi /\
                   fs_lookup (mtimes s) output_path = Some mo /\ (mi <= mo)%Q).
Proof.
  rewrite needs_conversion_cases.
  destruct (fs_lookup (mtimes s) output_path) as [mo|];
    destruct (fs_lookup (mtimes s) input_path) as [mi|]; split; split.
  - intros H. right. exists mi, mo. repeat split.
    apply gt_true. congruence.
  - intros [H|(mi' & mo' & Hi & Ho & L)]; [discriminate|].
    injection Hi as <-; injection Ho as <-.
    apply gt_true in L. rewrite L. reflexivity.
  - intros H. exists mi, mo. repeat split. apply gt_false. congruence.
  - intros (mi' & mo' & Hi & Ho & L).
    injection Hi as <-; injection Ho as <-.
    apply gt_false in L. rewrite L. reflexivity.
  - discriminate.
  - intros [H|(mi' & mo' & Hi & _)]; discriminate.
  - discriminate.
  - intros (mi' & mo' & Hi & _); discriminate.
  - intros _. left; reflexivity.
  - reflexivity.
  - discriminate.
  - intros (mi' & mo' & _ & Ho & _); discriminate.
  - intros _. left; reflexivity.
  - reflexivity.
  - discriminate.
  - intros (mi' & mo' & _ & Ho & _); discriminate.
Qed.

(** ** The transcode runner, step by step *)

Section Runner.

Variable py_float : string -> option Q.

Lemma probe_duration_run (e : env) (input_path : string) (s : sys) :
  probe_duration py_float e input_path s =
  (Ok (duration_of py_float e input_path), log_spawn s (probe_cmd input_path)).
Proof.
  unfold probe_duration, try_except, bind, run, float_, duration_of, log_spawn.
  destruct (subprocess_run e (probe_cmd input_path)) as [out|ex]; [|reflexivity].
  destruct (py_float (Py.strip out)); reflexivity.
Qed.

Lemma check_quick_sync_run (e : env) (s : sys) :
  check_quick_sync e s =
  (Ok (quick_sync e), if device_check e then log_spawn s check_cmd else s).
Proof.
  unfold check_quick_sync, quick_sync, try_except, bind, run, log_spawn.
  destruct (device_check e); [|reflexivity].
  destruct (subprocess_run e check_cmd) as [out|ex]; [|reflexivity].
  simpl. destruct (Py.str_in "h264_qsv" out); reflexivity.
Qed.

Lemma select_encoder_run (e : env) (input_path output_path : string) (s : sys) :
  select_encoder (quick_sync e) input_path output_path s =
  (Ok (encoder_cmd e input_path output_path),
   publish s [kw_method (Some (method_name e))]).
Proof.
  unfold select_encoder, encoder_cmd, method_name.
  destruct (quick_sync e); reflexivity.
Qed.

Lemma out_time_prefix_has_eq (line : string) :
  Py.startswith "out_time_ms=" line = true -> Py.str_in "=" line = true.
Proof.
  intros H. destruct (prefix_split _ _ H) as [rest ->].
  apply str_in_split. exists "out_time_ms", rest. reflexivity.
Qed.

Lemma speed_prefix_has_eq (line : string) :
  Py.startswith "speed=" line = true -> Py.str_in "=" line = true.
Proof.
  intros H. destruct (prefix_split _ _ H) as [rest ->].
  apply str_in_split. exists "speed", rest. reflexivity.
Qed.

(** One turn of the loop over the progress channel, by the meaning of the
    line. *)
Lemma handle_line_spec (d : option Q) (out_time : Q) (raw : string) (s : sys) :
  handle_line py_float d out_time raw s =
  match decode_line py_float raw with
  | Ignored => (Ok out_time, s)
  | OutTimeMs v =>
      if progress_published d v
      then (Ok (Py.truediv v 1000000),
            publish s [kw_progress (progress_at (duration_value d) v)])
      else (Ok (Py.truediv v 1000000), s)
  | Speed v =>
      if eta_published d v out_time
      then (Ok out_time,
            publish (publish s [kw_speed (Some v)])
                    [kw_eta (Some (eta_at (duration_value d) out_time v))])
      else (Ok out_time, publish s [kw_speed (Some v)])
  end.
Proof.
  unfold handle_line, decode_line, progress_published, eta_published.
  destruct (String.eqb (Py.strip raw) "") eqn:Eempty; [reflexivity|].
  cbn [orb].
  destruct (Py.startswith "out_time_ms=" (Py.strip raw)) eqn:Eo.
  - rewrite (out_time_prefix_has_eq _ Eo). cbn [negb].
    unfold try_except, bind, float_.
    destruct (py_float (after_eq (Py.strip raw))) as [v|]; [|reflexivity].
    cbn [ret]. destruct (duration_positive d); [|reflexivity].
    unfold int_, percentage. cbn [andb].
    destruct (Py.isinf _); reflexivity.
  - destruct (Py.startswith "speed=" (Py.strip raw)) eqn:Es.
    + rewrite (speed_prefix_has_eq _ Es). cbn [negb].
      unfold try_except, bind, float_.
      destruct (py_float (Py.strip (Py.remove_char "x" (after_eq (Py.strip raw)))))
        as [v|]; [|reflexivity].
      cbn [ret update_status]. destruct (eta_computable d v out_time); [|reflexivity].
      unfold int_, remaining. cbn [andb].
      destruct (Py.isinf _); reflexivity.
    + destruct (Py.str_in "=" (Py.strip raw)); reflexivity.
Qed.

(** The loop over the progress channel.  [J lines c] is an invariant on the
    lines still to come and the current dictionary; [R] relates each
    published document to the one before it. *)
Section Loop.

Variable d : option Q.
Variable J : list string -> ConversionStatus -> Prop.
Variable R : ConversionStatus -> ConversionStatus -> Prop.

Hypothesis step_ok : forall raw rest c,
  J (raw :: rest) c ->
  match decode_line py_float raw with
  | Ignored => J rest c
  | OutTimeMs v =>
      if progress_published d v then
        let c' := set_key c (kw_progress (progress_at (duration_value d) v)) in
        R c c' /\ J rest c'
      else J rest c
  | Speed v =>
      forall out_time,
        let c1 := set_key c (kw_speed (Some v)) in
        R c c1 /\
        if eta_published d v out_time then
          let c2 := set_key c1 (kw_eta (Some (eta_at (duration_value d) out_time v))) in
          R c1 c2 /\ J rest c2
        else J rest c1
  end.

Lemma read_progress_chain (lines : list string) :
  forall (out_time : Q) (s : sys),
    J lines (conversion_status s) ->
    exists out_time' docs s',
      read_progress py_float d lines out_time s = (Ok out_time', s') /\
      emits s s' docs /\
      chain R (conversion_status s) docs /\
      J [] (conversion_status s') /\
      mtimes s' = mtimes s /\ spawned s' = spawned s.
Proof.
  induction lines as [|raw rest IH]; intros out_time s HJ.
  - exists out_time, [], s. repeat split; auto using emits_nil.
    symmetry; apply app_nil_r.
  - cbn [read_progress]. unfold bind at 1. rewrite handle_line_spec.
    specialize (step_ok raw rest _ HJ).
    destruct (decode_line py_float raw) as [|v|v].
    + destruct (IH out_time s step_ok) as (o' & docs & s' & E & Hem & Hch & HJ' & Hm & Hs).
      exists o', docs, s'. conjs.
    + destruct (progress_published d v).
      * destruct step_ok as [HR HJ1].
        destruct (IH (Py.truediv v 1000000)
                     (publish s [kw_progress (progress_at (duration_value d) v)]) HJ1)
          as (o' & docs & s' & E & Hem & Hch & HJ' & Hm & Hs).
        eexists o', (_ :: docs), s'. split; [exact E|].
        split; [|split; [split; [exact HR|exact Hch]|conjs]].
        apply (emits_app _ (publish s [kw_progress (progress_at (duration_value d) v)]) _ [_] docs);
          [split; reflexivity|exact Hem].
      * destruct (IH (Py.truediv v 1000000) s step_ok)
          as (o' & docs & s' & E & Hem & Hch & HJ' & Hm & Hs).
        exists o', docs, s'. conjs.
    + specialize (step_ok out_time). cbv zeta in step_ok.
      destruct step_ok as [HR1 Hrest].
      destruct (eta_published d v out_time).
      * destruct Hrest as [HR2 HJ2].
        destruct (IH out_time
                     (publish (publish s [kw_speed (Some v)])
                        [kw_eta (Some (eta_at (duration_value d) out_time v))]) HJ2)
          as (o' & docs & s' & E & Hem & Hch & HJ' & Hm & Hs).
        eexists o', (_ :: _ :: docs), s'. split; [exact E|].
        split; [|split; [split; [exact HR1|split; [exact HR2|exact Hch]]|conjs]].
        apply (emits_app _ (publish (publish s [kw_speed (Some v)])
                        [kw_eta (Some (eta_at (duration_value d) out_time v))]) _ [_; _] docs);
          [split; [cbn; rewrite <- app_assoc; reflexivity|reflexivity]|exact Hem].
      * destruct (IH out_time (publish s [kw_speed (Some v)]) Hrest)
          as (o' & docs & s' & E & Hem & Hch & HJ' & Hm & Hs).
        eexists o', (_ :: docs), s'. split; [exact E|].
        split; [|split; [split; [exact HR1|exact Hch]|conjs]].
        apply (emits_app _ (publish s [kw_speed (Some v)]) _ [_] docs);
          [split; reflexivity|exact Hem].
Qed.

Lemma bind_ok {A B} (m : M A) (k : A -> M B) (s s1 : sys) (a : A) :
  m s = (Ok a, s1) -> bind m k s = k a s1.
Proof. unfold bind; intros ->; reflexivity. Qed.

(** The body of the [try] of [convert_video], by what the encoder does. *)
Lemma transcode_run (e : env) (cmd : list string) (output_path : string) (s : sys) :
  let c3 := converting_doc (conversion_status s) in
  (forall p, subprocess_Popen e cmd = Ok p -> J (stdout p) c3) ->
  exists loop_docs r docs s',
    transcode py_float e cmd d output_path s = (r, s') /\
    emits s s' docs /\
    spawned s' = (spawned s ++ [cmd])%list /\
    match subprocess_Popen e cmd with
    | Raise ex => loop_docs = [] /\ r = Raise ex /\ docs = []
    | Ok p =>
        let c4 := last loop_docs c3 in
        chain R c3 loop_docs /\ J [] c4 /\
        match stdout_error p, stderr p with
        | Some ex, _ => r = Raise ex /\ docs = c3 :: loop_docs
        | None, Raise ex => r = Raise ex /\ docs = c3 :: loop_docs
        | None, Ok _ =>
            if (returncode p =? 0)%Z then
              r = Ok true /\
              docs = (c3 :: loop_docs ++ [completed_doc c4; idle_doc c4])%list
            else
              r = Raise (CalledProcessError (returncode p)) /\ docs = c3 :: loop_docs
        end
    end.
Proof.
  intros c3 HJ. unfold transcode, bind at 1, Popen.
  destruct (subprocess_Popen e cmd) as [p|ex].
  - set (s1 := mkSys _ _ _ _).
    rewrite (bind_ok _ _ s1 (publish s1 [kw_status "converting"]) tt eq_refl).
    destruct (read_progress_chain (stdout p) 0%Q (publish s1 [kw_status "converting"])
                (HJ p eq_refl))
      as (o' & docs & s2 & E & Hem & Hch & HJ' & Hm & Hs).
    rewrite (bind_ok _ _ _ _ _ E).
    assert (Hc4 : conversion_status s2 = last docs c3) by (apply Hem).
    assert (Hem0 : emits s s2 (c3 :: docs)).
    { apply (emits_app s (publish s1 [kw_status "converting"]) s2 [c3] docs);
        [split; reflexivity | exact Hem]. }
    destruct (stdout_error p) as [ex|].
    + exists docs, (Raise ex), (c3 :: docs), s2. cbv zeta. rewrite <- Hc4. conjs.
    + unfold bind, read_stderr. destruct (stderr p) as [text|ex].
      * cbn [ret]. destruct (returncode p =? 0)%Z.
        -- eexists docs, (Ok true), _, _. cbv zeta. rewrite <- Hc4.
           split; [reflexivity|]. conjs.
           change (c3 :: docs ++ [completed_doc (conversion_status s2);
                                  idle_doc (conversion_status s2)])%list
             with ((c3 :: docs) ++ [completed_doc (conversion_status s2);
                                    idle_doc (conversion_status s2)])%list.
           eapply emits_app; [exact Hem0|].
           split; [cbn; rewrite <- app_assoc; reflexivity|reflexivity].
        -- exists docs, (Raise (CalledProcessError (returncode p))), (c3 :: docs), s2.
           cbv zeta. rewrite <- Hc4. conjs.
      * exists docs, (Raise ex), (c3 :: docs), s2. cbv zeta. rewrite <- Hc4. conjs.
  - eexists [], (Raise ex), [], _. split; [reflexivity|]. conjs.
    split; [symmetry; apply app_nil_r|reflexivity].
Qed.

Lemma handler_run (s : sys) :
  exists s',
    (publish_error ;; update_status [kw_status "idle"; kw_method None] ;; ret false) s
    = (Ok false, s') /\
    emits s s' [error_doc (conversion_status s); idle_doc (conversion_status s)] /\
    spawned s' = spawned s.
Proof.
  eexists. split; [reflexivity|]. split; [|reflexivity].
  split; [cbn; rewrite <- app_assoc; reflexivity|reflexivity].
Qed.


Lemma last_cons (x c : ConversionStatus) (l : list ConversionStatus) :
  last (x :: l) c = last l x.
Proof. exact (last_app_last [x] l c). Qed.

Lemma bind_update {B} (kwargs : list kwarg) (k : unit -> M B) (s : sys) :
  bind (update_status kwargs) k s = k tt (publish s kwargs).
Proof. reflexivity. Qed.

(** [convert_video], from first to last document. *)
Lemma convert_video_run (e : env) (input_path output_path : string) (s : sys) :
  let c1 := starting_doc (conversion_status s) input_path in
  let c2 := method_doc c1 (method_name e) in
  let c3 := converting_doc c2 in
  let ok := run_succeeds e input_path output_path in
  d = duration_of py_float e input_path ->
  (forall p, subprocess_Popen e (encoder_cmd e input_path output_path) = Ok p ->
             J (stdout p) c3) ->
  exists body s',
    convert_video py_float e input_path output_path s = (Ok ok, s') /\
    emits s s' ([c1; c2] ++ body ++ closing_docs ok (last body c2)) /\
    match subprocess_Popen e (encoder_cmd e input_path output_path) with
    | Raise _ => body = []
    | Ok p => exists loop_docs,
        body = c3 :: loop_docs /\ chain R c3 loop_docs /\ J [] (last loop_docs c3)
    end /\
    spawned s' = (spawned s ++ probe_cmd input_path ::
                   (if device_check e then [check_cmd] else []) ++
                   [encoder_cmd e input_path output_path])%list.
Proof.
  intros c1 c2 c3 ok Hd HJ.
  unfold convert_video.
  rewrite bind_update.
  rewrite (bind_ok _ _ _ _ _ (probe_duration_run _ _ _)).
  rewrite (bind_ok _ _ _ _ _ (check_quick_sync_run _ _)).
  rewrite (bind_ok _ _ _ _ _ (select_encoder_run _ _ _ _)).
  rewrite <- Hd.
  set (s2 := publish _ [kw_method (Some (method_name e))]).
  assert (Hem2 : emits s s2 [c1; c2]).
  { unfold s2. destruct (device_check e);
      (split; [cbn; rewrite <- app_assoc; reflexivity|reflexivity]). }
  assert (Hsp2 : spawned s2 = (spawned s ++ probe_cmd input_path ::
                   (if device_check e then [check_cmd] else []))%list).
  { unfold s2. destruct (device_check e); cbn; [rewrite <- app_assoc|]; reflexivity. }
  assert (Hc2 : conversion_status s2 = c2).
  { unfold s2. destruct (device_check e); reflexivity. }
  clearbody s2.
  destruct (transcode_run e (encoder_cmd e input_path output_path) output_path s2)
    as (loop_docs & r & docs & s3 & E & Hem3 & Hsp3 & Hcase).
  { rewrite Hc2. exact HJ. }
  rewrite Hc2 in Hcase. fold c3 in Hcase.
  assert (Hsp : forall s4, spawned s4 = spawned s3 ->
     spawned s4 = (spawned s ++ probe_cmd input_path ::
                   (if device_check e then [check_cmd] else []) ++
                   [encoder_cmd e input_path output_path])%list).
  { intros s4 ->. rewrite Hsp3, Hsp2, <- app_assoc. reflexivity. }
  unfold try_except. rewrite E. unfold ok, run_succeeds.
  destruct (subprocess_Popen e (encoder_cmd e input_path output_path)) as [p|ex].
  - cbv zeta in Hcase. destruct Hcase as (Hch & HJ' & Hcase).
    assert (Hclose : forall s4,
              emits s3 s4 [error_doc (conversion_status s3); idle_doc (conversion_status s3)] ->
              docs = c3 :: loop_docs ->
              emits s s4 ([c1; c2] ++ (c3 :: loop_docs) ++
                          closing_docs false (last (c3 :: loop_docs) c2))).
    { intros s4 Hem4 Hdocs. rewrite Hdocs in Hem3.
      apply (emits_app s s2 s4 [c1; c2] _ Hem2).
      apply (emits_app s2 s3 s4 (c3 :: loop_docs) _ Hem3).
      replace (last (c3 :: loop_docs) c2) with (conversion_status s3); [exact Hem4|].
      destruct Hem3 as [_ ->]. rewrite Hc2. reflexivity. }
    destruct (handler_run s3) as (s4 & E4 & Hem4 & Hsp4).
    destruct (stdout_error p) as [ex|];
      [|destruct (stderr p) as [text|ex]; [destruct (returncode p =? 0)%Z|]].
    2: { destruct Hcase as [-> ->].
         exists (c3 :: loop_docs), s3. split; [reflexivity|].
         split; [|split; [exists loop_docs; conjs|apply Hsp; reflexivity]].
         apply (emits_app s s2 s3 [c1; c2] _ Hem2).
         rewrite last_cons. exact Hem3. }
    all: destruct Hcase as [-> Hdocs]; exists (c3 :: loop_docs), s4;
      (split; [try destruct ex; exact E4|]);
      (split; [exact (Hclose s4 Hem4 Hdocs)|]);
      (split; [exists loop_docs; conjs|apply Hsp, Hsp4]).
  - destruct Hcase as (-> & -> & ->).
    destruct (handler_run s3) as (s4 & E4 & Hem4 & Hsp4).
    exists [], s4. split.
    + destruct ex; exact E4.
    + split; [|split; [reflexivity|apply Hsp, Hsp4]].
      apply (emits_app s s2 s4 [c1; c2] _ Hem2).
      assert (conversion_status s3 = c2) as <- by (rewrite <- Hc2; apply Hem3).
      apply (emits_app s2 s3 s4 [] _ Hem3 Hem4).
Qed.


End Loop.

Lemma same_phase_refl (c : ConversionStatus) : same_phase c c.
Proof. repeat split. Qed.

Lemma same_phase_trans (a b c : ConversionStatus) :
  same_phase a b -> same_phase b c -> same_phase a c.
Proof.
  unfold same_phase. intros (A1 & A2 & A3 & A4) (B1 & B2 & B3 & B4).
  repeat split; congruence.
Qed.

Lemma chain_same_phase (c : ConversionStatus) (docs : list ConversionStatus) :
  chain same_phase c docs -> Forall (same_phase c) docs.
Proof.
  revert c; induction docs as [|x docs IH]; intros c H; [constructor|].
  destruct H as [Hx Hrest]. constructor; [exact Hx|].
  eapply Forall_impl; [|exact (IH _ Hrest)].
  intros y Hy. exact (same_phase_trans _ _ _ Hx Hy).
Qed.

Lemma chain_impl (R1 R2 : ConversionStatus -> ConversionStatus -> Prop)
    (c : ConversionStatus) (docs : list ConversionStatus) :
  (forall a b, R1 a b -> R2 a b) -> chain R1 c docs -> chain R2 c docs.
Proof.
  intros HR; revert c; induction docs as [|x docs IH]; intros c H; [exact I|].
  destruct H as [Hx Hrest]. split; auto.
Qed.

(** The loop changes nothing but [progress], [speed] and [eta]. *)
Lemma loop_keeps_phase (d : option Q) (raw : string) (rest : list string)
    (c : ConversionStatus) :
  True ->
  match decode_line py_float raw with
  | Ignored => True
  | OutTimeMs v =>
      if progress_published d v then
        let c' := set_key c (kw_progress (progress_at (duration_value d) v)) in
        same_phase c c' /\ True
      else True
  | Speed v =>
      forall out_time,
        let c1 := set_key c (kw_speed (Some v)) in
        same_phase c c1 /\
        if eta_published d v out_time then
          let c2 := set_key c1 (kw_eta (Some (eta_at (duration_value d) out_time v))) in
          same_phase c1 c2 /\ True
        else True
  end.
Proof.
  intros _. destruct (decode_line py_float raw) as [|v|v]; [exact I| |].
  - destruct (progress_published d v); [|exact I]. repeat split.
  - intros out_time. split; [repeat split|].
    destruct (eta_published d v out_time); [|exact I]. repeat split.
Qed.

(** The shape of what [convert_video] publishes: the starting document, the
    document with the method, then (if the encoder started) the converting
    document and the documents of the loop, all in the same phase, and the
    two closing documents. *)
Lemma convert_video_shape (e : env) (input_path output_path : string) (s : sys) :
  let c1 := starting_doc (conversion_status s) input_path in
  let c2 := method_doc c1 (method_name e) in
  let c3 := converting_doc c2 in
  let ok := run_succeeds e input_path output_path in
  exists body s',
    convert_video py_float e input_path output_path s = (Ok ok, s') /\
    emits s s' ([c1; c2] ++ body ++ closing_docs ok (last body c2)) /\
    Forall (same_phase c3) body /\
    (body = [] <-> exists ex,
        subprocess_Popen e (encoder_cmd e input_path output_path) = Raise ex) /\
    spawned s' = (spawned s ++ probe_cmd input_path ::
                   (if device_check e then [check_cmd] else []) ++
                   [encoder_cmd e input_path output_path])%list.
Proof.
  intros c1 c2 c3 ok.
  destruct (convert_video_run (duration_of py_float e input_path)
              (fun _ _ => True) same_phase
              (loop_keeps_phase (duration_of py_float e input_path))
              e input_path output_path s eq_refl (fun _ _ => I))
    as (body & s' & E & Hem & Hcase & Hsp).
  exists body, s'. split; [exact E|]. split; [exact Hem|]. split; [|split; [|exact Hsp]].
  - destruct (subprocess_Popen e (encoder_cmd e input_path output_path)) as [p|ex].
    + destruct Hcase as (loop_docs & -> & Hch & _).
      constructor; [apply same_phase_refl|apply chain_same_phase, Hch].
    + rewrite Hcase. constructor.
  - destruct (subprocess_Popen e (encoder_cmd e input_path output_path)) as [p|ex].
    + destruct Hcase as (loop_docs & -> & _). split; [discriminate|].
      intros [ex H]; discriminate.
    + split; [intros _; exists ex; reflexivity|intros _; exact Hcase].
Qed.

(** ** From one conversion to the scan loop and [main] *)

Section Lifting.

(** [P] is claimed of every published document, [Q] of the dictionary
    between two conversions. *)
Variable P : ConversionStatus -> Prop.
Variable Q : ConversionStatus -> Prop.

Hypothesis convert_ok : forall e input_path output_path s,
  Q (conversion_status s) ->
  exists b s' docs,
    convert_video py_float e input_path output_path s = (Ok b, s') /\
    emits s s' docs /\ Forall P docs /\ Q (conversion_status s').

Lemma scan_loop_publishes (e : env) (video_files : list string) :
  forall s, Q (conversion_status s) ->
  exists r s' docs,
    scan_loop py_float e video_files s = (r, s') /\
    emits s s' docs /\ Forall P docs /\ Q (conversion_status s').
Proof.
  induction video_files as [|input_path rest IH]; intros s HQ.
  - exists (Ok tt), s, []. conjs; [apply emits_nil|constructor].
  - assert (Hrun : exists r s' docs,
               ((_ <- convert_video py_float e input_path (get_output_path input_path) ;;
                 ret tt) ;;
                scan_loop py_float e rest) s = (r, s') /\
               emits s s' docs /\ Forall P docs /\ Q (conversion_status s')).
    { destruct (convert_ok e input_path (get_output_path input_path) s HQ)
        as (b & s1 & docs1 & E1 & Hem1 & HP1 & HQ1).
      destruct (IH s1 HQ1) as (r & s' & docs & E & Hem & HP & HQ').
      exists r, s', (docs1 ++ docs)%list. split.
      - unfold bind. rewrite E1. exact E.
      - split; [exact (emits_app _ _ _ _ _ Hem1 Hem)|].
        split; [apply Forall_app; split; assumption|exact HQ']. }
    cbn [scan_loop]. unfold bind at 1. rewrite needs_conversion_cases.
    destruct (fs_lookup (mtimes s) (get_output_path input_path)) as [mo|].
    + destruct (fs_lookup (mtimes s) input_path) as [mi|].
      * destruct (Py.gt mi mo); [exact Hrun|].
        unfold bind, ret. apply IH, HQ.
      * exists (Raise OSError), s, []. conjs; [apply emits_nil|constructor].
    + exact Hrun.
Qed.

Lemma scan_and_convert_publishes (e : env) :
  forall s, Q (conversion_status s) ->
  exists r s' docs,
    scan_and_convert py_float e s = (r, s') /\
    emits s s' docs /\ Forall P docs /\ Q (conversion_status s').
Proof.
  intros s HQ. unfold scan_and_convert.
  destruct (dir_exists e INPUT_DIR); cbn [negb].
  - apply scan_loop_publishes, HQ.
  - exists (Ok tt), s, []. conjs; [apply emits_nil|constructor].
Qed.

Lemma scan_forever_publishes (passes : list env) :
  forall s, Q (conversion_status s) ->
  exists r s' docs,
    scan_forever py_float passes s = (r, s') /\
    emits s s' docs /\ Forall P docs /\ Q (conversion_status s').
Proof.
  induction passes as [|e later IH]; intros s HQ.
  - exists (Ok tt), s, []. conjs; [apply emits_nil|constructor].
  - cbn [scan_forever]. unfold bind.
    destruct (scan_and_convert_publishes e s HQ) as (r1 & s1 & docs1 & E1 & Hem1 & HP1 & HQ1).
    rewrite E1. destruct r1 as [[]|ex].
    + destruct (IH s1 HQ1) as (r & s' & docs & E & Hem & HP & HQ').
      exists r, s', (docs1 ++ docs)%list. split; [exact E|].
      split; [exact (emits_app _ _ _ _ _ Hem1 Hem)|].
      split; [apply Forall_app; split; assumption|exact HQ'].
    + exists (Raise ex), s1, docs1. conjs.
Qed.

Hypothesis P_init : P conversion_status_init.
Hypothesis Q_init : Q conversion_status_init.

Lemma main_publishes (e : env) (later : list env) (s : sys) :
  exists r s' docs,
    main py_float e later s = (r, s') /\
    emits s s' docs /\ Forall P docs.
Proof.
  unfold main. rewrite bind_update.
  set (s0 := publish s _).
  assert (Hem0 : emits s s0 [conversion_status_init]) by (split; reflexivity).
  assert (HQ0 : Q (conversion_status s0)) by exact Q_init.
  clearbody s0. unfold bind.
  destruct (scan_and_convert_publishes e s0 HQ0) as (r1 & s1 & docs1 & E1 & Hem1 & HP1 & HQ1).
  rewrite E1. destruct r1 as [[]|ex].
  - destruct (scan_forever_publishes later s1 HQ1) as (r & s' & docs & E & Hem & HP & HQ').
    exists r, s', (conversion_status_init :: docs1 ++ docs)%list. split; [exact E|].
    split.
    + apply (emits_app s s0 s' [_] _ Hem0). exact (emits_app _ _ _ _ _ Hem1 Hem).
    + constructor; [exact P_init|]. apply Forall_app; split; assumption.
  - exists (Raise ex), s1, (conversion_status_init :: docs1). split; [reflexivity|].
    split; [exact (emits_app s s0 s1 [_] _ Hem0 Hem1)|].
    constructor; [exact P_init|exact HP1].
Qed.

End Lifting.

(** ** The capability probe *)

Lemma device_check_iff (e : env) :
  device_check e = true <-> device_node_present e.
Proof.
  unfold device_check, entry_exists, dir_exists, device_node_present.
  destruct (listdir e "/dev/dri") as [entries|].
  - split.
    + intros H.
      destruct (existsb (String.eqb "renderD128") entries) eqn:E.
      * apply existsb_exists in E as (name & Hin & Hname).
        apply String.eqb_eq in Hname. exists entries, name, "128".
        conjs. symmetry; exact Hname.
      * destruct (filter (Py.startswith "renderD") entries) as [|name l] eqn:F;
          [discriminate|].
        assert (Hin : In name (filter (Py.startswith "renderD") entries))
          by (rewrite F; left; reflexivity).
        apply filter_In in Hin as [Hin Hpre].
        destruct (prefix_split _ _ Hpre) as [rest ->].
        exists entries, ("renderD" ++ rest), rest. conjs.
    + intros (entries' & name & rest & Hl & Hin & ->).
      injection Hl as <-.
      destruct (existsb (String.eqb "renderD128") entries); [reflexivity|].
      assert (Hf : In ("renderD" ++ rest) (filter (Py.startswith "renderD") entries)).
      { apply filter_In. split; [exact Hin|]. apply prefix_app. }
      destruct (filter (Py.startswith "renderD") entries); [destruct Hf|reflexivity].
  - split; [discriminate|]. intros (entries & name & rest & Hl & _). discriminate.
Qed.

Lemma device_check_iff_false (e : env) :
  ~ device_node_present e -> device_check e = false.
Proof.
  intros H. destruct (device_check e) eqn:E; [|reflexivity].
  exfalso. apply H, device_check_iff, E.
Qed.

Lemma quick_sync_iff (e : env) :
  quick_sync e = true <-> device_node_present e /\ codec_advertised e.
Proof.
  unfold quick_sync, codec_advertised. rewrite andb_true_iff, device_check_iff.
  split; intros [Hdev Hcodec]; (split; [exact Hdev|]).
  - destruct (subprocess_run e check_cmd) as [out|ex]; [|discriminate].
    apply str_in_split in Hcodec as (b & a & ->). exists (b ++ "h264_qsv" ++ a), b, a.
    conjs.
  - destruct Hcodec as (out & b & a & -> & ->). apply str_in_split. exists b, a. reflexivity.
Qed.

Lemma last_spawned (l : list (list string)) (mid : list (list string)) (cmd : list string) :
  last (l ++ mid ++ [cmd])%list [] = cmd.
Proof. rewrite app_assoc. apply last_last. Qed.

(** C3.  The Quick Sync check never raises, and it answers true exactly when
    a render node is listed in /dev/dri and the encoder list of the binary
    names h264_qsv; for every conversion, the encoder is started with the
    hardware command line exactly in that case and with the software one
    otherwise; and without a render node the conversion starts just the
    duration probe and the software encoder. *)
Theorem hardware_iff_device_and_codec (e : env) (input_path output_path : string) (s : sys) :
  (exists use_qsv s', check_quick_sync e s = (Ok use_qsv, s')) /\
  (fst (check_quick_sync e s) = Ok true <-> device_node_present e /\ codec_advertised e) /\
  exists b s',
    convert_video py_float e input_path output_path s = (Ok b, s') /\
    (last (spawned s') [] = qsv_cmd input_path output_path
       <-> device_node_present e /\ codec_advertised e) /\
    (last (spawned s') [] = software_cmd input_path output_path
       <-> ~ (device_node_present e /\ codec_advertised e)) /\
    (~ device_node_present e ->
       spawned s' = (spawned s ++ [probe_cmd input_path;
                                   software_cmd input_path output_path])%list /\
       forall arg, In arg (software_cmd input_path output_path) ->
                   arg = "-init_hw_device" -> arg = input_path \/ arg = output_path).
Proof.
  split; [rewrite check_quick_sync_run; eauto|].
  split.
  { rewrite check_quick_sync_run. cbn [fst]. rewrite <- quick_sync_iff.
    split; [intros H; injection H; auto|intros ->; reflexivity]. }
  destruct (convert_video_shape e input_path output_path s)
    as (body & s' & E & _ & _ & _ & Hsp).
  exists (run_succeeds e input_path output_path), s'. split; [exact E|].
  assert (Hlast : last (spawned s') [] = encoder_cmd e input_path output_path).
  { rewrite Hsp. change (probe_cmd input_path :: ?x) with ([probe_cmd input_path] ++ x)%list.
    rewrite 2 app_assoc. apply last_last. }
  rewrite Hlast, <- quick_sync_iff. unfold encoder_cmd.
  split; [|split].
  - destruct (quick_sync e); split; try reflexivity; try discriminate.
  - destruct (quick_sync e); split; intros H;
      try reflexivity; try discriminate; congruence.
  - intros Hno. split.
    + rewrite Hsp. apply device_check_iff_false in Hno. rewrite Hno.
      unfold encoder_cmd, quick_sync. rewrite Hno. reflexivity.
    + intros arg Hin ->. cbn in Hin.
      repeat (destruct Hin as [Hin|Hin]; [try discriminate Hin; auto|]).
      destruct Hin.
Qed.

(** ** Invariants of the published documents *)

(** A property holds of every document of a run when it holds of the two
    opening documents, of every document in the phase of the converting
    document, and of the closing documents. *)
Lemma Forall_run_docs (P : ConversionStatus -> Prop) (c1 c2 c3 : ConversionStatus)
    (body : list ConversionStatus) (ok : bool) :
  P c1 -> P c2 ->
  (forall c, same_phase c3 c -> P c) ->
  (forall c, P (completed_doc c) /\ P (error_doc c) /\ P (idle_doc c)) ->
  Forall (same_phase c3) body ->
  Forall P ([c1; c2] ++ body ++ closing_docs ok (last body c2)).
Proof.
  intros H1 H2 H3 Hclose Hbody.
  apply Forall_app; split; [repeat constructor; assumption|].
  apply Forall_app; split.
  - eapply Forall_impl; [exact H3|exact Hbody].
  - destruct (Hclose (last body c2)) as (Hc & He & Hi).
    destruct ok; repeat constructor; assumption.
Qed.

Lemma convert_video_active (e : env) (input_path output_path : string) (s : sys) :
  True ->
  exists b s' docs,
    convert_video py_float e input_path output_path s = (Ok b, s') /\
    emits s s' docs /\ Forall active_iff_working docs /\ True.
Proof.
  intros _.
  destruct (convert_video_shape e input_path output_path s)
    as (body & s' & E & Hem & Hbody & _ & _).
  eexists _, s', _. split; [exact E|]. split; [exact Hem|]. split; [|exact I].
  eapply Forall_run_docs; [| | | |exact Hbody]; unfold active_iff_working.
  - cbn. tauto.
  - cbn. tauto.
  - intros c (Ha & _ & Hs & _). rewrite Ha, Hs. cbn. tauto.
  - intros c. cbn. repeat split; try discriminate; intros [H|H]; discriminate.
Qed.

Lemma convert_video_method (e : env) (input_path output_path : string) (s : sys) :
  method_in_enum (conversion_status s) ->
  exists b s' docs,
    convert_video py_float e input_path output_path s = (Ok b, s') /\
    emits s s' docs /\ Forall method_in_enum docs /\
    method_in_enum (conversion_status s').
Proof.
  intros Hm.
  destruct (convert_video_shape e input_path output_path s)
    as (body & s' & E & Hem & Hbody & _ & _).
  assert (Hname : method_name e = "qsv" \/ method_name e = "software")
    by (unfold method_name; destruct (quick_sync e); auto).
  eexists _, s', _. split; [exact E|]. split; [exact Hem|]. split.
  - eapply Forall_run_docs; [| | | |exact Hbody]; unfold method_in_enum.
    + exact Hm.
    + cbn. destruct Hname as [-> | ->]; auto.
    + intros c (_ & _ & _ & Hc). rewrite Hc. cbn. destruct Hname as [-> | ->]; auto.
    + intros c. cbn. auto.
  - destruct Hem as [_ ->]. rewrite last_app_last, last_app_last.
    unfold closing_docs. destruct (run_succeeds e input_path output_path); left; reflexivity.
Qed.

Lemma convert_video_idle (e : env) (input_path output_path : string) (s : sys) :
  True ->
  exists b s' docs,
    convert_video py_float e input_path output_path s = (Ok b, s') /\
    emits s s' docs /\ Forall idle_is_reset docs /\ True.
Proof.
  intros _.
  destruct (convert_video_shape e input_path output_path s)
    as (body & s' & E & Hem & Hbody & _ & _).
  eexists _, s', _. split; [exact E|]. split; [exact Hem|]. split; [|exact I].
  eapply Forall_run_docs; [| | | |exact Hbody]; unfold idle_is_reset.
  - cbn. discriminate.
  - cbn. discriminate.
  - intros c (_ & _ & Hs & _). rewrite Hs. cbn. discriminate.
  - intros c. cbn. repeat split; discriminate.
Qed.

Lemma closing_docs_split (ok : bool) (c : ConversionStatus) :
  closing_docs ok c = [if ok then completed_doc c else error_doc c; idle_doc c].
Proof. destruct ok; reflexivity. Qed.

(** C6.  In every document published by [main] (the initial one and those
    of every conversion of every pass), [active] is true exactly when
    [status] is starting or converting; and every call of [convert_video]
    returns normally with an idle, inactive document published last. *)
Theorem active_iff_starting_or_converting :
  (forall (e : env) (later : list env) (s : sys),
      exists r s' docs,
        main py_float e later s = (r, s') /\
        published s' = (published s ++ docs)%list /\
        Forall active_iff_working docs) /\
  (forall (e : env) (input_path output_path : string) (s : sys),
      exists b s' before final,
        convert_video py_float e input_path output_path s = (Ok b, s') /\
        published s' = (published s ++ before ++ [final])%list /\
        Forall active_iff_working (before ++ [final]) /\
        conversion_status s' = final /\
        status final = "idle" /\ active final = false).
Proof.
  split.
  - intros e later s.
    destruct (main_publishes active_iff_working (fun _ => True) convert_video_active)
      with (e := e) (later := later) (s := s) as (r & s' & docs & E & [Hpub _] & HP).
    + unfold active_iff_working; cbn. split; [discriminate|intros [H|H]; discriminate].
    + exact I.
    + exists r, s', docs. conjs.
  - intros e input_path output_path s.
    destruct (convert_video_shape e input_path output_path s)
      as (body & s' & E & Hem & Hbody & _ & _).
    destruct (convert_video_active e input_path output_path s I)
      as (b' & s'' & docs & E' & Hem' & HP & _).
    rewrite E in E'. injection E' as <- <-.
    set (c1 := starting_doc (conversion_status s) input_path) in *.
    set (c2 := method_doc c1 (method_name e)) in *.
    set (ok := run_succeeds e input_path output_path) in *.
    assert (Hdocs : docs = ((c1 :: c2 :: body ++
                               [if ok then completed_doc (last body c2)
                                else error_doc (last body c2)]) ++
                            [idle_doc (last body c2)])%list).
    { destruct Hem as [H1 _], Hem' as [H2 _]. rewrite H1 in H2.
      apply app_inv_head in H2. rewrite <- H2, closing_docs_split.
      cbn. rewrite <- app_assoc. reflexivity. }
    exists ok, s', (c1 :: c2 :: body ++
                      [if ok then completed_doc (last body c2)
                       else error_doc (last body c2)])%list, (idle_doc (last body c2)).
    rewrite <- Hdocs.
    split; [exact E|]. split; [apply Hem'|]. split; [exact HP|].
    split; [|split; reflexivity].
    destruct Hem' as [_ ->]. rewrite Hdocs, last_app_last. reflexivity.
Qed.

(** C9.  In every document published by [main], [method] is absent or one
    of the two encoder families (the hardware family being spelled ["qsv"]);
    and in a conversion for which the Quick Sync check answers true, every
    active document after the starting one carries the hardware method. *)
Theorem method_absent_or_enum :
  (forall (e : env) (later : list env) (s : sys),
      exists r s' docs,
        main py_float e later s = (r, s') /\
        published s' = (published s ++ docs)%list /\
        Forall method_in_enum docs) /\
  (forall (e : env) (input_path output_path : string) (s : sys),
      fst (check_quick_sync e s) = Ok true ->
      exists b s' first docs,
        convert_video py_float e input_path output_path s = (Ok b, s') /\
        published s' = (published s ++ first :: docs)%list /\
        In (method_doc first "qsv") docs /\
        Forall (fun c => active c = true -> method c = Some "qsv") docs).
Proof.
  split.
  - intros e later s.
    destruct (main_publishes method_in_enum method_in_enum convert_video_method)
      with (e := e) (later := later) (s := s) as (r & s' & docs & E & [Hpub _] & HP).
    + left; reflexivity.
    + left; reflexivity.
    + exists r, s', docs. conjs.
  - intros e input_path output_path s Hq.
    rewrite check_quick_sync_run in Hq. cbn [fst] in Hq.
    assert (Hname : method_name e = "qsv")
      by (unfold method_name; injection Hq as ->; reflexivity).
    destruct (convert_video_shape e input_path output_path s)
      as (body & s' & E & Hem & Hbody & _ & _).
    rewrite Hname in *.
    exists (run_succeeds e input_path output_path), s',
      (starting_doc (conversion_status s) input_path),
      (method_doc (starting_doc (conversion_status s) input_path) "qsv" ::
       body ++ closing_docs (run_succeeds e input_path output_path)
                 (last body (method_doc (starting_doc (conversion_status s) input_path)
                               "qsv")))%list.
    split; [exact E|]. split; [apply Hem|].
    split; [left; reflexivity|].
    constructor; [reflexivity|]. apply Forall_app; split.
    + eapply Forall_impl; [|exact Hbody]. intros c (_ & _ & _ & Hc) _. exact Hc.
    + destruct (run_succeeds e input_path output_path); repeat constructor; discriminate.
Qed.

(** C10.  Every idle document published by [main] (the initial one and the
    closing one of every conversion) has [active] false, no [current_file]
    and [progress] 0; and a conversion whose encoder succeeds ends with a
    completed document at progress 100 followed by an idle one at 0. *)
Theorem idle_documents_are_reset :
  (forall (e : env) (later : list env) (s : sys),
      exists r s' docs,
        main py_float e later s = (r, s') /\
        published s' = (published s ++ docs)%list /\
        Forall idle_is_reset docs) /\
  (forall (e : env) (input_path output_path : string) (s : sys),
      run_succeeds e input_path output_path = true ->
      exists s' before done final,
        convert_video py_float e input_path output_path s = (Ok true, s') /\
        published s' = (published s ++ before ++ [done; final])%list /\
        status done = "completed" /\ progress done = 100%Z /\
        status final = "idle" /\ progress final = 0%Z /\
        active final = false /\ current_file final = None).
Proof.
  split.
  - intros e later s.
    destruct (main_publishes idle_is_reset (fun _ => True) convert_video_idle)
      with (e := e) (later := later) (s := s) as (r & s' & docs & E & [Hpub _] & HP).
    + intros _. repeat split.
    + exact I.
    + exists r, s', docs. conjs.
  - intros e input_path output_path s Hok.
    destruct (convert_video_shape e input_path output_path s)
      as (body & s' & E & Hem & Hbody & _ & _).
    rewrite Hok in *.
    set (c2 := method_doc (starting_doc (conversion_status s) input_path) (method_name e))
      in *.
    exists s', (starting_doc (conversion_status s) input_path :: c2 :: body)%list,
      (completed_doc (last body c2)), (idle_doc (last body c2)).
    split; [exact E|].
    split; [apply Hem|]. repeat split.
Qed.

Lemma run_fails_not_succeeds (e : env) (input_path output_path : string) :
  run_fails e input_path output_path -> run_succeeds e input_path output_path = false.
Proof.
  unfold run_fails, run_succeeds.
  destruct (subprocess_Popen e (encoder_cmd e input_path output_path)) as [p|ex];
    [|reflexivity].
  destruct (stdout_error p); [reflexivity|].
  intros [H|[[ex H]|H]]; [congruence|rewrite H; reflexivity|].
  destruct (stderr p); [apply Z.eqb_neq, H|reflexivity].
Qed.

(** C8.  When the encoder exits non-zero, or starting it or reading one of
    its channels raises, [convert_video] publishes an error document and
    then an idle one, returns [False] without raising, and the scan loop
    goes on with the remaining files. *)
Theorem failed_run_is_terminal_for_that_file_only
    (e : env) (input_path output_path : string) (s : sys) :
  run_fails e input_path output_path ->
  exists s' before failed final,
    convert_video py_float e input_path output_path s = (Ok false, s') /\
    published s' = (published s ++ before ++ [failed; final])%list /\
    status failed = "error" /\ status final = "idle" /\
    forall rest,
      output_path = get_output_path input_path ->
      needs_conversion input_path output_path s = (Ok true, s) ->
      scan_loop py_float e (input_path :: rest) s = scan_loop py_float e rest s'.
Proof.
  intros Hfail. apply run_fails_not_succeeds in Hfail.
  destruct (convert_video_shape e input_path output_path s)
    as (body & s' & E & Hem & Hbody & _ & _).
  rewrite Hfail in *.
  set (c2 := method_doc (starting_doc (conversion_status s) input_path) (method_name e))
    in *.
  exists s', (starting_doc (conversion_status s) input_path :: c2 :: body)%list,
    (error_doc (last body c2)), (idle_doc (last body c2)).
  split; [exact E|].
  split; [apply Hem|]. split; [reflexivity|]. split; [reflexivity|].
  intros rest -> Hneed. cbn [scan_loop]. unfold bind. rewrite Hneed, E. reflexivity.
Qed.

(** ** Progress arithmetic *)

Lemma duration_positive_iff (d : Q) : duration_positive (Some d) = true <-> (0 < d)%Q.
Proof.
  unfold duration_positive, Py.truthy. rewrite andb_true_iff, gt_true, negb_true_iff.
  split; [tauto|]. intros H. split; [|exact H].
  destruct (Qeq_bool d 0) eqn:E; [|reflexivity].
  apply Qeq_bool_iff in E. rewrite E in H. exfalso. exact (Qlt_irrefl _ H).
Qed.

Lemma percentage_nonneg (d v : Q) :
  (0 < d)%Q -> (0 <= v)%Q -> (0 <= percentage d v)%Q.
Proof.
  intros Hd Hv. unfold percentage, Py.mul, Py.truediv.
  apply fl_nonneg, Qmult_le_0_compat; [|discriminate].
  apply fl_nonneg. unfold Qdiv.
  apply Qmult_le_0_compat; [|apply Qinv_le_0_compat, Qlt_le_weak, Hd].
  apply fl_nonneg, Qmult_le_0_compat; [exact Hv|discriminate].
Qed.

Lemma percentage_mono (d lo v : Q) :
  (0 < d)%Q -> (lo <= v)%Q -> (percentage d lo <= percentage d v)%Q.
Proof.
  intros Hd Hv. unfold percentage.
  apply mul_mono_l; [discriminate|].
  apply truediv_mono_l; [exact Hd|].
  apply truediv_mono_l; [reflexivity|exact Hv].
Qed.

Lemma progress_at_floor (d v : Q) :
  (0 < d)%Q -> (0 <= v)%Q -> progress_at d v = floor_progress v d.
Proof.
  intros Hd Hv. unfold progress_at, floor_progress, clamp.
  rewrite (int_floor _ (percentage_nonneg d v Hd Hv)).
  pose proof (Qfloor_resp_le _ _ (percentage_nonneg d v Hd Hv)) as H0.
  change (Qfloor 0) with 0%Z in H0. lia.
Qed.

Lemma progress_at_range (d v : Q) :
  (0 < d)%Q -> (0 <= v)%Q -> (0 <= progress_at d v <= 100)%Z.
Proof.
  intros Hd Hv. unfold progress_at.
  rewrite (int_floor _ (percentage_nonneg d v Hd Hv)).
  pose proof (Qfloor_resp_le _ _ (percentage_nonneg d v Hd Hv)) as H0.
  change (Qfloor 0) with 0%Z in H0. lia.
Qed.

Lemma progress_at_mono (d lo v : Q) :
  (0 < d)%Q -> (0 <= lo)%Q -> (lo <= v)%Q -> (progress_at d lo <= progress_at d v)%Z.
Proof.
  intros Hd Hlo Hv. unfold progress_at.
  rewrite (int_floor _ (percentage_nonneg d lo Hd Hlo)).
  rewrite (int_floor _ (percentage_nonneg d v Hd (Qle_trans _ _ _ Hlo Hv))).
  pose proof (Qfloor_resp_le _ _ (percentage_mono d lo v Hd Hv)). lia.
Qed.

Lemma progress_published_iff (d v : Q) :
  progress_published (Some d) v = true <->
  (0 < d)%Q /\ Py.isinf (percentage d v) = false.
Proof.
  unfold progress_published. cbn [duration_value].
  rewrite andb_true_iff, duration_positive_iff, negb_true_iff. reflexivity.
Qed.

Lemma decode_out_time_ms (raw text : string) (v : Q) :
  Py.strip raw = "out_time_ms=" ++ text ->
  py_float text = Some v ->
  decode_line py_float raw = OutTimeMs v.
Proof.
  intros Hraw Hv. unfold decode_line. rewrite Hraw.
  change (String.eqb ("out_time_ms=" ++ text) "") with false. cbv iota.
  unfold Py.startswith. rewrite prefix_app.
  change (after_eq ("out_time_ms=" ++ text)) with text. rewrite Hv. reflexivity.
Qed.

(** C4, as the code has it.  For a progress line [out_time_ms=text] whose
    text [float()] reads as a non-negative [v], and a known positive
    duration [d], the loop publishes one document whose progress is
    clamp(0, 100, floor(p)), where p is the percentage as the code computes
    it on floats, (v / 1000000.0 / d) * 100 with each of the three operations
    rounded to the nearest float, provided p is finite: the computed
    percentage is cut to an integer, not rounded. *)
Theorem progress_is_clamped_floor (d v out_time : Q) (raw text : string) (s : sys) :
  Py.strip raw = "out_time_ms=" ++ text ->
  py_float text = Some v ->
  (0 < d)%Q ->
  (0 <= v)%Q ->
  Py.isinf (percentage d v) = false ->
  exists s',
    handle_line py_float (Some d) out_time raw s = (Ok (Py.truediv v 1000000), s') /\
    published s' = (published s ++ [conversion_status s'])%list /\
    progress (conversion_status s') = floor_progress v d.
Proof.
  intros Hraw Hv Hd Hv0 Hfin.
  rewrite handle_line_spec, (decode_out_time_ms raw text v Hraw Hv).
  rewrite (proj2 (progress_published_iff d v) (conj Hd Hfin)).
  eexists. split; [reflexivity|]. split; [reflexivity|].
  cbn. apply progress_at_floor; assumption.
Qed.

(** ** Progress over a whole conversion *)

Lemma chain_app (R : ConversionStatus -> ConversionStatus -> Prop)
    (c : ConversionStatus) (l1 l2 : list ConversionStatus) :
  chain R c l1 -> chain R (last l1 c) l2 -> chain R c (l1 ++ l2).
Proof.
  revert c; induction l1 as [|x l1 IH]; intros c H1 H2; [exact H2|].
  destruct H1 as [Hx H1]. split; [exact Hx|].
  apply IH; [exact H1|]. rewrite last_cons in H2. exact H2.
Qed.

Lemma chain_last (R : ConversionStatus -> ConversionStatus -> Prop)
    (P : ConversionStatus -> Prop) (c : ConversionStatus) (l : list ConversionStatus) :
  (forall a b, P a -> R a b -> P b) -> P c -> chain R c l ->
  P (last l c) /\ Forall P l.
Proof.
  intros HR; revert c; induction l as [|x l IH]; intros c Hc H; [split; [exact Hc|constructor]|].
  destruct H as [Hx H]. rewrite last_cons.
  destruct (IH x (HR _ _ Hc Hx) H) as [Hl Hf].
  split; [exact Hl|constructor; [exact (HR _ _ Hc Hx)|exact Hf]].
Qed.

Lemma loop_keeps_progress_order (d : option Q) (raw : string) (rest : list string)
    (c : ConversionStatus) :
  progress_below py_float d (raw :: rest) c ->
  match decode_line py_float raw with
  | Ignored => progress_below py_float d rest c
  | OutTimeMs v =>
      if progress_published d v then
        let c' := set_key c (kw_progress (progress_at (duration_value d) v)) in
        progress_step c c' /\ progress_below py_float d rest c'
      else progress_below py_float d rest c
  | Speed v =>
      forall out_time,
        let c1 := set_key c (kw_speed (Some v)) in
        progress_step c c1 /\
        if eta_published d v out_time then
          let c2 := set_key c1 (kw_eta (Some (eta_at (duration_value d) out_time v))) in
          progress_step c1 c2 /\ progress_below py_float d rest c2
        else progress_below py_float d rest c1
  end.
Proof.
  intros (lo & Hlines & Hlo & [Hr0 Hr1] & Hle). cbn [out_times_nondecreasing] in Hlines.
  destruct (decode_line py_float raw) as [|v|v].
  - exists lo. conjs.
  - apply andb_true_iff in Hlines as [Hv Hrest]. apply Qle_bool_iff in Hv.
    assert (Hv0 : (0 <= v)%Q) by exact (Qle_trans _ _ _ Hlo Hv).
    assert (Hnext : forall dd, d = Some dd -> (0 < dd)%Q ->
              (progress c <= progress_at dd v)%Z /\ (0 <= progress_at dd v <= 100)%Z).
    { intros dd -> Hdd. cbn [duration_value] in Hle.
      specialize (Hle (proj2 (duration_positive_iff dd) Hdd)).
      pose proof (progress_at_mono dd lo v Hdd Hlo Hv) as Hmono.
      pose proof (progress_at_range dd v Hdd Hv0) as Hr.
      unfold progress_at in *. lia. }
    destruct (progress_published d v) eqn:Hp.
    + destruct d as [dd|]; [|discriminate]. apply progress_published_iff in Hp as [Hd _].
      destruct (Hnext dd eq_refl Hd) as [Hmono Hr].
      cbn [duration_value] in *. cbv zeta. split.
      * repeat split; cbn; lia.
      * exists v. conjs; cbn; unfold progress_at in *; lia.
    + exists v. conjs. intros Hd. destruct d as [dd|]; [|discriminate].
      apply duration_positive_iff in Hd.
      destruct (Hnext dd eq_refl Hd) as [Hmono _]. exact Hmono.
  - intros out_time. cbv zeta. split; [repeat split; cbn; lia|].
    destruct (eta_published d v out_time).
    + split; [repeat split; cbn; lia|]. exists lo. conjs.
    + exists lo. conjs.
Qed.


(** C5, as the code has it.  When the [out_time_ms] values the encoder
    reports are non-negative and never decrease, the documents of one
    conversion split into the working ones (starting, converting,
    completed), whose progress never decreases, and the closing ones (error,
    idle), which reset progress to 0; every progress lies in [0, 100]. *)
Theorem progress_nondecreasing_until_closing
    (e : env) (input_path output_path : string) (s : sys) :
  (forall p, subprocess_Popen e (encoder_cmd e input_path output_path) = Ok p ->
             out_times_nondecreasing py_float 0 (stdout p) = true) ->
  exists b s' first working closing,
    convert_video py_float e input_path output_path s = (Ok b, s') /\
    published s' = (published s ++ (first :: working) ++ closing)%list /\
    chain (fun a b => (progress a <= progress b)%Z) first working /\
    Forall (fun c => (0 <= progress c <= 100)%Z) ((first :: working) ++ closing) /\
    Forall (fun c => status c = "starting" \/ status c = "converting" \/
                     status c = "completed") (first :: working) /\
    Forall (fun c => (status c = "error" \/ status c = "idle") /\ progress c = 0%Z)
           closing.
Proof.
  intros Hlines.
  set (d := duration_of py_float e input_path).
  set (c1 := starting_doc (conversion_status s) input_path).
  set (c2 := method_doc c1 (method_name e)).
  set (c3 := converting_doc c2).
  set (ok := run_succeeds e input_path output_path).
  destruct (convert_video_run d (progress_below py_float d) progress_step
              (loop_keeps_progress_order d) e input_path output_path s eq_refl)
    as (body & s' & E & Hem & Hcase & _).
  { intros p Hp. exists 0%Q. split; [exact (Hlines p Hp)|].
    split; [apply Qle_refl|]. split; [cbn; lia|].
    intros Hd. destruct d as [dd|]; [|discriminate].
    apply duration_positive_iff in Hd.
    pose proof (progress_at_range dd 0 Hd (Qle_refl 0)) as Hr.
    unfold progress_at in Hr. cbn [duration_value progress c3 converting_doc c2 method_doc c1
                                   starting_doc]. lia. }
  fold c1 c2 c3 ok in E, Hem, Hcase.
  set (x := last body c2) in *.
  assert (Hbody : chain (fun a b => (progress a <= progress b)%Z) c2 body /\
                  Forall (fun c => (0 <= progress c <= 100)%Z /\ status c = "converting") body /\
                  (0 <= progress x <= 100)%Z).
  { destruct (subprocess_Popen e (encoder_cmd e input_path output_path)) as [p|ex].
    - destruct Hcase as (loop_docs & Hb & Hch & _).
      destruct (chain_last progress_step
                  (fun c => (0 <= progress c <= 100)%Z /\ status c = "converting")
                  c3 loop_docs) as [Hx Hall].
      + intros a b [Ha Hs] ((_ & _ & Hst & _) & _ & Hr). split; [exact Hr|congruence].
      + split; [cbn; lia|reflexivity].
      + exact Hch.
      + unfold x. rewrite Hb, last_cons. split; [|split; [|apply Hx]].
        * split; [cbn; lia|]. eapply chain_impl; [|exact Hch].
          intros a b (_ & Hle & _). exact Hle.
        * constructor; [split; [cbn; lia|reflexivity]|exact Hall].
    - unfold x. rewrite Hcase. split; [exact I|]. split; [constructor|cbn; lia]. }
  destruct Hbody as (Hch & Hall & Hx).
  exists ok, s', c1,
    (c2 :: body ++ (if ok then [completed_doc x] else []))%list,
    ((if ok then [] else [error_doc x]) ++ [idle_doc x])%list.
  split; [exact E|]. split.
  { destruct Hem as [-> _]. f_equal. rewrite closing_docs_split.
    destruct ok; cbn; rewrite <- app_assoc; reflexivity. }
  split.
  { split; [cbn; lia|]. apply chain_app; [exact Hch|].
    fold x. destruct ok; [split; [cbn; lia|exact I]|exact I]. }
  split.
  { apply Forall_app; split.
    - constructor; [cbn; lia|]. constructor; [cbn; lia|].
      apply Forall_app; split.
      + eapply Forall_impl; [|exact Hall]. intros c [H _]; exact H.
      + destruct ok; repeat constructor; cbn; lia.
    - destruct ok; repeat constructor; cbn; lia. }
  split.
  { constructor; [left; reflexivity|]. constructor; [left; reflexivity|].
    apply Forall_app; split.
    - eapply Forall_impl; [|exact Hall]. intros c [_ H]; auto.
    - destruct ok; [constructor; [right; right; reflexivity|constructor]|constructor]. }
  destruct ok.
  - constructor; [split; [right; reflexivity|reflexivity]|constructor].
  - constructor; [split; [left; reflexivity|reflexivity]|].
    constructor; [split; [right; reflexivity|reflexivity]|constructor].
Qed.


End Runner.

(** ** Concrete runs *)

Example relpath_ex : Py.relpath "/input/a/b.avi" "/input" = "a/b.avi".
Proof. reflexivity. Qed.
Example splitext_ex : Py.splitext "/output/a.b/.c.d.mkv" = ("/output/a.b/.c.d", ".mkv").
Proof. reflexivity. Qed.
Example splitext_ex2 : Py.splitext "/output/a.b/..hidden" = ("/output/a.b/..hidden", "").
Proof. reflexivity. Qed.
Example splitext_ex3 : Py.splitext "/output/a.b/noext" = ("/output/a.b/noext", "").
Proof. reflexivity. Qed.
Example suffix_ex : Py.suffix "clip.tar.AVI" = ".AVI" /\ Py.suffix ".mp4" = "" /\ Py.suffix "x." = "".
Proof. repeat split; reflexivity. Qed.
Example strip_ex : Py.strip "  speed= 1.5x
" = "speed= 1.5x".
Proof. reflexivity. Qed.
Example sorted_ex : Py.sorted ["/input/b.avi"; "/input/a/z.mkv"; "/input/B.mp4"]
  = ["/input/B.mp4"; "/input/a/z.mkv"; "/input/b.avi"].
Proof. reflexivity. Qed.

Example get_output_path_ex :
  get_output_path "/input/shows/s01/e01.MKV" = "/output/shows/s01/e01.mp4".
Proof. reflexivity. Qed.

Example get_video_files_ex :
  get_video_files
    (host None (Raise OSError) (Raise OSError) (Raise OSError)
          ["b.MP4"; "notes.txt"; "a.webm"; ".mkv"; "c.ogv.part"])
    INPUT_DIR
  = ["/input/a.webm"; "/input/b.MP4"].
Proof. reflexivity. Qed.

Example decimal_float_ex :
  Decimal.float "3000000" = Some 3000000%Q /\ Decimal.float "N/A" = None.
Proof. split; reflexivity. Qed.

(** Scenario A: a new clip.avi is converted and the status ends idle. *)
Example scenario_new_file :
  let '(r, s') := scan_and_convert Decimal.float host_software sys_init in
  r = Ok tt /\
  map summary (published s') =
    [(0, "starting", None, None); (0, "starting", Some "software", None);
     (0, "converting", Some "software", None); (18, "converting", Some "software", None);
     (18, "converting", Some "software", None); (18, "converting", Some "software", Some 8);
     (100, "converting", Some "software", Some 8); (100, "completed", None, Some 8);
     (0, "idle", None, Some 8)]%Z /\
  fs_lookup (mtimes s') "/output/clip.mp4" = Some 10%Q.
Proof. vm_compute. repeat split. Qed.

(** Scenario B: an output newer than its input is skipped. *)
Example scenario_up_to_date :
  scan_and_convert Decimal.float host_software sys_converted = (Ok tt, sys_converted).
Proof. reflexivity. Qed.

(** With renderD129 only, the hardware command is chosen. *)
Example hardware_run :
  let '(r, s') := convert_video Decimal.float host_hardware "/input/clip.avi"
                    "/output/clip.mp4" sys_init in
  r = Ok true /\
  spawned s' = [probe_cmd "/input/clip.avi"; check_cmd;
                qsv_cmd "/input/clip.avi" "/output/clip.mp4"].
Proof. vm_compute. split; reflexivity. Qed.

(** ** The claims on concrete inputs *)

Lemma needs_conversion_iff_witness :
  needs_conversion "/input/b.avi" (get_output_path "/input/b.avi") sys_unreadable_input
  = (Ok true, sys_unreadable_input) /\
  needs_conversion "/input/clip.avi" (get_output_path "/input/clip.avi") sys_converted
  = (Ok false, sys_converted).
Proof.
  split.
  - apply (proj1 (needs_conversion_iff "/input/b.avi" (get_output_path "/input/b.avi")
                    sys_unreadable_input)).
    left; reflexivity.
  - apply (proj2 (needs_conversion_iff "/input/clip.avi" (get_output_path "/input/clip.avi")
                    sys_converted)).
    exists 1%Q, 10%Q. split; [reflexivity|]. split; [reflexivity|discriminate].
Defined.

(** C2 on a host where a.avi is listed by the walk, was converted earlier,
    and can no longer be read: the pass stops with the [OSError] of
    [getmtime], nothing is published or started, although b.avi needs
    conversion; [main] ends with the same exception. *)
Theorem scan_aborts_on_unreadable_input :
  get_video_files host_two_files INPUT_DIR = ["/input/a.avi"; "/input/b.avi"] /\
  needs_conversion "/input/b.avi" (get_output_path "/input/b.avi") sys_unreadable_input
  = (Ok true, sys_unreadable_input) /\
  scan_and_convert Decimal.float host_two_files sys_unreadable_input
  = (Raise OSError, sys_unreadable_input) /\
  fst (main Decimal.float host_two_files [host_two_files] sys_unreadable_input)
  = Raise OSError.
Proof. repeat split. Qed.

Lemma hardware_iff_device_and_codec_witness :
  device_node_present host_hardware /\ codec_advertised host_hardware /\
  fst (check_quick_sync host_hardware sys_init) = Ok true.
Proof.
  assert (Hdev : device_node_present host_hardware).
  { exists ["card0"; "renderD129"], "renderD129", "129".
    split; [reflexivity|]. split; [right; left; reflexivity|reflexivity]. }
  assert (Hcodec : codec_advertised host_hardware).
  { exists encoders_with_qsv, " V..... ",
      "             H.264 (Intel Quick Sync Video acceleration)".
    split; reflexivity. }
  split; [exact Hdev|]. split; [exact Hcodec|].
  apply (proj1 (proj2 (hardware_iff_device_and_codec Decimal.float host_hardware
                         "/input/clip.avi" "/output/clip.mp4" sys_init))).
  split; assumption.
Defined.

(** C4 at [out_time_ms=3000000] of a 16 s input: 18.75 percent is published
    as 18, where rounding gives 19. *)
Lemma progress_truncates_where_spec_rounds :
  progress (conversion_status
              (snd (handle_line Decimal.float (Some 16%Q) 0%Q "out_time_ms=3000000"
                      sys_init))) = 18%Z /\
  spec_progress 3000000 16 = 19%Z.
Proof. split; reflexivity. Qed.

(** C4 as amended, at [out_time_ms=29000000] of a 100 s input: the computed
    percentage is 28.999999999999996 (29000000 / 1000000.0 / 100.0 is
    0.28999999999999998 after rounding), and 28 is published. *)
Lemma progress_is_clamped_floor_witness :
  floor_progress 29000000 100 = 28%Z /\
  exists s',
    handle_line Decimal.float (Some 100%Q) 0%Q "out_time_ms=29000000" sys_init
    = (Ok (Py.truediv 29000000 1000000), s') /\
    published s' = (published sys_init ++ [conversion_status s'])%list /\
    progress (conversion_status s') = floor_progress 29000000 100.
Proof.
  split; [vm_compute; reflexivity|].
  apply (progress_is_clamped_floor Decimal.float 100 29000000 0
           "out_time_ms=29000000" "29000000" sys_init);
    [reflexivity|vm_compute; reflexivity|reflexivity|discriminate|vm_compute; reflexivity].
Defined.

(** C5 on a successful run: progress climbs to 100 and the closing idle
    document drops it to 0. *)
Lemma progress_drops_at_closing_idle :
  let s' := snd (convert_video Decimal.float host_software "/input/clip.avi"
                   "/output/clip.mp4" sys_init) in
  map progress (published s') = [0; 0; 0; 18; 18; 18; 100; 100; 0]%Z /\
  map status (published s') =
    ["starting"; "starting"; "converting"; "converting"; "converting"; "converting";
     "converting"; "completed"; "idle"] /\
  ~ chain (fun a b => (progress a <= progress b)%Z) conversion_status_init (published s').
Proof.
  vm_compute. split; [reflexivity|]. split; [reflexivity|].
  intros (_ & _ & _ & _ & _ & _ & _ & _ & H & _). apply H. reflexivity.
Qed.

Lemma progress_nondecreasing_until_closing_witness :
  exists b s' first working closing,
    convert_video Decimal.float host_software "/input/clip.avi" "/output/clip.mp4" sys_init
    = (Ok b, s') /\
    published s' = (published sys_init ++ (first :: working) ++ closing)%list /\
    chain (fun a b => (progress a <= progress b)%Z) first working /\
    Forall (fun c => (0 <= progress c <= 100)%Z) ((first :: working) ++ closing) /\
    Forall (fun c => status c = "starting" \/ status c = "converting" \/
                     status c = "completed") (first :: working) /\
    Forall (fun c => (status c = "error" \/ status c = "idle") /\ progress c = 0%Z)
           closing.
Proof.
  apply (progress_nondecreasing_until_closing Decimal.float host_software
           "/input/clip.avi" "/output/clip.mp4" sys_init).
  intros p Hp. injection Hp as <-. reflexivity.
Defined.



Lemma failed_run_is_terminal_for_that_file_only_witness :
  run_fails host_failing "/input/clip.avi" "/output/clip.mp4" /\
  exists s' before failed final,
    convert_video Decimal.float host_failing "/input/clip.avi" "/output/clip.mp4" sys_init
    = (Ok false, s') /\
    published s' = (published sys_init ++ before ++ [failed; final])%list /\
    status failed = "error" /\ status final = "idle" /\
    forall rest,
      "/output/clip.mp4" = get_output_path "/input/clip.avi" ->
      needs_conversion "/input/clip.avi" "/output/clip.mp4" sys_init = (Ok true, sys_init) ->
      scan_loop Decimal.float host_failing ("/input/clip.avi" :: rest) sys_init
      = scan_loop Decimal.float host_failing rest s'.
Proof.
  assert (Hfail : run_fails host_failing "/input/clip.avi" "/output/clip.mp4")
    by (right; right; discriminate).
  split; [exact Hfail|].
  exact (failed_run_is_terminal_for_that_file_only Decimal.float host_failing
           "/input/clip.avi" "/output/clip.mp4" sys_init Hfail).
Defined.

Lemma method_absent_or_enum_witness :
  fst (check_quick_sync host_hardware sys_init) = Ok true /\
  exists b s' first docs,
    convert_video Decimal.float host_hardware "/input/clip.avi" "/output/clip.mp4" sys_init
    = (Ok b, s') /\
    published s' = (published sys_init ++ first :: docs)%list /\
    In (method_doc first "qsv") docs /\
    Forall (fun c => active c = true -> method c = Some "qsv") docs.
Proof.
  split; [reflexivity|].
  apply (proj2 (method_absent_or_enum Decimal.float) host_hardware
           "/input/clip.avi" "/output/clip.mp4" sys_init).
  reflexivity.
Defined.

Lemma idle_documents_are_reset_witness :
  run_succeeds host_software "/input/clip.avi" "/output/clip.mp4" = true /\
  exists s' before done final,
    convert_video Decimal.float host_software "/input/clip.avi" "/output/clip.mp4" sys_init
    = (Ok true, s') /\
    published s' = (published sys_init ++ before ++ [done; final])%list /\
    status done = "completed" /\ progress done = 100%Z /\
    status final = "idle" /\ progress final = 0%Z /\
    active final = false /\ current_file final = None.
Proof.
  split; [reflexivity|].
  apply (proj2 (idle_documents_are_reset Decimal.float) host_software
           "/input/clip.avi" "/output/clip.mp4" sys_init).
  reflexivity.
Defined.

(** * The rest of converter/convert.py *)

(** ** The catalog scanner: [get_video_files] *)

Lemma insert_sorted_In (x y : string) (l : list string) :
  In y (Py.insert_sorted x l) <-> y = x \/ In y l.
Proof.
  induction l as [|z l IH]; simpl.
  - split; [intros [H|[]]; auto|intros [H|[]]; auto].
  - destruct (String.leb x z); simpl; [intuition auto|].
    rewrite IH. intuition auto.
Qed.

Lemma sorted_In (y : string) (l : list string) : In y (Py.sorted l) <-> In y l.
Proof.
  induction l as [|x l IH]; simpl; [reflexivity|].
  rewrite insert_sorted_In, IH. intuition auto.
Qed.

Lemma insert_sorted_length (x : string) (l : list string) :
  List.length (Py.insert_sorted x l) = S (List.length l).
Proof.
  induction l as [|z l IH]; simpl; [reflexivity|].
  destruct (String.leb x z); simpl; [reflexivity|]. rewrite IH. reflexivity.
Qed.

Lemma sorted_length (l : list string) : List.length (Py.sorted l) = List.length l.
Proof.
  induction l as [|x l IH]; simpl; [reflexivity|].
  rewrite insert_sorted_length, IH. reflexivity.
Qed.

Lemma insert_sorted_Sorted (x : string) (l : list string) :
  Sorted str_le l -> Sorted str_le (Py.insert_sorted x l).
Proof.
  induction l as [|z l IH]; intros Hs; simpl.
  - constructor; constructor.
  - destruct (String.leb x z) eqn:E.
    + constructor; [exact Hs|]. constructor. exact E.
    + inversion Hs as [|? ? Hl Hhd]; subst.
      constructor; [apply IH, Hl|].
      assert (Hzx : str_le z x).
      { destruct (String.leb_total x z) as [H|H]; [congruence|exact H]. }
      destruct l as [|w l]; simpl.
      * constructor. exact Hzx.
      * destruct (String.leb x w); constructor; [exact Hzx|].
        inversion Hhd; assumption.
Qed.

Lemma sorted_Sorted (l : list string) : Sorted str_le (Py.sorted l).
Proof.
  induction l as [|x l IH]; simpl; [constructor|].
  apply insert_sorted_Sorted, IH.
Qed.

(** X3.  The list returned by [get_video_files] is in ascending string
    order. *)
Theorem get_video_files_sorted (e : env) (directory : string) :
  Sorted str_le (get_video_files e directory).
Proof. apply sorted_Sorted. Qed.

Lemma in_get_video_files (e : env) (directory path : string) :
  In path (get_video_files e directory) <->
  exists root dirs files file,
    In (root, dirs, files) (os_walk e directory) /\
    In file files /\
    In (Py.lower (Py.suffix file)) VIDEO_EXTENSIONS /\
    path = Py.join root file.
Proof.
  unfold get_video_files. rewrite sorted_In, in_flat_map. split.
  - intros ([[root dirs] files] & Hw & Hin).
    apply in_map_iff in Hin as (file & <- & Hf).
    apply filter_In in Hf as [Hf Hext].
    apply existsb_exists in Hext as (x & Hx & Heq). apply String.eqb_eq in Heq.
    exists root, dirs, files, file. rewrite Heq. auto.
  - intros (root & dirs & files & file & Hw & Hf & Hext & ->).
    exists (root, dirs, files). split; [exact Hw|].
    apply in_map, filter_In. split; [exact Hf|].
    apply existsb_exists. exists (Py.lower (Py.suffix file)).
    split; [exact Hext|apply String.eqb_refl].
Qed.

(** X4.  A path is returned by [get_video_files] exactly when it is
    [os.path.join(root, file)] for a file that the walk lists under [root]
    and whose lower-cased suffix is one of the ten extensions: nothing else
    is returned and no such file is dropped. *)
Theorem get_video_files_complete (e : env) (directory path : string) :
  In path (get_video_files e directory) <->
  exists root dirs files file,
    In (root, dirs, files) (os_walk e directory) /\
    In file files /\
    In (Py.lower (Py.suffix file)) VIDEO_EXTENSIONS /\
    path = Py.join root file.
Proof. apply in_get_video_files. Qed.

(** ** Paths: [os.path.relpath] below the input root *)

Lemma prefix_empty (s : string) : String.prefix "" s = true.
Proof. destruct s; reflexivity. Qed.

Lemma str_in_char_cons (c d : ascii) (s : string) :
  Py.str_in (String c "") (String d s) = Ascii.eqb d c || Py.str_in (String c "") s.
Proof.
  cbn [Py.str_in String.prefix]. destruct (ascii_dec c d) as [->|Hne].
  - rewrite prefix_empty, Ascii.eqb_refl. reflexivity.
  - destruct (Ascii.eqb d c) eqn:E; [apply Ascii.eqb_eq in E; congruence|reflexivity].
Qed.

Lemma str_in_char_nil (c : ascii) : Py.str_in (String c "") "" = false.
Proof. reflexivity. Qed.

Lemma no_char_rfind_suffix (c : ascii) (s : string) :
  Py.str_in (String c "") s = false -> Py.rfind_suffix c s = None.
Proof.
  induction s as [|d s IH]; [reflexivity|].
  rewrite str_in_char_cons. intros H. apply orb_false_iff in H as [Hd Hs].
  cbn [Py.rfind_suffix]. rewrite (IH Hs), Hd. reflexivity.
Qed.

Lemma no_char_rfind_prefix (c : ascii) (s : string) :
  Py.str_in (String c "") s = false -> Py.rfind_prefix c s = None.
Proof.
  induction s as [|d s IH]; [reflexivity|].
  rewrite str_in_char_cons. intros H. apply orb_false_iff in H as [Hd Hs].
  cbn [Py.rfind_prefix]. rewrite (IH Hs), Hd. reflexivity.
Qed.

Lemma rfind_suffix_last (c : ascii) (pre t : string) :
  Py.str_in (String c "") t = false ->
  Py.rfind_suffix c (pre ++ String c t) = Some (String c t).
Proof.
  intros Ht. induction pre as [|d pre IH].
  - cbn [append Py.rfind_suffix]. rewrite (no_char_rfind_suffix c t Ht), Ascii.eqb_refl.
    reflexivity.
  - cbn [append Py.rfind_suffix]. rewrite IH. reflexivity.
Qed.

Lemma rfind_prefix_last (c : ascii) (pre t : string) :
  Py.str_in (String c "") t = false ->
  Py.rfind_prefix c (pre ++ String c t) = Some pre.
Proof.
  intros Ht. induction pre as [|d pre IH].
  - cbn [append Py.rfind_prefix]. rewrite (no_char_rfind_prefix c t Ht), Ascii.eqb_refl.
    reflexivity.
  - cbn [append Py.rfind_prefix]. rewrite IH. reflexivity.
Qed.

Lemma append_assoc (a b c : string) : (a ++ b) ++ c = a ++ b ++ c.
Proof. induction a as [|x a IH]; [reflexivity|]. cbn. rewrite IH. reflexivity. Qed.

Lemma append_nil_r (a : string) : a ++ "" = a.
Proof. induction a as [|x a IH]; [reflexivity|]. cbn. rewrite IH. reflexivity. Qed.

(** [split('/')] of a slash-free string *)
Lemma split_slash_plain (x : string) :
  Py.str_in "/" x = false -> Py.split_slash x = [x].
Proof.
  induction x as [|d x IH]; [reflexivity|].
  rewrite str_in_char_cons. intros H. apply orb_false_iff in H as [Hd Hx].
  cbn [Py.split_slash]. rewrite Hd, (IH Hx). reflexivity.
Qed.

Lemma split_slash_app (x rest : string) :
  Py.str_in "/" x = false ->
  Py.split_slash (x ++ "/" ++ rest) = x :: Py.split_slash rest.
Proof.
  induction x as [|d x IH].
  - intros _. reflexivity.
  - rewrite str_in_char_cons. intros H. apply orb_false_iff in H as [Hd Hx].
    cbn [append Py.split_slash]. rewrite Hd. cbn [append] in IH. rewrite (IH Hx). reflexivity.
Qed.

Lemma split_slash_concat (comps : list string) :
  comps <> [] ->
  Forall (fun c => Py.str_in "/" c = false) comps ->
  Py.split_slash (String.concat "/" comps) = comps.
Proof.
  induction comps as [|x comps IH]; [congruence|]. intros _ Hall.
  inversion Hall as [|? ? Hx Hrest]; subst.
  destruct comps as [|y comps].
  - cbn [String.concat]. apply split_slash_plain, Hx.
  - change (String.concat "/" (x :: y :: comps))
      with (x ++ "/" ++ String.concat "/" (y :: comps)).
    rewrite (split_slash_app _ _ Hx), IH; [reflexivity|discriminate|exact Hrest].
Qed.

Lemma normpath_comps_plain (comps acc : list string) :
  Forall path_component comps ->
  Py.normpath_comps comps acc = (rev acc ++ comps)%list.
Proof.
  revert acc; induction comps as [|x comps IH]; intros acc Hall.
  - cbn. symmetry; apply app_nil_r.
  - inversion Hall as [|? ? (H0 & H1 & H2 & _) Hrest]; subst.
    cbn [Py.normpath_comps].
    apply String.eqb_neq in H0, H1, H2. rewrite H0, H1, H2. cbn [orb].
    rewrite (IH _ Hrest). cbn [rev]. rewrite <- app_assoc. reflexivity.
Qed.

Lemma path_component_no_slash (comps : list string) :
  Forall path_component comps -> Forall (fun c => Py.str_in "/" c = false) comps.
Proof. apply Forall_impl. intros c (_ & _ & _ & H). exact H. Qed.

(** The relative path of a file below the input root. *)
Lemma relpath_below_input (comps : list string) :
  comps <> [] -> Forall path_component comps ->
  Py.relpath ("/input/" ++ String.concat "/" comps) INPUT_DIR = String.concat "/" comps.
Proof.
  intros Hne Hall. unfold Py.relpath, Py.abs_components.
  change ("/input/" ++ String.concat "/" comps)
    with ("" ++ "/" ++ "input" ++ "/" ++ String.concat "/" comps).
  rewrite (split_slash_app "" _ eq_refl), (split_slash_app "input" _ eq_refl).
  rewrite (split_slash_concat comps Hne (path_component_no_slash comps Hall)).
  cbn [Py.normpath_comps String.eqb Ascii.eqb orb Bool.eqb].
  rewrite (normpath_comps_plain comps ["input"] Hall).
  change (Py.normpath_comps (Py.split_slash INPUT_DIR) []) with ["input"].
  cbn [rev app Py.drop_common]. rewrite String.eqb_refl.
  cbn [Py.drop_common List.length repeat app].
  destruct comps; [congruence|reflexivity].
Qed.

(** ** Paths: [get_output_path] *)

Lemma str_in_char_app (c : ascii) (a b : string) :
  Py.str_in (String c "") (a ++ b) = Py.str_in (String c "") a || Py.str_in (String c "") b.
Proof.
  induction a as [|d a IH]; [reflexivity|].
  change (String d a ++ b) with (String d (a ++ b)).
  rewrite 2 str_in_char_cons, IH. apply orb_assoc.
Qed.

Lemma has_non_dot_not_empty (s : string) : Py.has_non_dot s = true -> s <> "".
Proof. destruct s; [discriminate|discriminate]. Qed.

(** A name [stem.ext] with a proper stem is a path component. *)
Lemma file_name_component (stem ext : string) :
  Py.str_in "/" stem = false -> Py.has_non_dot stem = true ->
  Py.str_in "/" ext = false ->
  path_component (stem ++ "." ++ ext).
Proof.
  intros Hs Hnd He. unfold path_component.
  destruct stem as [|c stem]; [discriminate|].
  split; [discriminate|]. split; [|split].
  - destruct stem; discriminate.
  - intros H. cbn in H. injection H as Hc Hrest.
    destruct stem as [|c2 stem].
    + subst c. discriminate Hnd.
    + cbn in Hrest. injection Hrest as _ Hrest. destruct stem; discriminate.
  - rewrite 2 str_in_char_app, Hs, He. reflexivity.
Qed.

Lemma prefix_slash_concat (comps : list string) :
  comps <> [] -> Forall path_component comps ->
  Py.startswith "/" (String.concat "/" comps) = false.
Proof.
  intros Hne Hall. destruct comps as [|x comps]; [congruence|].
  inversion Hall as [|? ? (H0 & _ & _ & Hs) _]; subst.
  destruct x as [|d x]; [congruence|].
  rewrite str_in_char_cons in Hs. apply orb_false_iff in Hs as [Hd _].
  assert (E : exists rest, String.concat "/" (String d x :: comps) = String d rest).
  { destruct comps; [exists x; reflexivity|eexists; reflexivity]. }
  destruct E as [rest ->]. unfold Py.startswith. cbn [String.prefix].
  destruct (ascii_dec "/" d) as [<-|]; [discriminate Hd|reflexivity].
Qed.

Lemma join_output (rel : string) :
  Py.startswith "/" rel = false -> Py.join OUTPUT_DIR rel = "/output/" ++ rel.
Proof. intros H. unfold Py.join. rewrite H. reflexivity. Qed.

Lemma concat_snoc_split (dirs : list string) :
  forall pre, exists P, forall file,
    (pre ++ "/") ++ String.concat "/" (dirs ++ [file]) = P ++ "/" ++ file.
Proof.
  induction dirs as [|d dirs IH]; intros pre.
  - exists pre. intros file. cbn [app String.concat]. apply append_assoc.
  - destruct (IH (pre ++ "/" ++ d)) as [P HP]. exists P. intros file.
    rewrite <- HP.
    assert (E : String.concat "/" ((d :: dirs) ++ [file])
                = d ++ "/" ++ String.concat "/" (dirs ++ [file])).
    { cbn [app String.concat]. destruct (dirs ++ [file])%list eqn:F; [|reflexivity].
      destruct dirs; discriminate. }
    rewrite E. rewrite !append_assoc. reflexivity.
Qed.

Lemma splitext_file (P stem ext : string) :
  Py.str_in "/" stem = false -> Py.has_non_dot stem = true ->
  Py.str_in "/" ext = false -> Py.str_in "." ext = false ->
  Py.splitext (P ++ "/" ++ stem ++ "." ++ ext) = (P ++ "/" ++ stem, "." ++ ext).
Proof.
  intros Hs Hnd He Hd. unfold Py.splitext, Py.basename, Py.dir_prefix.
  assert (Hfile : Py.str_in "/" (stem ++ "." ++ ext) = false)
    by (rewrite 2 str_in_char_app, Hs, He; reflexivity).
  change (P ++ "/" ++ stem ++ "." ++ ext) with (P ++ String "/" (stem ++ "." ++ ext)).
  rewrite (rfind_suffix_last "/" P _ Hfile), (rfind_prefix_last "/" P _ Hfile).
  change (stem ++ "." ++ ext) with (stem ++ String "." ext).
  rewrite (rfind_suffix_last "." stem _ Hd), (rfind_prefix_last "." stem _ Hd), Hnd.
  rewrite append_assoc. reflexivity.
Qed.

Lemma get_output_path_components (dirs : list string) (stem ext : string) :
  Forall path_component dirs ->
  Py.str_in "/" stem = false -> Py.has_non_dot stem = true ->
  Py.str_in "/" ext = false -> Py.str_in "." ext = false ->
  get_output_path ("/input/" ++ String.concat "/" (dirs ++ [stem ++ "." ++ ext]))
  = "/output/" ++ String.concat "/" (dirs ++ [stem ++ ".mp4"]).
Proof.
  intros Hdirs Hs Hnd He Hd. unfold get_output_path.
  assert (Hall : Forall path_component (dirs ++ [stem ++ "." ++ ext])).
  { apply Forall_app; split; [exact Hdirs|].
    constructor; [apply file_name_component; assumption|constructor]. }
  assert (Hne : (dirs ++ [(stem ++ "." ++ ext)%string])%list <> []) by (destruct dirs; discriminate).
  rewrite (relpath_below_input _ Hne Hall).
  rewrite (join_output _ (prefix_slash_concat _ Hne Hall)).
  destruct (concat_snoc_split dirs "/output") as [P HP].
  change ("/output/" ++ ?x) with (("/output" ++ "/") ++ x).
  rewrite 2 HP, (splitext_file P stem ext Hs Hnd He Hd). cbn [fst].
  rewrite !append_assoc. reflexivity.
Qed.

(** ** Extensions in any letter case *)

Lemma lower_char_is_dot (c : ascii) : Ascii.eqb (Py.lower_char c) "." = Ascii.eqb c ".".
Proof. destruct c as [[] [] [] [] [] [] [] []]; reflexivity. Qed.

Lemma str_in_dot_lower (s : string) : Py.str_in "." (Py.lower s) = Py.str_in "." s.
Proof.
  induction s as [|c s IH]; [reflexivity|].
  cbn [Py.lower]. rewrite 2 str_in_char_cons, IH, lower_char_is_dot. reflexivity.
Qed.

Lemma suffix_of_extension (stem t : string) :
  stem <> "" -> t <> "" -> Py.str_in "." t = false ->
  Py.suffix (stem ++ String "." t) = String "." t.
Proof.
  intros Hs Ht Hd. destruct stem as [|a stem]; [congruence|].
  unfold Py.suffix. cbn [append]. rewrite (rfind_suffix_last "." stem t Hd).
  destruct t; [congruence|reflexivity].
Qed.

Lemma recognised_extension_shape (ext : string) :
  In (Py.lower ext) VIDEO_EXTENSIONS ->
  exists t, ext = String "." t /\ t <> "" /\ Py.str_in "." t = false.
Proof.
  intros Hin. destruct ext as [|c t]; [cbn in Hin; intuition discriminate|].
  assert (Hc : Ascii.eqb c "." = true /\ Py.lower t <> "" /\ Py.str_in "." (Py.lower t) = false).
  { rewrite <- lower_char_is_dot. cbn [Py.lower] in Hin. unfold VIDEO_EXTENSIONS in Hin.
    cbn [In] in Hin.
    repeat (destruct Hin as [Hin|Hin];
            [injection Hin as <- <-; repeat split; discriminate|]).
    destruct Hin. }
  destruct Hc as (Hc & Hne & Hd). apply Ascii.eqb_eq in Hc. subst c.
  exists t. split; [reflexivity|]. split.
  - intros ->. apply Hne. reflexivity.
  - rewrite <- str_in_dot_lower. exact Hd.
Qed.

(** ** Invariants of every published document *)

Section DocumentInvariants.

Variable py_float : string -> option Q.

(** ** A scheme for invariants of the documents of one conversion *)

Section Invariant.

Variable P : ConversionStatus -> Prop.

Hypothesis P_starting : forall c input_path, P (starting_doc c input_path).
Hypothesis P_method : forall c m, P c -> P (method_doc c m).
Hypothesis P_converting : forall c, P c -> P (converting_doc c).
Hypothesis P_progress : forall c d v, P c -> P (set_key c (kw_progress (progress_at d v))).
Hypothesis P_speed : forall c v, P c -> P (set_key c (kw_speed (Some v))).
Hypothesis P_eta : forall c d out_time v,
  P c -> P (set_key c (kw_eta (Some (eta_at d out_time v)))).
Hypothesis P_closing : forall c,
  P c -> P (completed_doc c) /\ P (error_doc c) /\ P (idle_doc c).

Lemma loop_keeps_invariant (d : option Q) (raw : string) (rest : list string)
    (c : ConversionStatus) :
  P c ->
  match decode_line py_float raw with
  | Ignored => P c
  | OutTimeMs v =>
      if progress_published d v then
        let c' := set_key c (kw_progress (progress_at (duration_value d) v)) in
        P c' /\ P c'
      else P c
  | Speed v =>
      forall out_time,
        let c1 := set_key c (kw_speed (Some v)) in
        P c1 /\
        if eta_published d v out_time then
          let c2 := set_key c1 (kw_eta (Some (eta_at (duration_value d) out_time v))) in
          P c2 /\ P c2
        else P c1
  end.
Proof.
  intros Hc. destruct (decode_line py_float raw) as [|v|v]; [exact Hc| |].
  - destruct (progress_published d v); [|exact Hc]. split; apply P_progress, Hc.
  - intros out_time. cbv zeta. split; [apply P_speed, Hc|].
    destruct (eta_published d v out_time); [|apply P_speed, Hc].
    split; apply P_eta, P_speed, Hc.
Qed.

Lemma chain_target_Forall (c : ConversionStatus) (docs : list ConversionStatus) :
  chain (fun _ b => P b) c docs -> Forall P docs.
Proof.
  revert c; induction docs as [|x docs IH]; intros c H; [constructor|].
  destruct H as [Hx H]. constructor; [exact Hx|exact (IH x H)].
Qed.

Lemma convert_video_invariant (e : env) (input_path output_path : string) (s : sys) :
  True ->
  exists b s' docs,
    convert_video py_float e input_path output_path s = (Ok b, s') /\
    emits s s' docs /\ Forall P docs /\ True.
Proof.
  intros _.
  set (c1 := starting_doc (conversion_status s) input_path).
  set (c2 := method_doc c1 (method_name e)).
  assert (H1 : P c1) by apply P_starting.
  assert (H2 : P c2) by apply P_method, H1.
  destruct (convert_video_run py_float (duration_of py_float e input_path)
              (fun _ c => P c) (fun _ b => P b)
              (loop_keeps_invariant (duration_of py_float e input_path))
              e input_path output_path s eq_refl)
    as (body & s' & E & Hem & Hcase & _).
  { intros p _. apply P_converting, H2. }
  fold c1 c2 in E, Hem, Hcase.
  exists (run_succeeds e input_path output_path), s',
    ([c1; c2] ++ body ++ closing_docs (run_succeeds e input_path output_path)
                           (last body c2))%list.
  split; [exact E|]. split; [exact Hem|]. split; [|exact I].
  assert (Hbody : Forall P body /\ P (last body c2)).
  { destruct (subprocess_Popen e (encoder_cmd e input_path output_path)) as [p|ex].
    - destruct Hcase as (loop_docs & -> & Hch & Hlast). rewrite last_cons.
      split; [|exact Hlast].
      constructor; [apply P_converting, H2|exact (chain_target_Forall _ _ Hch)].
    - rewrite Hcase. split; [constructor|exact H2]. }
  destruct Hbody as [Hb Hl]. destruct (P_closing _ Hl) as (Hc & He & Hi).
  apply Forall_app; split; [repeat constructor; assumption|].
  apply Forall_app; split; [exact Hb|].
  destruct (run_succeeds e input_path output_path); repeat constructor; assumption.
Qed.

Hypothesis P_init : P conversion_status_init.

Lemma main_invariant (e : env) (later : list env) (s : sys) :
  exists r s' docs,
    main py_float e later s = (r, s') /\
    published s' = (published s ++ docs)%list /\ Forall P docs.
Proof.
  destruct (main_publishes py_float P (fun _ => True) convert_video_invariant P_init I
              e later s) as (r & s' & docs & E & [Hpub _] & HP).
  exists r, s', docs. auto.
Qed.

End Invariant.

Lemma int_max0_nonneg (q : Q) : (0 <= Py.int (Py.max0 q))%Z.
Proof.
  unfold Py.max0. destruct (Py.gt q 0) eqn:E; [|reflexivity].
  apply gt_true in E. rewrite int_floor by (apply Qlt_le_weak, E).
  change 0%Z with (Qfloor 0). apply Qfloor_resp_le, Qlt_le_weak, E.
Qed.

(** X10.  No document published by [main] has a progress above 100,
    whatever the encoder reports. *)
Theorem progress_at_most_100 (e : env) (later : list env) (s : sys) :
  exists r s' docs,
    main py_float e later s = (r, s') /\
    published s' = (published s ++ docs)%list /\
    Forall (fun c => (progress c <= 100)%Z) docs.
Proof.
  apply main_invariant; intros; cbn; unfold progress_at; lia.
Qed.

(** X11.  In every document published by [main], [eta] is absent or not
    negative. *)
Theorem eta_never_negative (e : env) (later : list env) (s : sys) :
  exists r s' docs,
    main py_float e later s = (r, s') /\
    published s' = (published s ++ docs)%list /\
    Forall eta_not_negative docs.
Proof.
  apply main_invariant; unfold eta_not_negative; intros; cbn; auto.
  apply int_max0_nonneg.
Qed.

(** X12.  In every document published by [main], [active] is true exactly
    when [current_file] is set. *)
Theorem current_file_iff_active (e : env) (later : list env) (s : sys) :
  exists r s' docs,
    main py_float e later s = (r, s') /\
    published s' = (published s ++ docs)%list /\
    Forall file_iff_active docs.
Proof.
  assert (Hoff : forall f : option string, f = None -> false = true <-> f <> None).
  { intros f ->. split; [discriminate|]. intros X; exfalso; apply X; reflexivity. }
  apply main_invariant; unfold file_iff_active.
  - intros c input_path. cbn. split; [discriminate|reflexivity].
  - intros c m Hc. exact Hc.
  - intros c Hc. exact Hc.
  - intros c d v Hc. exact Hc.
  - intros c v Hc. exact Hc.
  - intros c d out_time v Hc. exact Hc.
  - intros c _. cbn. repeat split; apply Hoff; reflexivity.
  - apply Hoff; reflexivity.
Qed.

End DocumentInvariants.

(** ** What one conversion does *)

Lemma rfind_suffix_none (c : ascii) (s : string) :
  Py.rfind_suffix c s = None -> Py.str_in (String c "") s = false.
Proof.
  induction s as [|d s IH]; [reflexivity|].
  cbn [Py.rfind_suffix]. rewrite str_in_char_cons.
  destruct (Py.rfind_suffix c s); [discriminate|].
  destruct (Ascii.eqb d c); [discriminate|]. intros _. apply IH. reflexivity.
Qed.

Lemma rfind_suffix_some (c : ascii) (s t : string) :
  Py.rfind_suffix c s = Some t ->
  exists t', t = String c t' /\ Py.str_in (String c "") t' = false.
Proof.
  induction s as [|d s IH]; [discriminate|].
  cbn [Py.rfind_suffix].
  destruct (Py.rfind_suffix c s) as [u|] eqn:E.
  - intros H. injection H as <-. apply IH. reflexivity.
  - destruct (Ascii.eqb d c) eqn:Ed; [|discriminate].
    intros H. injection H as <-. apply Ascii.eqb_eq in Ed. subst d.
    exists s. split; [reflexivity|apply rfind_suffix_none, E].
Qed.

Lemma basename_no_slash (p : string) : Py.str_in "/" (Py.basename p) = false.
Proof.
  unfold Py.basename. destruct (Py.rfind_suffix "/" p) as [t|] eqn:E.
  - destruct (rfind_suffix_some _ _ _ E) as (t' & -> & Ht). exact Ht.
  - apply rfind_suffix_none, E.
Qed.

Section RunnerBehaviour.

Variable py_float : string -> option Q.

(** X13.  Every document of a conversion has no [current_file] or the
    base name of the input path, which contains no slash. *)
Theorem current_file_is_basename (e : env) (input_path output_path : string) (s : sys) :
  exists b s' docs,
    convert_video py_float e input_path output_path s = (Ok b, s') /\
    published s' = (published s ++ docs)%list /\
    Forall (fun c => current_file c = None \/
                     current_file c = Some (Py.basename input_path)) docs /\
    Py.str_in "/" (Py.basename input_path) = false.
Proof.
  destruct (convert_video_shape py_float e input_path output_path s)
    as (body & s' & E & Hem & Hbody & _ & _).
  eexists _, s', _. split; [exact E|]. split; [apply Hem|].
  split; [|apply basename_no_slash].
  eapply Forall_run_docs; [| | | |exact Hbody].
  - right; reflexivity.
  - right; reflexivity.
  - intros c (_ & Hc & _). right. rewrite Hc. reflexivity.
  - intros c. repeat split; left; reflexivity.
Qed.

(** X14.  The body of the loop over the progress channel never raises,
    whatever the lines are, and the documents it publishes differ from the
    dictionary it started with at most in [progress], [speed] and [eta]; it
    touches neither the files nor the list of started subprocesses. *)
Theorem read_progress_never_raises (d : option Q) (lines : list string) (out_time : Q)
    (s : sys) :
  exists out_time' docs s',
    read_progress py_float d lines out_time s = (Ok out_time', s') /\
    published s' = (published s ++ docs)%list /\
    Forall (same_phase (conversion_status s)) docs /\
    mtimes s' = mtimes s /\ spawned s' = spawned s.
Proof.
  destruct (read_progress_chain py_float d (fun _ _ => True) same_phase
              (loop_keeps_phase py_float d) lines out_time s I)
    as (o' & docs & s' & E & Hem & Hch & _ & Hm & Hs).
  exists o', docs, s'. split; [exact E|]. split; [apply Hem|].
  split; [apply chain_same_phase, Hch|]. split; assumption.
Qed.

Lemma prefixes_exclusive (line : string) :
  Py.startswith "speed=" line = true -> Py.startswith "out_time_ms=" line = false.
Proof.
  intros H. destruct (prefix_split _ _ H) as [rest ->]. reflexivity.
Qed.

(** X15.  A line that starts with neither [out_time_ms=] nor [speed=]
    after stripping, or whose number [float()] rejects, publishes nothing and
    leaves [out_time] as it was. *)
Theorem unrecognised_line_is_ignored (d : option Q) (out_time : Q) (raw : string) (s : sys) :
  (Py.startswith "out_time_ms=" (Py.strip raw) = false /\
   Py.startswith "speed=" (Py.strip raw) = false) \/
  (Py.startswith "out_time_ms=" (Py.strip raw) = true /\
   py_float (after_eq (Py.strip raw)) = None) \/
  (Py.startswith "speed=" (Py.strip raw) = true /\
   py_float (Py.strip (Py.remove_char "x" (after_eq (Py.strip raw)))) = None) ->
  handle_line py_float d out_time raw s = (Ok out_time, s).
Proof.
  intros H. rewrite handle_line_spec.
  assert (E : decode_line py_float raw = Ignored); [|rewrite E; reflexivity].
  unfold decode_line. destruct (String.eqb (Py.strip raw) ""); [reflexivity|].
  destruct H as [[Ho Hs]|[[Ho Hf]|[Hs Hf]]].
  - rewrite Ho, Hs. reflexivity.
  - rewrite Ho, Hf. reflexivity.
  - rewrite (prefixes_exclusive _ Hs), Hs, Hf. reflexivity.
Qed.

(** X16.  The Boolean that [convert_video] returns is [True] exactly when
    the encoder started, its progress channel and its error channel were both
    read to the end without an exception, and it exited 0. *)
Theorem convert_video_returns_exit_status (e : env) (input_path output_path : string)
    (s : sys) :
  exists b s',
    convert_video py_float e input_path output_path s = (Ok b, s') /\
    (b = true <->
     exists p text,
       subprocess_Popen e (encoder_cmd e input_path output_path) = Ok p /\
       stdout_error p = None /\ stderr p = Ok text /\ returncode p = 0%Z).
Proof.
  destruct (convert_video_shape py_float e input_path output_path s)
    as (body & s' & E & _).
  exists (run_succeeds e input_path output_path), s'. split; [exact E|].
  unfold run_succeeds.
  destruct (subprocess_Popen e (encoder_cmd e input_path output_path)) as [p|ex].
  - destruct (stdout_error p) as [ex|] eqn:Eerr.
    + split; [discriminate|]. intros (p' & text & Hp & Herr & _).
      injection Hp as <-. congruence.
    + destruct (stderr p) as [text|ex] eqn:Eread.
      * destruct (returncode p =? 0)%Z eqn:Erc.
        -- apply Z.eqb_eq in Erc. split; [intros _; exists p, text; auto|reflexivity].
        -- apply Z.eqb_neq in Erc. split; [discriminate|].
           intros (p' & text' & Hp & _ & _ & Hrc). injection Hp as <-. congruence.
      * split; [discriminate|]. intros (p' & text & Hp & _ & Hread & _).
        injection Hp as <-. congruence.
  - split; [discriminate|]. intros (p & text & Hp & _). discriminate.
Qed.

Lemma chain_converting (c : ConversionStatus) (body : list ConversionStatus)
    (c3 : ConversionStatus) :
  status c3 = "converting" ->
  (status c = "starting" \/ status c = "converting") ->
  Forall (same_phase c3) body ->
  chain (fun a b => transition (status a) (status b)) c body /\
  (status (last body c) = "starting" /\ body = [] \/ status (last body c) = "converting").
Proof.
  intros H3 Hc Hbody. revert c Hc.
  induction Hbody as [|x body (_ & _ & Hx & _) Hrest IH]; intros c Hc.
  - split; [exact I|]. destruct Hc; auto.
  - rewrite H3 in Hx. destruct (IH x (or_intror Hx)) as [Hch Hlast].
    rewrite last_cons. split.
    + split; [|exact Hch]. rewrite Hx. destruct Hc as [-> | ->]; constructor.
    + right. destruct Hlast as [[Hl ->]|Hl]; [exact Hx|exact Hl].
Qed.

(** X17.  The documents of one conversion start with status starting,
    end with status idle, and each status follows the one before it by one of
    starting-starting, starting-converting, starting-error,
    converting-converting, converting-completed, converting-error,
    completed-idle, error-idle. *)
Theorem status_follows_state_machine (e : env) (input_path output_path : string) (s : sys) :
  exists b s' first rest,
    convert_video py_float e input_path output_path s = (Ok b, s') /\
    published s' = (published s ++ first :: rest)%list /\
    status first = "starting" /\
    chain (fun a b => transition (status a) (status b)) first rest /\
    status (last rest first) = "idle".
Proof.
  destruct (convert_video_shape py_float e input_path output_path s)
    as (body & s' & E & Hem & Hbody & Hnil & _).
  set (c1 := starting_doc (conversion_status s) input_path) in *.
  set (c2 := method_doc c1 (method_name e)) in *.
  assert (Hok : run_succeeds e input_path output_path = true -> body <> []).
  { intros Hrun Hb. apply Hnil in Hb as [ex Hex].
    unfold run_succeeds in Hrun. rewrite Hex in Hrun. discriminate. }
  set (ok := run_succeeds e input_path output_path) in *.
  exists ok, s', c1, (c2 :: body ++ closing_docs ok (last body c2))%list.
  split; [exact E|]. split; [apply Hem|]. split; [reflexivity|].
  destruct (chain_converting c2 body (converting_doc c2) eq_refl (or_introl eq_refl) Hbody)
    as [Hch Hlast].
  split.
  - split; [constructor|]. apply chain_app; [exact Hch|].
    unfold closing_docs. destruct ok; cbn [chain status completed_doc error_doc idle_doc].
    + destruct Hlast as [[Hl Hb]|Hl]; [exfalso; exact (Hok eq_refl Hb)|].
      rewrite Hl. repeat split; constructor.
    + destruct Hlast as [[Hl _]|Hl]; rewrite Hl; repeat split; constructor.
  - rewrite last_cons, last_app_last, closing_docs_split. reflexivity.
Qed.

End RunnerBehaviour.

(** ** What a scan pass does *)

Section ScanBehaviour.

Variable py_float : string -> option Q.




Lemma scan_loop_noop (e : env) (video_files : list string) (s : sys) :
  (forall p, In p video_files ->
     exists mi mo, fs_lookup (mtimes s) p = Some mi /\
                   fs_lookup (mtimes s) (get_output_path p) = Some mo /\ (mi <= mo)%Q) ->
  scan_loop py_float e video_files s = (Ok tt, s).
Proof.
  induction video_files as [|input_path rest IH]; intros H; [reflexivity|].
  destruct (H input_path (or_introl eq_refl)) as (mi & mo & Hi & Ho & Hle).
  cbn [scan_loop]. unfold bind at 1. rewrite needs_conversion_cases, Ho, Hi.
  apply gt_false in Hle. rewrite Hle. unfold bind, ret.
  apply IH. intros p Hp. apply H. right; exact Hp.
Qed.

(** X7.  When every video file of the input tree has an output at least
    as new as itself, a scan pass returns normally and changes nothing: no
    document is published and no subprocess is started. *)
Theorem up_to_date_pass_does_nothing (e : env) (s : sys) :
  (forall p, In p (get_video_files e INPUT_DIR) ->
     exists mi mo, fs_lookup (mtimes s) p = Some mi /\
                   fs_lookup (mtimes s) (get_output_path p) = Some mo /\ (mi <= mo)%Q) ->
  scan_and_convert py_float e s = (Ok tt, s).
Proof.
  intros H. unfold scan_and_convert.
  destruct (dir_exists e INPUT_DIR); cbn [negb]; [|reflexivity].
  apply scan_loop_noop, H.
Qed.

Lemma transcode_mtimes (e : env) (cmd : list string) (d : option Q) (output_path : string)
    (s : sys) :
  mtimes (snd (transcode py_float e cmd d output_path s)) =
  match subprocess_Popen e cmd with
  | Ok p => match output_mtime p with
            | Some t => fs_write (mtimes s) output_path t
            | None => mtimes s
            end
  | Raise _ => mtimes s
  end.
Proof.
  unfold transcode, bind at 1, Popen.
  destruct (subprocess_Popen e cmd) as [p|ex]; [|reflexivity].
  rewrite bind_update.
  match goal with |- context [bind (read_progress _ _ _ _) _ ?s1] =>
    destruct (read_progress_chain py_float d (fun _ _ => True) same_phase
                (loop_keeps_phase py_float d) (stdout p) 0%Q s1 I)
      as (o' & docs & s2 & E & _ & _ & _ & Hm & _)
  end.
  rewrite (bind_ok _ _ _ _ _ E).
  destruct (stdout_error p); [exact Hm|].
  unfold bind, read_stderr. destruct (stderr p); [|exact Hm].
  destruct (returncode p =? 0)%Z; exact Hm.
Qed.

Lemma convert_video_mtimes (e : env) (input_path output_path : string) (s : sys) :
  mtimes (snd (convert_video py_float e input_path output_path s)) =
  match subprocess_Popen e (encoder_cmd e input_path output_path) with
  | Ok p => match output_mtime p with
            | Some t => fs_write (mtimes s) output_path t
            | None => mtimes s
            end
  | Raise _ => mtimes s
  end.
Proof.
  unfold convert_video. rewrite bind_update.
  rewrite (bind_ok _ _ _ _ _ (probe_duration_run py_float _ _ _)).
  rewrite (bind_ok _ _ _ _ _ (check_quick_sync_run _ _)).
  rewrite (bind_ok _ _ _ _ _ (select_encoder_run _ _ _ _)).
  set (s2 := publish _ [kw_method (Some (method_name e))]).
  assert (Hm2 : mtimes s2 = mtimes s) by (unfold s2; destruct (device_check e); reflexivity).
  clearbody s2.
  pose proof (transcode_mtimes e (encoder_cmd e input_path output_path)
                (duration_of py_float e input_path) output_path s2) as Ht.
  rewrite Hm2 in Ht. unfold try_except.
  destruct (transcode py_float e (encoder_cmd e input_path output_path)
              (duration_of py_float e input_path) output_path s2) as [[b|ex] s3].
  - exact Ht.
  - rewrite <- Ht. destruct ex; reflexivity.
Qed.

Lemma fs_lookup_write_same (fs : list (string * Q)) (p : string) (t : Q) :
  fs_lookup (fs_write fs p t) p = Some t.
Proof. unfold fs_write. cbn. rewrite String.eqb_refl. reflexivity. Qed.

Lemma fs_lookup_write_other (fs : list (string * Q)) (p q : string) (t : Q) :
  q <> p -> fs_lookup (fs_write fs p t) q = fs_lookup fs q.
Proof.
  intros H. unfold fs_write. cbn.
  destruct (String.eqb p q) eqn:E; [apply String.eqb_eq in E; congruence|reflexivity].
Qed.

(** X8.  When the encoder was started and left an output file at least as
    new as the input, [needs_conversion] answers [False] for that pair right
    after [convert_video], whatever the exit code of the encoder was. *)
Theorem written_output_is_not_retried (e : env) (input_path output_path : string)
    (s : sys) (p : process) (t mi : Q) :
  subprocess_Popen e (encoder_cmd e input_path output_path) = Ok p ->
  output_mtime p = Some t ->
  fs_lookup (mtimes s) input_path = Some mi ->
  input_path <> output_path ->
  (mi <= t)%Q ->
  let s' := snd (convert_video py_float e input_path output_path s) in
  needs_conversion input_path output_path s' = (Ok false, s').
Proof.
  intros Hp Ht Hi Hne Hle s'.
  rewrite needs_conversion_cases. unfold s'.
  rewrite convert_video_mtimes, Hp, Ht.
  rewrite fs_lookup_write_same, (fs_lookup_write_other _ _ _ _ Hne), Hi.
  apply gt_false in Hle. rewrite Hle. reflexivity.
Qed.

End ScanBehaviour.

(** ** The closing documents *)

(** X6.  [needs_conversion] raises exactly when the output exists and the
    modification time of the input cannot be read; the exception is the
    [OSError] of [getmtime] and the state is untouched. *)
Theorem needs_conversion_raises_iff (input_path output_path : string) (s : sys)
    (ex : exn) (s' : sys) :
  needs_conversion input_path output_path s = (Raise ex, s') <->
  ex = OSError /\ s' = s /\
  fs_lookup (mtimes s) output_path <> None /\ fs_lookup (mtimes s) input_path = None.
Proof.
  rewrite needs_conversion_cases.
  destruct (fs_lookup (mtimes s) output_path) as [mo|];
    destruct (fs_lookup (mtimes s) input_path) as [mi|]; split;
    try discriminate; try (intros (_ & _ & H1 & H2); congruence).
  - intros H. injection H as <- <-. repeat split. discriminate.
  - intros (-> & -> & _). reflexivity.
Qed.

Lemma int_le_neg (q : Q) (n : Z) :
  (n <= 0)%Z -> (q <= inject_Z n)%Q -> (Py.int q <= n)%Z.
Proof.
  destruct q as [a b]. unfold Qle, Py.int. cbn [Qnum Qden inject_Z]. intros Hn H.
  assert (Ha : (a <= n * Z.pos b)%Z) by lia.
  pose proof (Z.quot_le_mono a (n * Z.pos b) (Z.pos b) ltac:(lia) Ha) as Hq.
  rewrite Z.quot_mul in Hq by lia. exact Hq.
Qed.

Lemma Forall_last (P : ConversionStatus -> Prop) (l : list ConversionStatus)
    (c : ConversionStatus) :
  Forall P l -> P c -> P (last l c).
Proof.
  intros Hl; revert c; induction Hl as [|x l Hx Hl IH]; intros c Hc; [exact Hc|].
  rewrite last_cons. apply IH, Hx.
Qed.

Section ClosingDocuments.

Variable py_float : string -> option Q.

(** X18.  The two closing documents of a conversion (completed or
    error, then idle) carry the speed and the eta of the last active document:
    [convert_video] does not clear them when it ends. *)
Theorem closing_documents_keep_speed_and_eta
    (e : env) (input_path output_path : string) (s : sys) :
  exists b s' before last_working closing final,
    convert_video py_float e input_path output_path s = (Ok b, s') /\
    published s' = (published s ++ before ++ [last_working; closing; final])%list /\
    active last_working = true /\ status final = "idle" /\
    speed closing = speed last_working /\ eta closing = eta last_working /\
    speed final = speed last_working /\ eta final = eta last_working.
Proof.
  destruct (convert_video_shape py_float e input_path output_path s)
    as (body & s' & E & Hem & Hbody & _ & _).
  set (c1 := starting_doc (conversion_status s) input_path) in *.
  set (c2 := method_doc c1 (method_name e)) in *.
  set (ok := run_succeeds e input_path output_path) in *.
  set (x := last body c2) in *.
  assert (Hx : last (c1 :: c2 :: body) c1 = x)
    by (unfold x; rewrite 2 last_cons; reflexivity).
  assert (Hsplit : (c1 :: c2 :: body = removelast (c1 :: c2 :: body) ++ [x])%list).
  { rewrite <- Hx. apply app_removelast_last. discriminate. }
  assert (Hact : active x = true).
  { unfold x. apply Forall_last; [|reflexivity].
    eapply Forall_impl; [|exact Hbody]. intros c (Ha & _). exact Ha. }
  exists ok, s', (removelast (c1 :: c2 :: body)), x,
    (if ok then completed_doc x else error_doc x), (idle_doc x).
  split; [exact E|]. split.
  { destruct Hem as [-> _]. f_equal.
    change ([c1; c2] ++ body ++ closing_docs ok x)%list
      with ((c1 :: c2 :: body) ++ closing_docs ok x)%list.
    rewrite Hsplit at 1. rewrite closing_docs_split, <- app_assoc. reflexivity. }
  split; [exact Hact|]. split; [reflexivity|].
  destruct ok; repeat split.
Qed.

End ClosingDocuments.

(** ** Progress and eta of single lines *)

Lemma percentage_full (d v : Q) :
  (0 < d)%Q -> (d <= Py.truediv v 1000000)%Q -> (100 <= percentage d v)%Q.
Proof.
  intros Hd Hv. unfold percentage.
  assert (E100 : Py.mul 1 100 = 100%Q) by (vm_compute; reflexivity).
  apply Qle_trans with (Py.mul 1 100); [rewrite E100; apply Qle_refl|].
  apply mul_mono_l; [discriminate|].
  change (Py.fl 1 <= Py.truediv (Py.truediv v 1000000) d)%Q.
  apply fl_mono, Qle_shift_div_l; [exact Hd|]. rewrite Qmult_1_l. exact Hv.
Qed.

Lemma percentage_negative (d v : Q) :
  (0 < d)%Q -> (Py.truediv v 1000000 <= - d)%Q -> (percentage d v <= -100)%Q.
Proof.
  intros Hd Hv. unfold percentage.
  assert (E100 : Py.mul (-1) 100 = (-100)%Q) by (vm_compute; reflexivity).
  apply Qle_trans with (Py.mul (-1) 100); [|rewrite E100; apply Qle_refl].
  apply mul_mono_l; [discriminate|].
  change (Py.truediv (Py.truediv v 1000000) d <= Py.fl (-1))%Q.
  apply fl_mono, Qle_shift_div_r; [exact Hd|].
  eapply Qle_trans; [exact Hv|]. apply Qle_lteq. right. ring.
Qed.

Section ProgressLines.

Variable py_float : string -> option Q.

(** X19.  With a known positive duration, an [out_time_ms] line whose
    [out_time] (the value divided by 1000000.0) is at or beyond the duration
    is published as progress 100, the computed percentage being finite. *)
Theorem progress_is_100_from_the_end_on (d v out_time : Q) (raw text : string) (s : sys) :
  Py.strip raw = "out_time_ms=" ++ text ->
  py_float text = Some v ->
  (0 < d)%Q ->
  (d <= Py.truediv v 1000000)%Q ->
  Py.isinf (percentage d v) = false ->
  exists s',
    handle_line py_float (Some d) out_time raw s = (Ok (Py.truediv v 1000000), s') /\
    published s' = (published s ++ [conversion_status s'])%list /\
    progress (conversion_status s') = 100%Z.
Proof.
  intros Hraw Hv Hd Hend Hfin.
  rewrite handle_line_spec, (decode_out_time_ms py_float raw text v Hraw Hv).
  rewrite (proj2 (progress_published_iff d v) (conj Hd Hfin)).
  eexists. split; [reflexivity|]. split; [reflexivity|].
  cbn. unfold progress_at.
  pose proof (percentage_full d v Hd Hend) as H100.
  rewrite int_floor by (eapply Qle_trans; [|exact H100]; discriminate).
  apply Qfloor_resp_le in H100. change (Qfloor 100) with 100%Z in H100. lia.
Qed.

(** X20.  There is no lower clamp: with a known positive duration [d], an
    [out_time_ms] line whose [out_time] (the value divided by 1000000.0) is
    at or below [-d] is published as a progress of -100 or less, the computed
    percentage being finite. *)
Theorem progress_has_no_lower_clamp
    (d v out_time : Q) (raw text : string) (s : sys) :
  Py.strip raw = "out_time_ms=" ++ text ->
  py_float text = Some v ->
  (0 < d)%Q ->
  (Py.truediv v 1000000 <= - d)%Q ->
  Py.isinf (percentage d v) = false ->
  exists s',
    handle_line py_float (Some d) out_time raw s = (Ok (Py.truediv v 1000000), s') /\
    published s' = (published s ++ [conversion_status s'])%list /\
    (progress (conversion_status s') <= -100)%Z.
Proof.
  intros Hraw Hv Hd Hneg Hfin.
  rewrite handle_line_spec, (decode_out_time_ms py_float raw text v Hraw Hv).
  rewrite (proj2 (progress_published_iff d v) (conj Hd Hfin)).
  eexists. split; [reflexivity|]. split; [reflexivity|].
  cbn. unfold progress_at.
  pose proof (int_le_neg _ (-100) ltac:(lia) (percentage_negative d v Hd Hneg)). lia.
Qed.

(** X21.  When the duration is unknown, zero or negative, an
    [out_time_ms] line publishes nothing; only [out_time] is updated. *)
Theorem no_progress_without_positive_duration
    (d : option Q) (v out_time : Q) (raw text : string) (s : sys) :
  Py.strip raw = "out_time_ms=" ++ text ->
  py_float text = Some v ->
  (d = None \/ exists q, d = Some q /\ (q <= 0)%Q) ->
  handle_line py_float d out_time raw s = (Ok (Py.truediv v 1000000), s).
Proof.
  intros Hraw Hv Hd.
  rewrite handle_line_spec, (decode_out_time_ms py_float raw text v Hraw Hv).
  assert (E : duration_positive d = false).
  { destruct Hd as [->|(q & -> & Hq)]; [reflexivity|].
    destruct (duration_positive (Some q)) eqn:E; [|reflexivity].
    apply duration_positive_iff in E. exfalso. exact (Qlt_not_le _ _ E Hq). }
  unfold progress_published. rewrite E. reflexivity.
Qed.

Lemma decode_speed (raw text : string) (v : Q) :
  Py.strip raw = "speed=" ++ text ->
  py_float (Py.strip (Py.remove_char "x" text)) = Some v ->
  decode_line py_float raw = Speed v.
Proof.
  intros Hraw Hv. unfold decode_line. rewrite Hraw.
  change (String.eqb ("speed=" ++ text) "") with false. cbv iota.
  change (Py.startswith "out_time_ms=" ("speed=" ++ text)) with false. cbv iota.
  unfold Py.startswith. rewrite prefix_app.
  change (after_eq ("speed=" ++ text)) with text. rewrite Hv. reflexivity.
Qed.

(** X22.  With a non-zero duration [d], a speed line with a positive
    speed [v] read after a positive [out_time] publishes two documents: one
    with the speed, then one with eta = max(0, floor(r)), where r is
    (d - out_time) / v as the code computes it on floats, the subtraction
    and the division each rounded to the nearest float, provided the
    remaining time is finite. *)
Theorem speed_line_publishes_speed_then_eta
    (d v out_time : Q) (raw text : string) (s : sys) :
  Py.strip raw = "speed=" ++ text ->
  py_float (Py.strip (Py.remove_char "x" text)) = Some v ->
  ~ (d == 0)%Q -> (0 < v)%Q -> (0 < out_time)%Q ->
  Py.isinf (remaining d out_time v) = false ->
  exists with_speed with_eta s',
    handle_line py_float (Some d) out_time raw s = (Ok out_time, s') /\
    published s' = (published s ++ [with_speed; with_eta])%list /\
    speed with_speed = Some v /\ eta with_speed = eta (conversion_status s) /\
    speed with_eta = Some v /\
    eta with_eta = Some (Z.max 0 (Qfloor (Py.truediv (Py.sub d out_time) v))).
Proof.
  intros Hraw Hv Hd Hv0 Hot Hfin.
  rewrite handle_line_spec, (decode_speed raw text v Hraw Hv).
  assert (E : eta_published (Some d) v out_time = true).
  { unfold eta_published, eta_computable, Py.truthy. cbn [duration_value].
    apply gt_true in Hv0, Hot. rewrite Hv0, Hot, Hfin.
    destruct (Qeq_bool d 0) eqn:Eq; [apply Qeq_bool_iff in Eq; contradiction|reflexivity]. }
  rewrite E. eexists _, _, _. split; [reflexivity|].
  split; [cbn; rewrite <- app_assoc; reflexivity|].
  split; [reflexivity|]. split; [reflexivity|]. split; [reflexivity|].
  cbn [eta conversion_status publish dict_update fold_left set_key duration_value].
  f_equal. unfold eta_at, remaining, Py.max0.
  destruct (Py.gt (Py.truediv (Py.sub d out_time) v) 0) eqn:G.
  - apply gt_true in G. rewrite int_floor by (apply Qlt_le_weak, G).
    pose proof (Qfloor_resp_le _ _ (Qlt_le_weak _ _ G)) as H0.
    change (Qfloor 0) with 0%Z in H0. lia.
  - apply gt_false in G. apply Qfloor_resp_le in G.
    change (Qfloor 0) with 0%Z in G. change (Py.int 0) with 0%Z. lia.
Qed.

End ProgressLines.

(** ** [parse_ffmpeg_progress] *)

Lemma lstrip_keeps_char (c : ascii) (s : string) :
  Py.isspace c = false ->
  Py.str_in (String c "") (Py.lstrip s) = Py.str_in (String c "") s.
Proof.
  intros Hc. induction s as [|d s IH]; [reflexivity|].
  cbn [Py.lstrip]. destruct (Py.isspace d) eqn:Ed; [|reflexivity].
  rewrite IH, str_in_char_cons.
  destruct (Ascii.eqb d c) eqn:E; [apply Ascii.eqb_eq in E; congruence|reflexivity].
Qed.

Lemma rstrip_keeps_char (c : ascii) (s : string) :
  Py.isspace c = false ->
  Py.str_in (String c "") (Py.rstrip s) = Py.str_in (String c "") s.
Proof.
  intros Hc. induction s as [|d s IH]; [reflexivity|].
  cbn [Py.rstrip]. rewrite str_in_char_cons, <- IH.
  destruct (Py.rstrip s) as [|x t].
  - destruct (Py.isspace d) eqn:Ed.
    + destruct (Ascii.eqb d c) eqn:E; [apply Ascii.eqb_eq in E; congruence|reflexivity].
    + rewrite str_in_char_cons. reflexivity.
  - rewrite (str_in_char_cons c d (String x t)). reflexivity.
Qed.

Lemma strip_keeps_char (c : ascii) (s : string) :
  Py.isspace c = false ->
  Py.str_in (String c "") (Py.strip s) = Py.str_in (String c "") s.
Proof.
  intros Hc. unfold Py.strip. rewrite rstrip_keeps_char, lstrip_keeps_char; auto.
Qed.

Lemma split1_none (c : ascii) (s : string) :
  split1 c s = None <-> Py.str_in (String c "") s = false.
Proof.
  induction s as [|d s IH]; [split; reflexivity|].
  cbn [split1]. rewrite str_in_char_cons.
  destruct (Ascii.eqb d c); [split; discriminate|].
  cbn [orb]. rewrite <- IH. destruct (split1 c s) as [[k v]|]; split; congruence.
Qed.

Lemma split1_some (c : ascii) (s k v : string) :
  split1 c s = Some (k, v) ->
  s = k ++ String c v /\ Py.str_in (String c "") k = false.
Proof.
  revert k; induction s as [|d s IH]; intros k; [discriminate|].
  cbn [split1]. destruct (Ascii.eqb d c) eqn:E.
  - intros H. injection H as <- <-. apply Ascii.eqb_eq in E. subst d. split; reflexivity.
  - destruct (split1 c s) as [[k' v']|]; [|discriminate].
    intros H. injection H as <- <-. destruct (IH k' eq_refl) as [-> Hk].
    split; [reflexivity|]. rewrite str_in_char_cons, E, Hk. reflexivity.
Qed.

Lemma lstrip_head (s : string) (c : ascii) (t : string) :
  Py.lstrip s = String c t -> Py.isspace c = false.
Proof.
  induction s as [|d s IH]; [discriminate|].
  cbn [Py.lstrip]. destruct (Py.isspace d) eqn:E; [exact IH|].
  intros H. injection H as <- _. exact E.
Qed.

Lemma rstrip_idem (s : string) : Py.rstrip (Py.rstrip s) = Py.rstrip s.
Proof.
  induction s as [|c s IH]; [reflexivity|].
  cbn [Py.rstrip]. destruct (Py.rstrip s) as [|x t] eqn:E.
  - destruct (Py.isspace c) eqn:Ec; [reflexivity|].
    cbn [Py.rstrip]. rewrite Ec. reflexivity.
  - cbn [Py.rstrip] in *. rewrite IH. reflexivity.
Qed.

Lemma rstrip_head (c : ascii) (t : string) :
  Py.isspace c = false -> exists t', Py.rstrip (String c t) = String c t'.
Proof.
  intros Hc. cbn [Py.rstrip]. destruct (Py.rstrip t); [rewrite Hc|]; eauto.
Qed.

Lemma strip_idem (s : string) : Py.strip (Py.strip s) = Py.strip s.
Proof.
  unfold Py.strip. destruct (Py.lstrip s) as [|c t] eqn:E; [reflexivity|].
  pose proof (lstrip_head _ _ _ E) as Hc.
  destruct (rstrip_head c t Hc) as [t' Ht]. rewrite Ht.
  cbn [Py.lstrip]. rewrite Hc, <- Ht. apply rstrip_idem.
Qed.

(** X23.  [parse_ffmpeg_progress] returns [None] exactly for the lines
    without an equals sign. *)
Theorem parse_ffmpeg_progress_none_iff (line : string) :
  parse_ffmpeg_progress line = None <-> Py.str_in "=" line = false.
Proof.
  unfold parse_ffmpeg_progress. destruct (Py.str_in "=" line) eqn:E; cbn [negb].
  - split; [|discriminate].
    destruct (split1 "=" (Py.strip line)) as [[k v]|] eqn:S; [discriminate|].
    apply split1_none in S. rewrite strip_keeps_char in S by reflexivity. congruence.
  - split; reflexivity.
Qed.

(** X24.  When [parse_ffmpeg_progress] returns a key and a value, the
    stripped line is [k0=v0] with no equals sign in [k0], the key is [k0]
    stripped and the value is [v0] stripped; key and value have no
    surrounding white space and the key has no equals sign. *)
Theorem parse_ffmpeg_progress_some (line key value : string) :
  parse_ffmpeg_progress line = Some (key, value) ->
  exists k0 v0,
    Py.strip line = k0 ++ "=" ++ v0 /\ Py.str_in "=" k0 = false /\
    key = Py.strip k0 /\ value = Py.strip v0 /\
    Py.str_in "=" key = false /\ Py.strip key = key /\ Py.strip value = value.
Proof.
  unfold parse_ffmpeg_progress. destruct (Py.str_in "=" line); cbn [negb]; [|discriminate].
  destruct (split1 "=" (Py.strip line)) as [[k0 v0]|] eqn:S; [|discriminate].
  intros H. injection H as <- <-. destruct (split1_some _ _ _ _ S) as [Hs Hk].
  exists k0, v0. split; [exact Hs|]. split; [exact Hk|].
  split; [reflexivity|]. split; [reflexivity|].
  split; [rewrite strip_keeps_char by reflexivity; exact Hk|].
  split; apply strip_idem.
Qed.

(** ** More concrete inputs *)

(** X1.  For an input below /input whose directories are ordinary names and whose
    file name is [stem.ext] (the stem not made of dots only, the extension
    without a dot), [get_output_path] gives the same relative position below
    /output with the extension replaced by [.mp4]. *)
Theorem get_output_path_mirrors (dirs : list string) (stem ext : string) :
  Forall path_component dirs ->
  Py.str_in "/" stem = false -> Py.has_non_dot stem = true ->
  Py.str_in "/" ext = false -> Py.str_in "." ext = false ->
  get_output_path ("/input/" ++ String.concat "/" (dirs ++ [stem ++ "." ++ ext]))
  = "/output/" ++ String.concat "/" (dirs ++ [stem ++ ".mp4"]).
Proof. apply get_output_path_components. Qed.

Lemma path_component_literal (c : string) :
  c <> "" -> c <> "." -> c <> ".." -> Py.str_in "/" c = false -> path_component c.
Proof. intros; repeat split; assumption. Qed.

Lemma get_output_path_mirrors_witness :
  get_output_path "/input/shows/s01/e01.final.MKV" = "/output/shows/s01/e01.final.mp4".
Proof.
  apply (get_output_path_mirrors ["shows"; "s01"] "e01.final" "MKV");
    try reflexivity.
  repeat constructor; discriminate.
Defined.

(** X2.  Two inputs in the same directory that differ only in their
    extension have the same output path. *)
Theorem get_output_path_forgets_extension (dirs : list string) (stem ext1 ext2 : string) :
  Forall path_component dirs ->
  Py.str_in "/" stem = false -> Py.has_non_dot stem = true ->
  Py.str_in "/" ext1 = false -> Py.str_in "." ext1 = false ->
  Py.str_in "/" ext2 = false -> Py.str_in "." ext2 = false ->
  get_output_path ("/input/" ++ String.concat "/" (dirs ++ [stem ++ "." ++ ext1]))
  = get_output_path ("/input/" ++ String.concat "/" (dirs ++ [stem ++ "." ++ ext2])).
Proof.
  intros Hdirs Hs Hnd H1 H1' H2 H2'.
  rewrite 2 get_output_path_components by assumption. reflexivity.
Qed.

Lemma get_output_path_forgets_extension_witness :
  get_output_path "/input/a/clip.avi" = get_output_path "/input/a/clip.mkv".
Proof.
  apply (get_output_path_forgets_extension ["a"] "clip" "avi" "mkv"); try reflexivity.
  repeat constructor; discriminate.
Defined.

(** X5.  A listed file whose name is a non-empty stem followed by one of
    the ten extensions, in any mix of upper and lower case, is returned by
    [get_video_files]. *)
Theorem get_video_files_any_case (e : env) (directory root : string)
    (dirs files : list string) (stem ext : string) :
  In (root, dirs, files) (os_walk e directory) ->
  In (stem ++ ext) files ->
  stem <> "" ->
  In (Py.lower ext) VIDEO_EXTENSIONS ->
  In (Py.join root (stem ++ ext)) (get_video_files e directory).
Proof.
  intros Hw Hf Hs Hext.
  destruct (recognised_extension_shape ext Hext) as (t & -> & Ht & Hd).
  apply in_get_video_files. exists root, dirs, files, (stem ++ String "." t).
  split; [exact Hw|]. split; [exact Hf|]. split; [|reflexivity].
  rewrite (suffix_of_extension stem t Hs Ht Hd). exact Hext.
Qed.

Lemma get_video_files_any_case_witness :
  In (Py.join "/input" "Holiday.MoV")
     (get_video_files (host None (Raise OSError) (Raise OSError) (Raise OSError)
                         ["notes.txt"; "Holiday.MoV"]) "/input").
Proof.
  apply (get_video_files_any_case _ "/input" "/input" [] ["notes.txt"; "Holiday.MoV"]
           "Holiday" ".MoV").
  - left; reflexivity.
  - right; left; reflexivity.
  - discriminate.
  - cbn. tauto.
Defined.

Lemma get_video_files_complete_witness :
  In "/input/b.MP4"
     (get_video_files (host None (Raise OSError) (Raise OSError) (Raise OSError)
                         ["b.MP4"; "notes.txt"]) "/input").
Proof.
  apply (proj2 (get_video_files_complete _ "/input" "/input/b.MP4")).
  exists "/input", [], ["b.MP4"; "notes.txt"], "b.MP4".
  split; [left; reflexivity|]. split; [left; reflexivity|].
  split; [left; reflexivity|reflexivity].
Defined.

Lemma needs_conversion_raises_iff_witness :
  needs_conversion "/input/a.avi" "/output/a.mp4" sys_unreadable_input
  = (Raise OSError, sys_unreadable_input).
Proof.
  apply (proj2 (needs_conversion_raises_iff "/input/a.avi" "/output/a.mp4"
                  sys_unreadable_input OSError sys_unreadable_input)).
  repeat split. discriminate.
Defined.

Lemma up_to_date_pass_does_nothing_witness :
  scan_and_convert Decimal.float host_software sys_converted = (Ok tt, sys_converted).
Proof.
  apply (up_to_date_pass_does_nothing Decimal.float host_software sys_converted).
  intros p [<-|[]]. exists 1%Q, 10%Q.
  split; [reflexivity|]. split; [reflexivity|discriminate].
Defined.

Lemma written_output_is_not_retried_witness :
  fst (convert_video Decimal.float host_partial_output "/input/clip.avi" "/output/clip.mp4"
         sys_new_input) = Ok false /\
  let s' := snd (convert_video Decimal.float host_partial_output "/input/clip.avi"
                   "/output/clip.mp4" sys_new_input) in
  needs_conversion "/input/clip.avi" "/output/clip.mp4" s' = (Ok false, s').
Proof.
  split; [reflexivity|].
  apply (written_output_is_not_retried Decimal.float host_partial_output
           "/input/clip.avi" "/output/clip.mp4" sys_new_input run_exit1_partial 10 1);
    try reflexivity; discriminate.
Defined.


Lemma unrecognised_line_is_ignored_witness :
  handle_line Decimal.float (Some 16%Q) 3%Q "progress=continue" sys_init
  = (Ok 3%Q, sys_init) /\
  handle_line Decimal.float (Some 16%Q) 3%Q "out_time_ms=N/A" sys_init
  = (Ok 3%Q, sys_init).
Proof.
  split.
  - apply (unrecognised_line_is_ignored Decimal.float (Some 16%Q) 3%Q
             "progress=continue" sys_init).
    left. split; reflexivity.
  - apply (unrecognised_line_is_ignored Decimal.float (Some 16%Q) 3%Q
             "out_time_ms=N/A" sys_init).
    right; left. split; reflexivity.
Defined.

(** An encoder that exits 0 but whose error channel cannot be decoded: the
    conversion is reported as failed. *)
Example exit_0_with_unreadable_stderr :
  returncode run_garbled_stderr = 0%Z /\
  let '(r, s') := convert_video Decimal.float host_garbled_stderr "/input/clip.avi"
                    "/output/clip.mp4" sys_init in
  r = Ok false /\
  map status (published s') =
    ["starting"; "starting"; "converting"; "converting"; "error"; "idle"].
Proof. vm_compute. repeat split. Qed.

(** Rounding shows in the published numbers: 29 s, 57 s and 58 s of a 100 s
    input are published as 28, 56 and 57 percent. *)
Example rounded_percentages :
  map (fun v => progress_at 100 v) [29000000; 50000000; 57000000; 58000000]%Q
  = [28; 50; 56; 57]%Z.
Proof. vm_compute. reflexivity. Qed.

(** Two lines of a 3 s input: the eta of the second is computed from the
    rounded [out_time] of the first. *)
Example rounded_lines :
  let '(r, s') := read_progress Decimal.float (Some 3%Q)
                    ["out_time_ms=100000"; "speed=0.1x"] 0%Q sys_init in
  r = Ok (3602879701896397 # 36028797018963968) /\
  map (fun c => (progress c, eta c)) (published s') =
    [(3, None); (3, None); (3, Some 28)]%Z.
Proof. vm_compute. repeat split. Qed.

(** A percentage beyond the range of floats (1e14 s of a 1e-300 s input):
    [int()] raises, the loop swallows the exception, nothing is published
    and [out_time] is updated. *)
Example overflowing_percentage :
  let d := Py.fl (1 # 10 ^ 300) in
  Py.isinf (percentage d (10 ^ 20)) = true /\
  handle_line Decimal.float (Some d) 0%Q "out_time_ms=100000000000000000000" sys_init
  = (Ok (100000000000000 # 1)%Q, sys_init).
Proof. vm_compute. split; reflexivity. Qed.

Lemma convert_video_returns_exit_status_witness :
  exists b s',
    convert_video Decimal.float host_software "/input/clip.avi" "/output/clip.mp4" sys_init
    = (Ok b, s') /\
    (b = true <->
     exists p text,
       subprocess_Popen host_software
         (encoder_cmd host_software "/input/clip.avi" "/output/clip.mp4") = Ok p /\
       stdout_error p = None /\ stderr p = Ok text /\ returncode p = 0%Z).
Proof.
  exact (convert_video_returns_exit_status Decimal.float host_software
           "/input/clip.avi" "/output/clip.mp4" sys_init).
Defined.

Lemma progress_is_100_from_the_end_on_witness :
  exists s',
    handle_line Decimal.float (Some 16%Q) 0%Q "out_time_ms=16500000" sys_init
    = (Ok (Py.truediv 16500000 1000000), s') /\
    published s' = (published sys_init ++ [conversion_status s'])%list /\
    progress (conversion_status s') = 100%Z.
Proof.
  apply (progress_is_100_from_the_end_on Decimal.float 16 16500000 0
           "out_time_ms=16500000" "16500000" sys_init);
    [reflexivity|vm_compute; reflexivity|reflexivity|vm_compute; discriminate
    |vm_compute; reflexivity].
Defined.

(** X20 on the value ffmpeg prints while it has no timestamp yet. *)
Lemma progress_has_no_lower_clamp_witness :
  exists s',
    handle_line Decimal.float (Some 16%Q) 0%Q "out_time_ms=-9223372036854775808" sys_init
    = (Ok (Py.truediv (-9223372036854775808) 1000000), s') /\
    published s' = (published sys_init ++ [conversion_status s'])%list /\
    (progress (conversion_status s') <= -100)%Z.
Proof.
  apply (progress_has_no_lower_clamp Decimal.float 16
           (-9223372036854775808) 0
           "out_time_ms=-9223372036854775808" "-9223372036854775808" sys_init);
    [reflexivity|vm_compute; reflexivity|reflexivity|vm_compute; discriminate
    |vm_compute; reflexivity].
Defined.

Lemma no_progress_without_positive_duration_witness :
  handle_line Decimal.float (Some 0%Q) 0%Q "out_time_ms=3000000" sys_init
  = (Ok (Py.truediv 3000000 1000000), sys_init).
Proof.
  apply (no_progress_without_positive_duration Decimal.float (Some 0%Q) 3000000 0
           "out_time_ms=3000000" "3000000" sys_init);
    [reflexivity|vm_compute; reflexivity|].
  right. exists 0%Q. split; [reflexivity|discriminate].
Defined.

(** X22 on a 3 s input, 0.1 s into it, at speed 0.1x: (3.0 - 0.1) / 0.1 is
    28.999999999999996 on floats, and the eta is 28. *)
Lemma speed_line_publishes_speed_then_eta_witness :
  Z.max 0 (Qfloor (Py.truediv (Py.sub 3 (Py.truediv 100000 1000000)) (Py.fl (1 # 10))))
  = 28%Z /\
  exists with_speed with_eta s',
    handle_line Decimal.float (Some 3%Q) (Py.truediv 100000 1000000) "speed=0.1x" sys_init
    = (Ok (Py.truediv 100000 1000000), s') /\
    published s' = (published sys_init ++ [with_speed; with_eta])%list /\
    speed with_speed = Some (Py.fl (1 # 10)) /\
    eta with_speed = eta (conversion_status sys_init) /\
    speed with_eta = Some (Py.fl (1 # 10)) /\
    eta with_eta =
      Some (Z.max 0 (Qfloor (Py.truediv (Py.sub 3 (Py.truediv 100000 1000000))
                                         (Py.fl (1 # 10))))).
Proof.
  split; [vm_compute; reflexivity|].
  apply (speed_line_publishes_speed_then_eta Decimal.float 3 (Py.fl (1 # 10))
           (Py.truediv 100000 1000000) "speed=0.1x" "0.1x" sys_init);
    [reflexivity|vm_compute; reflexivity|discriminate|vm_compute; reflexivity
    |vm_compute; reflexivity|vm_compute; reflexivity].
Defined.

Lemma parse_ffmpeg_progress_none_iff_witness :
  parse_ffmpeg_progress "frame 42" = None.
Proof.
  apply (proj2 (parse_ffmpeg_progress_none_iff "frame 42")). reflexivity.
Defined.

Lemma parse_ffmpeg_progress_some_witness :
  parse_ffmpeg_progress "  speed = 1.5x
" = Some ("speed", "1.5x") /\
  exists k0 v0,
    Py.strip "  speed = 1.5x
" = k0 ++ "=" ++ v0 /\ Py.str_in "=" k0 = false /\
    "speed" = Py.strip k0 /\ "1.5x" = Py.strip v0 /\
    Py.str_in "=" "speed" = false /\ Py.strip "speed" = "speed" /\
    Py.strip "1.5x" = "1.5x".
Proof.
  split; [reflexivity|].
  apply (parse_ffmpeg_progress_some "  speed = 1.5x
" "speed" "1.5x"). reflexivity.
Defined.
